(** * Price-comparison scraper: reconciliation pipeline

    A shallow embedding of the Python sources
    [traitement_principal.py] and [scraper_utils.py], and the properties
    of the reconciliation pipeline proved (or refuted) on it.

    Conventions of the embedding.
    - A Python [str] is a [string]; each character stands for the code
      point of the same number (U+0000 .. U+00FF).
    - A Python [float] is a primitive binary64 float.
    - A pandas [DataFrame] is a list of column labels and a list of rows;
      frames are objects in a store and are passed by reference, as in
      Python: assigning to a parameter name rebinds the name, assigning
      through [.loc] or [df[col] = ...] changes the object.
    - A product name of the catalog is a [str], or NaN where the name
      cell is empty; a domain is one of the selected competitors, a
      [str].
    - External collaborators (HTTP client, HTML parser, search API,
      browser session, string similarity) are parameters, and so is
      the text pandas gives a number it read from a sheet. *)

From Stdlib Require Import ZArith String Ascii Floats Bool Permutation.
From stdpp Require Import base option list gmap strings pretty.

Local Open Scope string_scope.

(* ================================================================== *)
(** * Python strings *)
(* ================================================================== *)

Module PyStr.

(** [str.isspace] on one character, for code points below 256. *)
Definition is_space (c : ascii) : bool :=
  let n := nat_of_ascii c in
  (((9 <=? n) && (n <=? 13)) || ((28 <=? n) && (n <=? 32))
   || (n =? 133) || (n =? 160))%nat.

(** [str.lower] on one character, for code points below 256. *)
Definition lower_char (c : ascii) : ascii :=
  let n := nat_of_ascii c in
  if (((65 <=? n) && (n <=? 90))
      || ((192 <=? n) && (n <=? 222) && negb (n =? 215)))%nat
  then ascii_of_nat (n + 32) else c.

Fixpoint lower (s : string) : string :=
  match s with
  | EmptyString => EmptyString
  | String c s' => String (lower_char c) (lower s')
  end.

Fixpoint lstrip (s : string) : string :=
  match s with
  | EmptyString => EmptyString
  | String c s' => if is_space c then lstrip s' else s
  end.

Fixpoint rev_onto (s acc : string) : string :=
  match s with
  | EmptyString => acc
  | String c s' => rev_onto s' (String c acc)
  end.

Definition rev (s : string) : string := rev_onto s EmptyString.

Definition rstrip (s : string) : string := rev (lstrip (rev s)).

(** [s.strip()] *)
Definition strip (s : string) : string := rstrip (lstrip s).

(** Truth value of a [str]: the empty string is false. *)
Definition truthy (s : string) : bool :=
  match s with EmptyString => false | _ => true end.

(** [needle in hay] for two strings. *)
Fixpoint contains (needle hay : string) : bool :=
  String.prefix needle hay
  || match hay with
     | EmptyString => false
     | String _ hay' => contains needle hay'
     end.

(** [s.replace(a, b)] for single characters. *)
Fixpoint replace_char (a b : ascii) (s : string) : string :=
  match s with
  | EmptyString => EmptyString
  | String c s' =>
      String (if Ascii.eqb c a then b else c) (replace_char a b s')
  end.

Fixpoint filter_chars (keep : ascii -> bool) (s : string) : string :=
  match s with
  | EmptyString => EmptyString
  | String c s' =>
      if keep c then String c (filter_chars keep s') else filter_chars keep s'
  end.

(** The regular-expression class [\d], below code point 256. *)
Definition is_digit (c : ascii) : bool :=
  let n := nat_of_ascii c in ((48 <=? n) && (n <=? 57))%nat.

Definition digit_val (c : ascii) : Z := (Z.of_nat (nat_of_ascii c) - 48)%Z.

(** Longest run of digits at the head of [s], and the rest. *)
Fixpoint span_digits (s : string) : string * string :=
  match s with
  | String c s' =>
      if is_digit c
      then let '(d, r) := span_digits s' in (String c d, r)
      else (EmptyString, s)
  | EmptyString => (EmptyString, EmptyString)
  end.

Fixpoint digits_to_Z (acc : Z) (s : string) : Z :=
  match s with
  | EmptyString => acc
  | String c s' => digits_to_Z (10 * acc + digit_val c)%Z s'
  end.

End PyStr.

(* ================================================================== *)
(** * Python floats *)
(* ================================================================== *)

Module PyFloat.

Definition inf : float := infinity.
Definition zero : float := 0%float.

(** The double nearest to [n / d], for positive integers; this is what
    [float] gives on a decimal literal with numerator [n] and a power
    of ten [d]. *)
Definition of_ratio (neg : bool) (n d : positive) : float :=
  SF2Prim (SFdiv prec emax (S754_finite neg n 0) (S754_finite false d 0)).

(** [round(x, 2)]: the exact value of [x] is rounded to two decimals,
    halves going to the even neighbour, and the decimal result is read
    back as the nearest double.  Infinities, NaN and zeros round to
    themselves, as does every double that is already an integer. *)
Definition round2 (x : float) : float :=
  match Prim2SF x with
  | S754_finite s m e =>
      if (0 <=? e)%Z then x
      else
        let den := (2 ^ (- e))%Z in
        let num := (Z.pos m * 100)%Z in
        let q := (num / den)%Z in
        let r := (num mod den)%Z in
        let n := if (2 * r <? den)%Z then q
                 else if (den <? 2 * r)%Z then (q + 1)%Z
                 else if Z.even q then q else (q + 1)%Z in
        match n with
        | Z.pos p => of_ratio s p 100
        | _ => SF2Prim (S754_zero s)
        end
  | _ => x
  end.

(** [float(s)] for [s] matched by [\d+(\.\d+)?]: integer digits [ip]
    and fractional digits [fp]. *)
Definition of_decimal (ip fp : string) : float :=
  let n := PyStr.digits_to_Z 0 (ip ++ fp) in
  match n with
  | Z.pos p => of_ratio false p (Z.to_pos (10 ^ Z.of_nat (String.length fp)))
  | _ => zero
  end.

End PyFloat.

(* ================================================================== *)
(** * Data frames and the object store *)
(* ================================================================== *)

(** A cell of a frame: a [str], or the missing value NaN. *)
Inductive cell :=
  | CStr (s : string)
  | CNaN.

Global Instance cell_eq_dec : EqDecision cell.
Proof. solve_decision. Defined.

Global Instance cell_countable : Countable cell.
Proof.
  refine (inj_countable'
            (fun c => match c with CStr s => Some s | CNaN => None end)
            (fun o => match o with Some s => CStr s | None => CNaN end) _).
  by intros [].
Defined.

(** A product name is such a value too: the catalog gives a [str], or
    NaN where the name cell is empty.  A [str] stands for itself where
    a name is expected. *)
Coercion CStr : string >-> cell.

(** Truth value of a name; NaN is a non-zero float, hence true. *)
Definition cell_truthy (c : cell) : bool :=
  match c with
  | CStr s => PyStr.truthy s
  | CNaN => true
  end.

(** A row maps column labels to cells; a label without a binding reads
    as NaN, which is how pandas fills a column a row has no value for. *)
Record DataFrame := mkFrame {
  columns : list string;
  rows : list (gmap string cell);
}.

Definition at_col (r : gmap string cell) (c : string) : cell :=
  default CNaN (r !! c).

(** [c in df.columns] *)
Definition has_col (c : string) (df : DataFrame) : bool :=
  bool_decide (c ∈ columns df).

(** [all(col in df.columns for col in cols)] *)
Definition has_cols (cols : list string) (df : DataFrame) : bool :=
  forallb (fun c => has_col c df) cols.

(** [df.empty]: no row, or no column. *)
Definition df_empty (df : DataFrame) : bool :=
  match rows df, columns df with
  | [], _ | _, [] => true
  | _, _ => false
  end.

(** [cell == s], the element-wise comparison of a column with a [str]. *)
Definition cell_is (s : string) (c : cell) : bool :=
  match c with
  | CStr s' => String.eqb s' s
  | CNaN => false
  end.

(** [cell == v] for a name [v]: NaN is equal to nothing. *)
Definition value_is (v : cell) (c : cell) : bool :=
  match v with
  | CStr s => cell_is s c
  | CNaN => false
  end.

(** [df[col] = pd.Series(dtype='str')]: a new column without values. *)
Definition add_empty_column (c : string) (df : DataFrame) : DataFrame :=
  mkFrame (columns df ++ [c]) (map (delete c) (rows df)).

(** [for col in required: if col not in df.columns: df[col] = pd.Series(dtype='str')] *)
Definition add_missing_columns (required : list string) (df : DataFrame)
  : DataFrame :=
  fold_left
    (fun d c => if has_col c d then d else add_empty_column c d)
    required df.

(** [pd.concat([df, new], ignore_index=True)]: the columns of [df], then
    those only [new] has; the rows of [df], then the rows of [new]. *)
Definition pd_concat (df new : DataFrame) : DataFrame :=
  mkFrame
    (columns df ++ filter (fun c => c ∉ columns df) (columns new))
    (rows df ++ rows new).

Definition REQUIRED_COLUMNS_VERIFICATION : list string :=
  ["MonNomProduit"; "Concurrent"; "URLConcurrent"].
Definition REQUIRED_COLUMNS_PRODUCTS_URL : list string :=
  ["NomProduit"; "CompetitorDomain"; "URLConcurrent"].

(** [pd.DataFrame(columns=cols)] *)
Definition empty_frame (cols : list string) : DataFrame := mkFrame cols [].

(** A Python value in the place of a price, by what the code observes of
    it: whether it is [None], and what [float()] makes of it. *)
Inductive pyval :=
  | VNone                       (** [None] *)
  | VNum (f : float)            (** a value [float()] converts to [f] *)
  | VBad.                       (** a value on which [float()] raises
                                    [ValueError] or [TypeError] *)

(** What [calculate_price_difference] returns: a float or a text. *)
Inductive price_diff :=
  | PDNum (f : float)
  | PDText (s : string).

(** A report row, as appended to the result list. *)
Record ReportRow := mkReport {
  MonNomProduit : cell;
  Concurrent : string;
  NomProduitConcurrent : string;
  SimilariteNom : float;
  MonPrix : pyval;
  PrixConcurrent : pyval;
  EstMoinsCher : bool;
  DifferencePrix : price_diff;
  URLConcurrent : option string;
}.

(** The objects a run works on: the frames, addressed by their position,
    and the result list of the report. *)
Record store := mkStore {
  frames : list DataFrame;
  results_list : list ReportRow;
}.

(** A reference to a frame.  A reference that designates no frame of the
    store stands for [None]. *)
Abbreviation ref := nat (only parsing).

(** Computations on the store. *)
Definition Py (A : Type) : Type := store -> A * store.

Global Instance Py_ret : MRet Py := fun A a σ => (a, σ).
Global Instance Py_bind : MBind Py :=
  fun A B f m σ => let '(a, σ') := m σ in f a σ'.

(** Reading the object a name is bound to. *)
Definition load (r : ref) : Py (option DataFrame) :=
  fun σ => (frames σ !! r, σ).

(** Changing an object in place. *)
Definition modify (r : ref) (f : DataFrame -> DataFrame) : Py unit :=
  fun σ => (tt, mkStore (alter f r (frames σ)) (results_list σ)).

(** Creating a new object. *)
Definition alloc (df : DataFrame) : Py ref :=
  fun σ => (length (frames σ), mkStore (frames σ ++ [df]) (results_list σ)).

(** [results_list.append(row)] *)
Definition append_result (row : ReportRow) : Py unit :=
  fun σ => (tt, mkStore (frames σ) (results_list σ ++ [row])).

(* ================================================================== *)
(** * The local cache store: [traitement_principal.py], lines 214-296 *)
(* ================================================================== *)

(** [str(url or '')] *)
Definition url_string (url : option string) : string := default "" url.

(** [new_row = pd.DataFrame([{...}])[REQUIRED_COLUMNS_PRODUCTS_URL]], the
    one-row frame [save_or_update_url] builds, and the one
    [add_to_manual_verification] builds. *)
Definition products_url_row (product_name : cell) (domain : string)
    (url : option string) : DataFrame :=
  mkFrame REQUIRED_COLUMNS_PRODUCTS_URL
    [ {[ "NomProduit" := product_name;
         "CompetitorDomain" := CStr domain;
         "URLConcurrent" := CStr (url_string url) ]} ].

Definition verification_row (product_name : cell) (domain : string)
    (url : option string) : DataFrame :=
  mkFrame REQUIRED_COLUMNS_VERIFICATION
    [ {[ "MonNomProduit" := product_name;
         "Concurrent" := CStr domain;
         "URLConcurrent" := CStr (url_string url) ]} ].

(** [(df[name_col] == product_name) & (df[dom_col] == domain)], row by row *)
Definition pair_mask (name_col dom_col : string) (product_name : cell)
    (domain : string) (r : gmap string cell) : bool :=
  value_is product_name (at_col r name_col)
  && cell_is domain (at_col r dom_col).

(** The column guard the two inserting functions start with: when a needed
    column is missing, an empty frame gets the required columns (in
    place), any other frame makes the function give up. *)
Definition ensure_columns (r : ref) (needed required : list string)
    (df : DataFrame) : Py (option DataFrame) :=
  if has_cols needed df then mret (Some df)
  else if df_empty df then
    _ ← modify r (add_missing_columns required);
    mret (Some (add_missing_columns required df))
  else mret None.

(** [add_to_manual_verification(product_name, domain, verification_df, url)] *)
Definition add_to_manual_verification (product_name : cell) (domain : string)
    (verification_df : ref) (url : option string) : Py bool :=
  o ← load verification_df;
  match o with
  | None => mret false
  | Some df0 =>
      g ← ensure_columns verification_df ["MonNomProduit"; "Concurrent"]
            REQUIRED_COLUMNS_VERIFICATION df0;
      match g with
      | None => mret false
      | Some df =>
          let mask := map (pair_mask "MonNomProduit" "Concurrent"
                             product_name domain) (rows df) in
          if negb (existsb id mask) then
            let new_row := verification_row product_name domain url in
            (* verification_df = pd.concat([verification_df, new_row], ...):
               the parameter name now designates a new frame *)
            verification_df' ← alloc (pd_concat df new_row);
            mret true
          else mret false
      end
  end.

(** [remove_from_manual_verification(product_name, domain, verification_df)] *)
Definition remove_from_manual_verification (product_name : cell)
    (domain : string) (verification_df : ref) : Py bool :=
  o ← load verification_df;
  match o with
  | None => mret false
  | Some df =>
      if df_empty df then mret false
      else if negb (has_cols ["MonNomProduit"; "Concurrent"] df) then mret false
      else
        let initial_len := length (rows df) in
        let mask := pair_mask "MonNomProduit" "Concurrent"
                      product_name domain in
        if existsb mask (rows df) then
          (* verification_df = verification_df[~mask].reset_index(drop=True):
             the parameter name now designates a new frame *)
          let kept := mkFrame (columns df)
                        (List.filter (fun r => negb (mask r)) (rows df)) in
          verification_df' ← alloc kept;
          if (length (rows kept) <? initial_len)%nat then mret true
          else mret false
        else mret false
  end.

(** [df.loc[mask, "URLConcurrent"] = url_str] *)
Definition set_url_where (mask : gmap string cell -> bool) (url_str : string)
    (df : DataFrame) : DataFrame :=
  mkFrame (columns df)
    (map (fun r => if mask r then <["URLConcurrent" := CStr url_str]> r else r)
         (rows df)).

(** [save_or_update_url(product_name, domain, url, products_url_df)] *)
Definition save_or_update_url (product_name : cell) (domain : string)
    (url : option string) (products_url_df : ref) : Py bool :=
  o ← load products_url_df;
  match o with
  | None => mret false
  | Some df0 =>
      g ← ensure_columns products_url_df
            ["NomProduit"; "CompetitorDomain"; "URLConcurrent"]
            REQUIRED_COLUMNS_PRODUCTS_URL df0;
      match g with
      | None => mret false
      | Some df =>
          let url_str := url_string url in
          let mask := pair_mask "NomProduit" "CompetitorDomain"
                        product_name domain in
          match List.filter mask (rows df) with
          | first :: _ =>
              let current_url := at_col first "URLConcurrent" in
              if negb (cell_is url_str current_url) then
                _ ← modify products_url_df (set_url_where mask url_str);
                mret true
              else mret false
          | [] =>
              let new_row := products_url_row product_name domain url in
              (* products_url_df = pd.concat([products_url_df, new_row], ...):
                 the parameter name now designates a new frame *)
              products_url_df' ← alloc (pd_concat df new_row);
              mret true
          end
      end
  end.

(* ================================================================== *)
(** * Price difference: [traitement_principal.py], lines 299-312 *)
(* ================================================================== *)

(** [calculate_price_difference(my_price, competitor_price)] *)
Definition calculate_price_difference (my_price competitor_price : pyval)
  : price_diff :=
  match competitor_price, my_price with
  | VNone, _ | _, VNone => PDText "N/A"
  | VNum comp_p, VNum my_p =>
      if (0 <? comp_p)%float then
        PDNum (PyFloat.round2 (((my_p - comp_p) / comp_p) * 100)%float)
      else if (comp_p =? 0)%float && (0 <? my_p)%float then PDNum PyFloat.inf
      else if (comp_p =? 0)%float && (my_p =? 0)%float then PDNum 0%float
      else PDText "N/A"
  | _, _ => PDText "Erreur Type"
  end.

(* ================================================================== *)
(** * Statuses and results *)
(* ================================================================== *)

(** What a call to a collaborator can do: return, or raise an exception
    (named by its class). *)
Inductive outcome (A : Type) :=
  | Returned (a : A)
  | Raised (exc : string).
Arguments Returned {A} a.
Arguments Raised {A} exc.

(** A status is an HTTP code or a sentinel text. *)
Inductive status :=
  | SCode (n : Z)
  | SText (s : string).

Global Instance status_eq_dec : EqDecision status.
Proof. solve_decision. Defined.

(** [str(http_status)] *)
Definition status_str (st : status) : string :=
  match st with
  | SCode n => pretty n
  | SText s => s
  end.

(** The result dictionary of a task. *)
Record result := mkResult {
  r_status : status;
  r_name : option string;
  r_price : option float;
  r_url : option string;
  r_domain : string;
  r_my_product_name : cell;
}.

(** A scraped price as the argument it is passed on as. *)
Definition price_val (p : option float) : pyval :=
  match p with
  | Some f => VNum f
  | None => VNone
  end.

(* ================================================================== *)
(** * Result correlator: [traitement_principal.py], lines 946-1012 *)
(* ================================================================== *)

(** Truth value of a value that is [None] or a [str]: [None] and ['']
    are false. *)
Definition name_truthy (n : option string) : bool :=
  match n with
  | Some s => PyStr.truthy s
  | None => false
  end.

Definition is_none (v : pyval) : bool :=
  match v with VNone => true | _ => false end.

(** [str(competitor_name)] *)
Definition name_str (n : option string) : string := default "None" n.

(** The comparison that sets [est_moins_cher] (lines 965-976). *)
Definition est_moins_cher (my_price competitor_price : pyval) : bool :=
  match my_price, competitor_price with
  | VNum my_p, VNum comp_p => (comp_p <? my_p)%float
  | _, _ => false
  end.

(** The success condition of line 960:
    [status_str == '200' and competitor_name and competitor_price is not None] *)
Definition is_success (http_status : status) (competitor_name : option string)
    (competitor_price : pyval) : bool :=
  String.eqb (status_str http_status) "200" && name_truthy competitor_name
  && negb (is_none competitor_price).

(** The dictionary appended to the result list (lines 979-985), for the
    similarity [ratio]. *)
Definition report_row (my_product_name : cell) (my_price : pyval)
    (domain : string) (competitor_url : option string)
    (competitor_name : option string) (competitor_price : pyval)
    (ratio : float) : ReportRow :=
  mkReport my_product_name domain (name_str competitor_name)
    (PyFloat.round2 ratio) my_price competitor_price
    (est_moins_cher my_price competitor_price)
    (calculate_price_difference my_price competitor_price) competitor_url.

Section Correlator.

(** [Levenshtein.ratio] *)
Variable similarity_ratio : string -> string -> outcome float.

(** [similarity_ratio(my_product_name.lower(),
    str(competitor_name).lower())] (line 963); a name that is no [str]
    has no [lower]. *)
Definition name_similarity (my_product_name : cell)
    (competitor_name : option string) : outcome float :=
  match my_product_name with
  | CStr name =>
      similarity_ratio (PyStr.lower name)
        (PyStr.lower (name_str competitor_name))
  | CNaN => Raised "AttributeError"
  end.

(** [process_single_result(results_list, my_product_name, my_price,
    domain, competitor_url, http_status, competitor_name,
    competitor_price, verification_df, products_url_df)]; the result
    list is the one of the store.  Returns
    [(verification_changed_local, products_url_changed_local)]. *)
Definition process_single_result (my_product_name : cell)
    (my_price : pyval) (domain : string) (competitor_url : option string)
    (http_status : status) (competitor_name : option string)
    (competitor_price : pyval) (verification_df products_url_df : ref)
  : Py (bool * bool) :=
  let status_str := status_str http_status in
  '(processed_ok, verification_changed_local, products_url_changed_local) ←
    (if is_success http_status competitor_name competitor_price then
       match name_similarity my_product_name competitor_name with
       | Raised _ => mret (false, false, false)
       | Returned ratio =>
           _ ← append_result
                 (report_row my_product_name my_price domain competitor_url
                    competitor_name competitor_price ratio);
           p ← save_or_update_url my_product_name domain competitor_url
                 products_url_df;
           v ← remove_from_manual_verification my_product_name domain
                 verification_df;
           mret (true, v, p)
       end
     else mret (false, false, false));
  if negb processed_ok then
    let should_add_to_verification :=
      negb (String.eqb status_str "Verification No URL") in
    if should_add_to_verification then
      a ← add_to_manual_verification my_product_name domain
            verification_df competitor_url;
      mret (a || verification_changed_local, products_url_changed_local)
    else mret (verification_changed_local, products_url_changed_local)
  else mret (verification_changed_local, products_url_changed_local).

End Correlator.

(* ================================================================== *)
(** * Pool task: [traitement_principal.py], lines 548-657 *)
(* ================================================================== *)

(** The value of the local variable [competitor_url]: [None], or the
    cell read from a frame, or the string the search returned. *)
Definition url_value := option cell.

(** Truth value of [competitor_url]; NaN is a non-zero float, hence true. *)
Definition url_truthy (v : url_value) : bool :=
  match v with
  | None => false
  | Some (CStr s) => PyStr.truthy s
  | Some CNaN => true
  end.

(** [v and isinstance(v, str) and v.strip()] *)
Definition url_valid (v : url_value) : bool :=
  match v with
  | Some (CStr s) => PyStr.truthy s && PyStr.truthy (PyStr.strip s)
  | _ => false
  end.

(** The URL the task goes on with: [competitor_url] when it passes
    [competitor_url and isinstance(competitor_url, str)
     and competitor_url.strip()] (line 631), nothing otherwise. *)
Definition url_checked (v : url_value) : option string :=
  match v with
  | Some (CStr s) => if url_valid v then Some s else None
  | _ => None
  end.

(** The normalised key: [f"{name.strip().lower()}__{domain.strip().lower()}"] *)
Definition index_unique (my_product_name domain : string) : string :=
  PyStr.lower (PyStr.strip my_product_name) ++ "__"
  ++ PyStr.lower (PyStr.strip domain).

(** [not df.empty and "IndexUnique" in df.columns
     and index_unique in df["IndexUnique"].values] *)
Definition in_index (idx : string) (df : DataFrame) : bool :=
  negb (df_empty df) && has_col "IndexUnique" df
  && existsb (fun r => cell_is idx (at_col r "IndexUnique")) (rows df).

(** [df.loc[df["IndexUnique"] == index_unique, "URLConcurrent"]]; a frame
    without the column raises [KeyError]. *)
Definition url_series (idx : string) (df : DataFrame) : outcome (list cell) :=
  if has_col "URLConcurrent" df then
    Returned (map (fun r => at_col r "URLConcurrent")
                (List.filter (fun r => cell_is idx (at_col r "IndexUnique"))
                   (rows df)))
  else Raised "KeyError".

(** The local variables of the task that the URL search assigns. *)
Record locals := mkLocals {
  l_status : status;
  competitor_url : url_value;
  found_in_verification : bool;
  verification_has_no_url : bool;
}.

(** Step 1, the [try] block of the local lookup: the locals at its end,
    and the exception that ended it, if any. *)
Definition local_lookup (idx : string) (verification_df products_url_df : DataFrame)
    (l : locals) : locals * option string :=
  let '(l1, exc) :=
    if in_index idx verification_df then
      match url_series idx verification_df with
      | Raised e =>
          (mkLocals (l_status l) (competitor_url l) true
             (verification_has_no_url l), Some e)
      | Returned series =>
          let url := head series in
          if url_valid url
          then (mkLocals (SText "URL From Verification") url true
                  (verification_has_no_url l), None)
          else (mkLocals (SText "Verification No URL") url true true, None)
      end
    else (l, None) in
  match exc with
  | Some e => (l1, Some e)
  | None =>
      if negb (url_truthy (competitor_url l1))
         && negb (verification_has_no_url l1)
         && in_index idx products_url_df
      then
        match url_series idx products_url_df with
        | Raised e => (l1, Some e)
        | Returned series =>
            if existsb (fun r => cell_is idx (at_col r "IndexUnique"))
                 (rows products_url_df)
            then
              let temp_url := head series in
              if url_valid temp_url
              then (mkLocals (SText "URL From Cache") temp_url
                      (found_in_verification l1)
                      (verification_has_no_url l1), None)
              else (l1, None)
            else (l1, None)
        end
      else (l1, None)
  end.

(** The URL the resolution ends with, if it is one to scrape. *)
Definition resolved_url (l : locals) : option string :=
  url_checked (competitor_url l).

Section WorkerTask.

(** [search_google_serper(my_product_name, domain)] *)
Variable search_google_serper : string -> string -> outcome (option string).

(** [extract_product_info(url, domain)], as the task calls it. *)
Variable extract_product_info :
  string -> string -> outcome (option string * option float * status).

(** Steps 1 and 2, the URL resolution (lines 571-628): the locals at
    its end and the calls made to the search collaborator. *)
Definition resolve_url (my_product_name domain : string)
    (verification_df products_url_df : DataFrame)
  : locals * list (string * string) :=
  let idx := index_unique my_product_name domain in
  let l0 := mkLocals (SText "Init") None false false in
  let '(l1, exc) := local_lookup idx verification_df products_url_df l0 in
  let l2 :=
    match exc with
    | Some _ => mkLocals (SText "LocalLookupError") (competitor_url l1)
                  (found_in_verification l1) (verification_has_no_url l1)
    | None => l1
    end in
  if negb (url_truthy (competitor_url l2))
     && negb (verification_has_no_url l2)
  then
    let calls := [(my_product_name, domain)] in
    match search_google_serper my_product_name domain with
    | Returned serper_url =>
        if url_valid (CStr <$> serper_url)
        then (mkLocals (SText "URL From Serper") (CStr <$> serper_url)
                (found_in_verification l2) (verification_has_no_url l2),
              calls)
        else (mkLocals (SText "Serper Not Found") (competitor_url l2)
                (found_in_verification l2) (verification_has_no_url l2),
              calls)
    | Raised _ =>
        (mkLocals (SText "Serper API Error") (competitor_url l2)
           (found_in_verification l2) (verification_has_no_url l2), calls)
    end
  else (l2, []).

(** Step 3 (lines 630-657): scrape, or mark the task for the browser
    worker, or keep the failure status. *)
Definition scrape_or_mark (my_product_name domain : string) (l : locals)
  : result :=
  match resolved_url l with
  | Some url =>
      if String.eqb domain "lepetitvapoteur.com" then
        mkResult (SText "Requires LPV") None None (Some url) domain
          my_product_name
      else
        match extract_product_info url domain with
        | Returned (comp_name, comp_price, http_status) =>
            mkResult http_status comp_name comp_price (Some url) domain
              my_product_name
        | Raised _ =>
            mkResult (SText "ScrapingException") None None (Some url)
              domain my_product_name
        end
  | None =>
      if negb (verification_has_no_url l) then
        if bool_decide (l_status l ∈ [SText "Serper Not Found";
                                      SText "Serper API Error";
                                      SText "LocalLookupError"])
        then mkResult (l_status l) None None None domain my_product_name
        else mkResult (SText "No URL To Scrape") None None None domain
               my_product_name
      else mkResult (l_status l) None None None domain my_product_name
  end.

(** [_worker_task(my_product_name, domain, verification_df,
    products_url_df)]; the domain is one of the selected competitors,
    a [str].  On a name that is no [str] the key normalisation raises
    [AttributeError] and the task returns at once (lines 561-568). *)
Definition _worker_task (my_product_name : cell) (domain : string)
    (verification_df products_url_df : DataFrame) : result :=
  match my_product_name with
  | CStr name =>
      scrape_or_mark name domain
        (fst (resolve_url name domain verification_df products_url_df))
  | CNaN =>
      mkResult (SText "KeyNormalizationError") None None None domain
        my_product_name
  end.

End WorkerTask.

(* ================================================================== *)
(** * Browser worker: [traitement_principal.py], lines 412-545 *)
(* ================================================================== *)

(** What arrives on the task queue: the terminating [None], a dictionary
    with the keys ['url'] and ['my_product_name'], or anything else
    (kept as its [str()]). *)
Inductive task_msg :=
  | Sentinel
  | Task (url : string) (my_product_name : cell)
  | Malformed (repr : string).

(** How a run of the worker ends. *)
Inductive worker_end :=
  | InitFailed          (** the driver did not start: [return] before the loop *)
  | StoppedOnSentinel   (** [break] on [None] *)
  | WaitingForTask.     (** blocked in [url_queue.get()] on an empty queue *)

Record worker_run := mkRun {
  emitted : list result;     (** the result queue, oldest first *)
  consumed : nat;            (** messages taken from the task queue *)
  ending : worker_end;
  driver_quit : bool;        (** [driver.quit()] was called *)
}.

Section LpvWorker.

(** The browser session and the scraping routine
    [scrape_with_selenium_lpv_core(driver, url)], which may change the
    session. *)
Variable driver : Type.
Variable scrape_with_selenium_lpv_core :
  driver -> string ->
  outcome (option string * option float * status) * driver.

Definition LPV : string := "lepetitvapoteur.com".

(** The [while True] loop on the messages that are, or will be, on the
    task queue.  [last] holds the locals [url] and [my_product_name]
    as left by the previous iterations. *)
Fixpoint worker_loop (d : driver) (last : option (string * cell))
    (queue : list task_msg) : list result * nat * worker_end :=
  match queue with
  | [] => ([], 0, WaitingForTask)
  | Sentinel :: _ => ([], 1, StoppedOnSentinel)
  | Malformed repr :: queue' =>
      let r := mkResult (SText "InvalidTaskData") None None (Some repr)
                 LPV "Inconnu (Erreur Task Data)" in
      let '(rs, n, e) := worker_loop d last queue' in
      (r :: rs, S n, e)
  | Task url my_product_name :: queue' =>
      let last' := Some (url, my_product_name) in
      let '(o, d') := scrape_with_selenium_lpv_core d url in
      let r :=
        match o with
        | Returned (name, price, st) =>
            mkResult st name price (Some url) LPV my_product_name
        | Raised exc =>
            mkResult (SText ("WorkerLoopError: " ++ exc)) None None
              (Some (default "Inconnue" (fst <$> last'))) LPV
              (default (CStr "Inconnu") (snd <$> last'))
        end in
      let '(rs, n, e) := worker_loop d' last' queue' in
      (r :: rs, S n, e)
  end.

(** [persistent_lpv_worker(url_queue, result_queue)]; [init] is the
    session the initialisation produced, if it succeeded. *)
Definition persistent_lpv_worker (init : option driver)
    (url_queue : list task_msg) : worker_run :=
  match init with
  | None => mkRun [] 0 InitFailed false
  | Some d =>
      let '(rs, n, e) := worker_loop d None url_queue in
      mkRun rs n e
        (match e with StoppedOnSentinel => true | _ => false end)
  end.

End LpvWorker.

(* ================================================================== *)
(** * Lightweight extractor: [scraper_utils.py] *)
(* ================================================================== *)

(** The exceptions the extractor tells apart. *)
Inductive scrape_exn :=
  | HTTPError (status_code : Z)       (** [requests.exceptions.HTTPError] *)
  | RequestException (exc : string)   (** any other [RequestException] *)
  | OtherException (exc : string).    (** any other [Exception] *)

(** A computation that returns or raises. *)
Inductive attempt (A : Type) :=
  | Done (a : A)
  | Raise (e : scrape_exn).
Arguments Done {A} a.
Arguments Raise {A} e.

Global Instance attempt_ret : MRet attempt := fun A a => Done a.
Global Instance attempt_bind : MBind attempt :=
  fun A B f m => match m with Done a => f a | Raise e => Raise e end.

(** The parsed document, as far as the extractor looks at it. *)
Class Soup (tag : Type) := {
  (** [t.find(name, {attr: value})], [attr] being optional *)
  soup_find : tag -> string -> option (string * string) -> option tag;
  (** [t.select_one(selector)] *)
  soup_select_one : tag -> string -> option tag;
  (** [t.get_text(strip=True)] *)
  tag_text : tag -> string;
  (** [t.get("class", "")], the class names *)
  tag_classes : tag -> list string;
}.

(** What [requests.get] does. *)
Inductive get_outcome (tag : Type) :=
  | GetResponse (status_code : Z) (soup : tag)
  | GetRequestException (exc : string)
  | GetOtherException (exc : string).
Arguments GetResponse {tag} status_code soup.
Arguments GetRequestException {tag} exc.
Arguments GetOtherException {tag} exc.

(** The leftmost match of [(\d+(\.\d+)?)]: its integer and fractional
    digits. *)
Fixpoint search_number (s : string) : option (string * string) :=
  match s with
  | EmptyString => None
  | String c s' =>
      if PyStr.is_digit c then
        let '(ip, rest) := PyStr.span_digits s in
        match rest with
        | String "." rest' =>
            let '(fp, _) := PyStr.span_digits rest' in Some (ip, fp)
        | _ => Some (ip, EmptyString)
        end
      else search_number s'
  end.

(** [clean_price(price_text)] *)
Definition clean_price (price_text : string) : option float :=
  let price_clean :=
    PyStr.replace_char "," "."
      (PyStr.filter_chars
         (fun c => PyStr.is_digit c || Ascii.eqb c "," || Ascii.eqb c ".")
         price_text) in
  match search_number price_clean with
  | Some (ip, fp) => Some (PyFloat.of_decimal ip fp)
  | None => None
  end.

Section Extractor.

Context {tag : Type} `{Soup tag}.

(** [requests.get(url, headers=HEADERS, timeout=REQUEST_TIMEOUT)] *)
Variable requests_get : string -> get_outcome tag.

(** [get_text_or_none(element)]; a tag is always true. *)
Definition get_text_or_none (element : option tag) : option string :=
  tag_text <$> element.

(** [receiver.find(name, attr)] where [receiver] may be [None], on which
    the attribute access raises. *)
Definition find_in (receiver : option tag) (name : string)
    (attr : option (string * string)) : attempt (option tag) :=
  match receiver with
  | Some t => Done (soup_find t name attr)
  | None => Raise (OtherException "AttributeError")
  end.

(** [clean_price(text) if text else None] *)
Definition clean_price_if (text : option string) : option float :=
  match text with
  | Some s => if PyStr.truthy s then clean_price s else None
  | None => None
  end.

(** The name and the price text, by domain (lines 36-71). *)
Definition extract_fields (soup : tag) (domain : string)
  : attempt (option string * option string) :=
  if PyStr.contains "lepetitvapoteur.com" domain then
    title ← find_in (soup_find soup "h1" (Some ("class", "product-title")))
              "span" None;
    price_tag ← find_in (soup_find soup "div" (Some ("id", "block-achat-wrap")))
                  "span" (Some ("class", "our_price_display"));
    mret (get_text_or_none title, get_text_or_none price_tag)
  else if PyStr.contains "taklope.com" domain then
    let name := get_text_or_none
                  (soup_find soup "h1" (Some ("class", "c-pdt__title"))) in
    old ← find_in (soup_find soup "div" (Some ("class", "product-prices")))
            "span" (Some ("class", "c-price--old"));
    price_tag ←
      match old with
      | Some t => mret (Some t)
      | None =>
          find_in (soup_find soup "div" (Some ("class", "product-prices")))
            "span" (Some ("class", "c-price--current"))
      end;
    mret (name, get_text_or_none price_tag)
  else if PyStr.contains "kumulusvape.fr" domain then
    let name := get_text_or_none
                  (soup_find soup "h1" (Some ("id", "h1_title"))) in
    let determined_price_text :=
      match soup_find soup "div" (Some ("class", "price")) with
      | Some price_section =>
          let old_price_text_raw :=
            get_text_or_none
              (soup_find price_section "span"
                 (Some ("id", "old_price_display"))) in
          match clean_price_if old_price_text_raw with
          | Some _ => old_price_text_raw
          | None =>
              let current_price_text_raw :=
                get_text_or_none
                  (soup_find price_section "span"
                     (Some ("id", "our_price_display"))) in
              match current_price_text_raw with
              | Some s => if PyStr.truthy s then Some s else None
              | None => None
              end
          end
      | None => None
      end in
    mret (name, determined_price_text)
  else if PyStr.contains "cigaretteelec.fr" domain then
    let reduction_display :=
      soup_find soup "div" (Some ("id", "reduction_display")) in
    let price_display :=
      soup_find soup "span" (Some ("id", "our_price_display")) in
    let price_text :=
      match reduction_display with
      | Some rd =>
          if negb (bool_decide ("o-0" ∈ tag_classes rd)) then
            get_text_or_none (soup_find rd "span" (Some ("id", "old_price")))
          else get_text_or_none price_display
      | None => get_text_or_none price_display
      end in
    mret (get_text_or_none
            (soup_select_one soup "div.notranslate span.name"),
          price_text)
  else mret (None, None).

(** The [try] block of [extract_product_info] (lines 25-77). *)
Definition extract_body (url domain : string)
  : attempt (option string * option float * status) :=
  match requests_get url with
  | GetRequestException exc => Raise (RequestException exc)
  | GetOtherException exc => Raise (OtherException exc)
  | GetResponse status_code soup =>
      (* res.raise_for_status() *)
      if ((400 <=? status_code) && (status_code <? 600))%Z
      then Raise (HTTPError status_code)
      else
        '(name, price_text) ← extract_fields soup domain;
        mret (name, clean_price_if price_text, SCode status_code)
  end.

(** [extract_product_info(url, domain)]: the [try] block and its three
    handlers (lines 79-87). *)
Definition extract_product_info (url domain : string)
  : option string * option float * status :=
  match extract_body url domain with
  | Done r => r
  | Raise (HTTPError status_code) => (None, None, SCode status_code)
  | Raise (RequestException _) => (None, None, SText "RequestError")
  | Raise (OtherException _) => (None, None, SText "UnknownError")
  end.

End Extractor.

(** A small document model, to run the extractor on concrete pages:
    an element has a name, an id, class names, a text and children.
    [find] takes the first descendant, in document order, of the given
    name whose id or class names agree with the given attribute. *)
#[warnings="-register-all"]
Inductive element :=
  | Element (name id : string) (classes : list string) (text : string)
      (children : list element).

Definition element_matches (name : string) (attr : option (string * string))
    (e : element) : bool :=
  match e with
  | Element n i cs _ _ =>
      String.eqb n name
      && match attr with
         | None => true
         | Some (k, v) =>
             if String.eqb k "id" then String.eqb i v
             else if String.eqb k "class" then bool_decide (v ∈ cs)
             else false
         end
  end.

Fixpoint element_find (name : string) (attr : option (string * string))
    (e : element) : option element :=
  match e with
  | Element _ _ _ _ children =>
      (fix go (l : list element) : option element :=
         match l with
         | [] => None
         | c :: l' =>
             if element_matches name attr c then Some c
             else match element_find name attr c with
                  | Some r => Some r
                  | None => go l'
                  end
         end) children
  end.

Global Instance element_soup : Soup element := {
  soup_find e name attr := element_find name attr e;
  soup_select_one e selector := None;
  tag_text e := match e with Element _ _ _ t _ => PyStr.strip t end;
  tag_classes e := match e with Element _ _ cs _ _ => cs end;
}.

(* ================================================================== *)
(** * Orchestrator: [traitement_principal.py], lines 660-874 *)
(* ================================================================== *)

(** A row of the input catalog: the name - a [str], or NaN where
    [read_csv] found the name cell empty - and the [MonPrix] cell seen
    through [float(str(x).replace(',', '.')) if pd.notna(x) else None]
    ([VNone]: the cell is missing; [VBad]: the conversion raises).  A
    catalog whose names are all numbers is outside the model. *)
Record product_row := mkRow {
  NomProduit : cell;
  MonPrixCell : pyval;
}.

(** A task handed to the thread pool, with the [task_info] kept for it;
    [f_id] numbers the futures in submission order. *)
Record future := mkFuture {
  f_id : nat;
  f_my_product_name : cell;
  f_domain : string;
  f_my_price : float;
}.

(** [lpv_result_queue.get(timeout=180)] *)
Inductive queue_get :=
  | Got (r : result)
  | Empty            (** [queue.Empty]: the timeout elapsed *)
  | GetRaised.       (** another exception *)

(** The state of a run, as far as the progress is concerned. *)
Record run_state := mkRunState {
  rs_store : store;
  total_tasks : nat;
  completed_final_tasks : nat;
  callbacks : list (nat * nat);   (** calls of [progress_callback], oldest first *)
  lpv_url_queue : list task_msg;  (** tasks put on the worker's queue *)
  lpv_tasks_submitted_count : nat;
  verification_needs_global_update : bool;
  products_url_needs_global_update : bool;
}.

Inductive run :=
  | Fatal               (** an exception leaves [process_products] *)
  | NoProduct           (** the early [return] on a catalog without rows *)
  | Finished (s : run_state).

(** [products['MonPrix'].apply(...)]: the conversion of a cell that
    cannot be read as a number raises. *)
Definition prices_parse (products : list product_row) : bool :=
  forallb (fun row => match MonPrixCell row with VBad => false | _ => true end)
    products.

(** [products.set_index('NomProduit')['_my_price_float'].dropna().to_dict()]:
    missing prices are dropped; of two rows with one name the later
    wins.  NaN is a key like any other: the missing names of a catalog
    are one object, which [dict] finds by identity. *)
Definition product_prices (products : list product_row) : gmap cell float :=
  fold_left
    (fun m row =>
       match MonPrixCell row with
       | VNum f => if is_nan f then m else <[NomProduit row := f]> m
       | _ => m
       end)
    products ∅.

(** The submission loop (lines 783-790): a row whose name is false -
    the empty [str]; NaN is true - or whose name has no price is
    passed over; any other row gives one future per competitor. *)
Definition submit_row (prices : gmap cell float) (competitors : list string)
    (next_id : nat) (row : product_row) : list future :=
  let my_product_name := NomProduit row in
  match prices !! my_product_name with
  | Some my_price =>
      if negb (cell_truthy my_product_name) then []
      else imap (fun i domain =>
                   mkFuture (next_id + i) my_product_name domain my_price)
             competitors
  | None => []
  end.

Fixpoint submit_all (prices : gmap cell float) (competitors : list string)
    (next_id : nat) (products : list product_row) : list future :=
  match products with
  | [] => []
  | row :: products' =>
      let fs := submit_row prices competitors next_id row in
      fs ++ submit_all prices competitors (next_id + length fs) products'
  end.

Section Orchestrator.

Variable similarity_ratio : string -> string -> outcome float.

(** [future.result()]: what the pool task returned, or that it raised. *)
Variable future_result : future -> outcome result.

(** [concurrent.futures.as_completed]: the futures in the order they
    finish. *)
Variable as_completed : list future -> list future.

(** Whether the worker process was alive 0.5 s after its start, and
    [lpv_process.is_alive()] when a task is about to be forwarded. *)
Variable lpv_start_ok : bool.
Variable lpv_is_alive : future -> bool.

(** The [i]-th [lpv_result_queue.get(timeout=180)]. *)
Variable lpv_result_queue_get : nat -> queue_get.

Definition flag (changed : bool) (needs : bool) : bool := changed || needs.

(** [completed_final_tasks += 1], then the callback in the [finally]. *)
Definition count_one (s : run_state) : run_state :=
  let n := S (completed_final_tasks s) in
  mkRunState (rs_store s) (total_tasks s) n
    (callbacks s ++ [(n, total_tasks s)]) (lpv_url_queue s)
    (lpv_tasks_submitted_count s)
    (verification_needs_global_update s)
    (products_url_needs_global_update s).

(** A call of [process_single_result] and the update of the two flags. *)
Definition correlate (s : run_state) (my_product_name : cell)
    (my_price : pyval) (domain : string) (url : option string)
    (st : status) (name : option string) (price : pyval)
    (verification_df products_url_df : ref) : run_state :=
  let '((verif_changed, prod_url_changed), σ) :=
    process_single_result similarity_ratio my_product_name my_price domain
      url st name price verification_df products_url_df (rs_store s) in
  mkRunState σ (total_tasks s) (completed_final_tasks s) (callbacks s)
    (lpv_url_queue s) (lpv_tasks_submitted_count s)
    (flag verif_changed (verification_needs_global_update s))
    (flag prod_url_changed (products_url_needs_global_update s)).

(** One turn of the loop over the finished futures (lines 796-839). *)
Definition handle_future (lpv_started : bool)
    (verification_df products_url_df : ref) (s : run_state) (fut : future)
  : run_state :=
  match future_result fut with
  | Raised _ => count_one s
  | Returned res =>
      if bool_decide (r_status res = SText "Requires LPV") then
        let url_for_lpv := r_url res in
        if name_truthy url_for_lpv && lpv_started && lpv_is_alive fut then
          mkRunState (rs_store s) (total_tasks s) (completed_final_tasks s)
            (callbacks s)
            (lpv_url_queue s
             ++ [Task (default "" url_for_lpv) (f_my_product_name fut)])
            (S (lpv_tasks_submitted_count s))
            (verification_needs_global_update s)
            (products_url_needs_global_update s)
        else
          let status_final_echec :=
            if negb (name_truthy url_for_lpv) then SText "No URL To Scrape"
            else SText "LPV Worker Not Ready" in
          count_one
            (correlate s (f_my_product_name fut) (VNum (f_my_price fut))
               (f_domain fut) url_for_lpv status_final_echec None VNone
               verification_df products_url_df)
      else
        count_one
          (correlate s (f_my_product_name fut) (VNum (f_my_price fut))
             (f_domain fut) (r_url res) (r_status res) (r_name res)
             (price_val (r_price res)) verification_df products_url_df)
  end.

(** [product_prices.get(res_my_product_name)] for a name that came back
    over the result queue: the queue pickles what it carries, so a NaN
    arrives as another object, equal to no key of the table. *)
Definition price_of_answer (prices : gmap cell float) (name : cell)
  : option float :=
  match name with
  | CStr _ => prices !! name
  | CNaN => None
  end.

(** One turn of the collection loop (lines 845-874). *)
Definition collect_one (prices : gmap cell float)
    (verification_df products_url_df : ref) (s : run_state) (i : nat)
  : run_state :=
  match lpv_result_queue_get i with
  | Got lpv_result =>
      let res_my_product_name := r_my_product_name lpv_result in
      let res_domain := r_domain lpv_result in
      match price_of_answer prices res_my_product_name with
      | Some res_my_price =>
          if cell_truthy res_my_product_name && PyStr.truthy res_domain
          then
            count_one
              (correlate s res_my_product_name (VNum res_my_price)
                 res_domain (r_url lpv_result) (r_status lpv_result)
                 (r_name lpv_result) (price_val (r_price lpv_result))
                 verification_df products_url_df)
          else count_one s
      | None => count_one s
      end
  | Empty => count_one s
  | GetRaised => count_one s
  end.

(** [process_products(root, competitors, input_csv, progress_callback)]
    up to the end of the collection of the worker's results: the
    catalog is given by its rows, the two cache frames by the store
    and their references.  What follows in the source (stopping the
    worker, writing the frames back, showing the report) reports no
    progress. *)
Definition process_products (competitors : list string)
    (products : list product_row) (σ : store)
    (verification_df products_url_df : ref) : run :=
  if negb (prices_parse products) then Fatal
  else
    let prices := product_prices products in
    let total_products_csv := length products in
    if (total_products_csv =? 0)%nat then NoProduct
    else
      let total := (total_products_csv * length competitors)%nat in
      let s0 := mkRunState σ total 0 [(0, total)%nat] [] 0 false false in
      let lpv_started :=
        bool_decide ("lepetitvapoteur.com" ∈ competitors) && lpv_start_ok in
      let initial_futures := submit_all prices competitors 0 products in
      let s1 :=
        fold_left (handle_future lpv_started verification_df products_url_df)
          (as_completed initial_futures) s0 in
      let s2 :=
        fold_left (collect_one prices verification_df products_url_df)
          (seq 0 (lpv_tasks_submitted_count s1)) s1 in
      Finished s2.

End Orchestrator.

(* ================================================================== *)
(** * Browser scraping routine: [traitement_principal.py], lines 316-409 *)
(* ================================================================== *)

(** The exceptions the routine tells apart, each standing for the
    first handler that catches it: a timeout and a missing element are
    web-driver exceptions with a handler of their own. *)
Inductive selenium_exn :=
  | TimeoutException
  | NoSuchElementException
  | WebDriverException                  (** any other [WebDriverException] *)
  | OtherSeleniumException (exc : string).   (** any other [Exception] *)

(** A call on the session that returns or raises. *)
Inductive browse (A : Type) :=
  | Found (a : A)
  | Failed (e : selenium_exn).
Arguments Found {A} a.
Arguments Failed {A} e.

Global Instance browse_ret : MRet browse := fun A a => Found a.
Global Instance browse_bind : MBind browse :=
  fun A B f m => match m with Found a => f a | Failed e => Failed e end.

(** What the session answers while one page is scraped. *)
Record lpv_page := mkPage {
  (** [driver.get(url)] *)
  page_get : browse unit;
  (** [wait.until(EC.presence_of_element_located(
        (By.CSS_SELECTOR, "h1.product-title span")))] *)
  page_wait : browse unit;
  (** [driver.find_element(By.CSS_SELECTOR, "h1.product-title span").text] *)
  page_name : browse string;
  (** [driver.find_element(By.CSS_SELECTOR, "span.our_price_display").text] *)
  page_price : browse string;
  (** [driver.find_element(By.CSS_SELECTOR, "span#old_price_display").text] *)
  page_old_price : browse string;
}.

(** [element.text.strip()] inside
    [try: ... except NoSuchElementException: ...], which leaves [None]. *)
Definition find_text (found : browse string) : browse (option string) :=
  match found with
  | Found text => Found (Some (PyStr.strip text))
  | Failed NoSuchElementException => Found None
  | Failed e => Failed e
  end.

(** The price text (lines 355-369): the current price, or else the
    crossed-out one. *)
Definition find_price_text (page : lpv_page) : browse (option string) :=
  match page_price page with
  | Found text => Found (Some (PyStr.strip text))
  | Failed NoSuchElementException => find_text (page_old_price page)
  | Failed e => Failed e
  end.

(** The leftmost match of [(\d+\.\d+|\d+)]: its integer and fractional
    digits. *)
Fixpoint search_decimal (s : string) : option (string * string) :=
  match s with
  | EmptyString => None
  | String c s' =>
      if PyStr.is_digit c then
        let '(ip, rest) := PyStr.span_digits s in
        match rest with
        | String "." rest' =>
            let '(fp, _) := PyStr.span_digits rest' in
            if PyStr.truthy fp then Some (ip, fp) else Some (ip, EmptyString)
        | _ => Some (ip, EmptyString)
        end
      else search_decimal s'
  end.

(** The cleaning of the price text (lines 372-383); [float] cannot
    raise on what the expression matches. *)
Definition lpv_clean_price (price_text : option string) : option float :=
  match price_text with
  | Some text =>
      if PyStr.truthy text then
        let price_cleaned :=
          PyStr.strip
            (PyStr.replace_char "," "."
               (PyStr.filter_chars
                  (fun c => PyStr.is_digit c || Ascii.eqb c ","
                            || Ascii.eqb c ".")
                  text)) in
        match search_decimal price_cleaned with
        | Some (ip, fp) => Some (PyFloat.of_decimal ip fp)
        | None => None
        end
      else None
  | None => None
  end.

Section LpvCore.

(** The browser session; loading a page may change it. *)
Variable driver : Type.
Variable load_page : driver -> string -> lpv_page * driver.

(** The [try] block of the routine (lines 329-394). *)
Definition lpv_core_body (page : lpv_page)
  : browse (option string * option float * status) :=
  _ ← page_get page;
  _ ← page_wait page;
  product_name ← find_text (page_name page);
  price_text ← find_price_text page;
  let price := lpv_clean_price price_text in
  if name_truthy product_name && negb (is_none (price_val price))
  then mret (product_name, price, SCode 200)
  else mret (product_name, price, SCode 404).

(** [scrape_with_selenium_lpv_core(driver, url)]: the [try] block and
    its four handlers (lines 396-409).  The handler of
    [TimeoutException] reads [timeout_sec] (line 397), which is bound
    after [driver.get(url)] (line 334): when it is [driver.get] that
    times out, the handler raises [UnboundLocalError], which the
    handlers that follow it do not catch. *)
Definition scrape_with_selenium_lpv_core (d : driver) (url : string)
  : outcome (option string * option float * status) * driver :=
  let '(page, d') := load_page d url in
  (match page_get page with
   | Failed TimeoutException => Raised "UnboundLocalError"
   | _ =>
       Returned
         match lpv_core_body page with
         | Found r => r
         | Failed TimeoutException => (None, None, SCode 408)
         | Failed NoSuchElementException => (None, None, SCode 404)
         | Failed WebDriverException => (None, None, SCode 503)
         | Failed (OtherSeleniumException _) => (None, None, SCode 500)
         end
   end,
   d').

End LpvCore.

(* ================================================================== *)
(** * The index of the collections: [traitement_principal.py], lines 693-722 *)
(* ================================================================== *)

(** [series.astype(str)] on one cell: NaN becomes the text "nan". *)
Definition astype_str (c : cell) : string :=
  match c with
  | CStr s => s
  | CNaN => "nan"
  end.

(** [df[c] = values], the values given row by row; the column is
    appended when the frame lacks it. *)
Definition set_column (c : string) (value : gmap string cell -> cell)
    (df : DataFrame) : DataFrame :=
  mkFrame (if has_col c df then columns df else columns df ++ [c])
    (map (fun r => <[c := value r]> r) (rows df)).

(** [series.astype(str).str.strip().str.lower()] on one cell *)
Definition norm_cell (c : cell) : string :=
  PyStr.lower (PyStr.strip (astype_str c)).

(** [series + "__" + series] on one row; NaN absorbs. *)
Definition join_cells (a b : cell) : cell :=
  match a, b with
  | CStr x, CStr y => CStr (x ++ "__" ++ y)
  | _, _ => CNaN
  end.

(** The creation of the normalised index of one collection (lines
    696-707, and 710-721): the columns [_nom_norm], [_dom_norm] and
    [IndexUnique] are set on a frame that has rows and the two key
    columns; a frame without rows gets an empty [IndexUnique] column.
    The normalisation raises on no cell. *)
Definition build_index (name_col dom_col : string) (df : DataFrame)
  : DataFrame :=
  if negb (df_empty df) then
    if has_cols [name_col; dom_col] df then
      let df1 := set_column "_nom_norm"
                   (fun r => CStr (norm_cell (at_col r name_col))) df in
      let df2 := set_column "_dom_norm"
                   (fun r => CStr (norm_cell (at_col r dom_col))) df1 in
      set_column "IndexUnique"
        (fun r => join_cells (at_col r "_nom_norm") (at_col r "_dom_norm"))
        df2
    else df
  else if negb (has_col "IndexUnique" df)
       then add_empty_column "IndexUnique" df
       else df.

(* ================================================================== *)
(** * The sheets: [traitement_principal.py], lines 94-212 *)
(* ================================================================== *)

Definition PRODUCTS_URL_SHEET : string := "products_url".
Definition MANUAL_VERIFICATION_SHEET : string := "verification_manuelle".

(** The class [GlobalStore], by the attributes the module uses. *)
Module GlobalStore.
Record t := mk {
  verification_df : option DataFrame;
  products_url_df : option DataFrame;
  verification_changed : bool;
  products_url_changed : bool;
}.
End GlobalStore.

(** A value of [get_all_records()]: the text of a cell, or the number
    the text was read as. *)
Inductive sheet_value :=
  | SVStr (s : string)
  | SVInt (z : Z)
  | SVFloat (f : float).

(** A record of [get_all_records()]: the values of a row of the sheet,
    by the labels of its header. *)
Definition sheet_record := gmap string sheet_value.

(** [col in pd.DataFrame(data).columns] *)
Definition in_records (c : string) (data : list sheet_record) : bool :=
  existsb (fun rec => bool_decide (is_Some (rec !! c))) data.

(** The column [pd.DataFrame(data)] makes of a label: the values of the
    records, in their order; a record without the label leaves NaN
    (here [None]). *)
Definition column_of (c : string) (data : list sheet_record)
  : list (option sheet_value) :=
  map (fun rec => rec !! c) data.

Section SheetLoading.

(** The text [astype(str)] gives a number, which depends on the column
    the number stands in: [pd.DataFrame(data)] settles the type of a
    column on all of its values before they are formatted, so that a
    column of 123 and 4.5 reads "123.0" and "4.5".  This typing and the
    formatting of numbers are not modelled. *)
Variable numeric_text : list (option sheet_value) -> sheet_value -> string.

(** A cell of [pd.DataFrame(data).astype(str)]: a text stays as it is -
    its column has the type [object] -, NaN reads "nan". *)
Definition cell_text (column : list (option sheet_value))
    (v : option sheet_value) : string :=
  match v with
  | Some (SVStr s) => s
  | Some number => numeric_text column number
  | None => "nan"
  end.

(** [pd.DataFrame(data)], then [df[col] = ""] for each required column
    the records lack, then [df[required].astype(str)]. *)
Definition frame_of_records (required : list string)
    (data : list sheet_record) : DataFrame :=
  mkFrame required
    (map (fun rec =>
            list_to_map
              (map (fun c =>
                      (c, CStr (if in_records c data
                                then cell_text (column_of c data) (rec !! c)
                                else "")))
                 required))
       data).

(** The body shared by [load_verification_sheet] and
    [load_products_url_sheet]; [records] is what opening the sheet and
    [get_all_records()] give, or that one of them raised. *)
Definition load_sheet (required : list string)
    (records : outcome (list sheet_record)) : option DataFrame :=
  match records with
  | Raised _ => None
  | Returned [] => Some (empty_frame required)
  | Returned data => Some (frame_of_records required data)
  end.

Definition load_verification_sheet := load_sheet REQUIRED_COLUMNS_VERIFICATION.
Definition load_products_url_sheet := load_sheet REQUIRED_COLUMNS_PRODUCTS_URL.

(** [load_sheets_into_memory()] *)
Definition load_sheets_into_memory
    (verification_records products_url_records : outcome (list sheet_record))
    (g : GlobalStore.t) : GlobalStore.t :=
  GlobalStore.mk
    (Some (default (empty_frame REQUIRED_COLUMNS_VERIFICATION)
             (load_verification_sheet verification_records)))
    (Some (default (empty_frame REQUIRED_COLUMNS_PRODUCTS_URL)
             (load_products_url_sheet products_url_records)))
    (GlobalStore.verification_changed g)
    (GlobalStore.products_url_changed g).

End SheetLoading.

(** The content of a sheet: its rows of cells, the header first. *)
Definition sheet := list (list string).

(** A cell of [df_to_update.fillna('').astype(str)]: a column the frame
    lacks was filled with ''. *)
Definition sheet_cell (df : DataFrame) (r : gmap string cell) (c : string)
  : string :=
  if has_col c df then
    match at_col r c with
    | CStr s => s
    | CNaN => ""
    end
  else "".

(** [df_to_update.astype(str).values.tolist()] *)
Definition data_rows (cols : list string) (df : DataFrame) : sheet :=
  map (fun r => map (sheet_cell df r) cols) (rows df).

(** [data_to_update] *)
Definition data_to_update (cols : list string) (df : DataFrame) : sheet :=
  cols :: data_rows cols df.

(** Where the calls to the sheet service fail, if they do: on opening
    the sheet, on [sheet.clear()] or on [sheet.update(...)].  A call
    that raises leaves the sheet as it is. *)
Inductive api_behaviour :=
  | ApiOk
  | OpenFails
  | ClearFails
  | UpdateFails.

(** [update_sheet_from_dataframe(sheet_name, dataframe)]: what it does,
    and the content of the sheet afterwards. *)
Definition update_sheet_from_dataframe (api : api_behaviour)
    (sheet_name : string) (dataframe : option DataFrame) (content : sheet)
  : outcome unit * sheet :=
  match dataframe with
  | None => (Returned tt, content)
  | Some df =>
      match api with
      | OpenFails => (Raised "APIError", content)
      | ClearFails => (Raised "APIError", content)
      | UpdateFails => (Raised "APIError", [])
      | ApiOk =>
          let cols :=
            if String.eqb sheet_name MANUAL_VERIFICATION_SHEET
            then REQUIRED_COLUMNS_VERIFICATION
            else if String.eqb sheet_name PRODUCTS_URL_SHEET
                 then REQUIRED_COLUMNS_PRODUCTS_URL
                 else columns df in
          (Returned tt, data_to_update cols df)
      end
  end.

(** The two sheets of the spreadsheet. *)
Record sheets := mkSheets {
  verification_manuelle : sheet;
  products_url : sheet;
}.

(** [save_sheets_to_google()]; [api_v] and [api_p] say how the service
    behaves for the one sheet and the other. *)
Definition save_sheets_to_google (api_v api_p : api_behaviour)
    (g : GlobalStore.t) (remote : sheets)
  : outcome unit * GlobalStore.t * sheets :=
  let save_products_url (g1 : GlobalStore.t) (remote1 : sheets) :=
    if GlobalStore.products_url_changed g1 then
      match update_sheet_from_dataframe api_p PRODUCTS_URL_SHEET
              (GlobalStore.products_url_df g1) (products_url remote1) with
      | (Returned _, content) =>
          (Returned tt,
           GlobalStore.mk (GlobalStore.verification_df g1)
             (GlobalStore.products_url_df g1)
             (GlobalStore.verification_changed g1) false,
           mkSheets (verification_manuelle remote1) content)
      | (Raised e, content) =>
          (Raised e, g1, mkSheets (verification_manuelle remote1) content)
      end
    else (Returned tt, g1, remote1) in
  if GlobalStore.verification_changed g then
    match update_sheet_from_dataframe api_v MANUAL_VERIFICATION_SHEET
            (GlobalStore.verification_df g) (verification_manuelle remote) with
    | (Returned _, content) =>
        save_products_url
          (GlobalStore.mk (GlobalStore.verification_df g)
             (GlobalStore.products_url_df g) false
             (GlobalStore.products_url_changed g))
          (mkSheets content (products_url remote))
    | (Raised e, content) =>
        (Raised e, g, mkSheets content (products_url remote))
    end
  else save_products_url g remote.

(* ================================================================== *)
(** * A run from the sheets to the sheets: [process_products],
      lines 686-722 and 895-912 *)
(* ================================================================== *)

(** Etape 1, lines 688-722: the sheets are loaded, the run works on
    copies of the two frames, to which the index is added. *)
Definition load_initial_frames (g : GlobalStore.t) : DataFrame * DataFrame :=
  (build_index "MonNomProduit" "Concurrent"
     (default (empty_frame REQUIRED_COLUMNS_VERIFICATION)
        (GlobalStore.verification_df g)),
   build_index "NomProduit" "CompetitorDomain"
     (default (empty_frame REQUIRED_COLUMNS_PRODUCTS_URL)
        (GlobalStore.products_url_df g))).

(** Etape 7, lines 896-903: a frame the run reported as changed is put
    into [GlobalStore], and marked. *)
Definition update_global_store (s : run_state)
    (verification_df products_url_df : ref) (g : GlobalStore.t)
  : GlobalStore.t :=
  let g1 :=
    if verification_needs_global_update s then
      GlobalStore.mk (frames (rs_store s) !! verification_df)
        (GlobalStore.products_url_df g) true
        (GlobalStore.products_url_changed g)
    else g in
  if products_url_needs_global_update s then
    GlobalStore.mk (GlobalStore.verification_df g1)
      (frames (rs_store s) !! products_url_df)
      (GlobalStore.verification_changed g1) true
  else g1.

(** Etape 8, lines 907-912: the marked frames are saved; a failure is
    shown to the user and goes no further. *)
Definition save_final (api_v api_p : api_behaviour) (g : GlobalStore.t)
    (remote : sheets) : GlobalStore.t * sheets :=
  if GlobalStore.verification_changed g || GlobalStore.products_url_changed g
  then
    let '(_, g', remote') := save_sheets_to_google api_v api_p g remote in
    (g', remote')
  else (g, remote).

Section RunWithSheets.

Variable similarity_ratio : string -> string -> outcome float.
Variable future_result : future -> outcome result.
Variable as_completed : list future -> list future.
Variable lpv_start_ok : bool.
Variable lpv_is_alive : future -> bool.
Variable lpv_result_queue_get : nat -> queue_get.
Variable numeric_text : list (option sheet_value) -> sheet_value -> string.

(** [process_products], from the loading of the sheets to their
    saving: what becomes of [GlobalStore] and of the two sheets.  A run
    that ends early, on a catalog that cannot be read or has no row,
    saves nothing. *)
Definition process_products_with_sheets
    (verification_records products_url_records : outcome (list sheet_record))
    (api_v api_p : api_behaviour) (competitors : list string)
    (products : list product_row) (g : GlobalStore.t) (remote : sheets)
  : GlobalStore.t * sheets :=
  let g0 := load_sheets_into_memory numeric_text verification_records
              products_url_records g in
  let '(verification_df, products_url_df) := load_initial_frames g0 in
  match process_products similarity_ratio future_result as_completed
          lpv_start_ok lpv_is_alive lpv_result_queue_get competitors products
          (mkStore [verification_df; products_url_df] []) 0 1 with
  | Finished s => save_final api_v api_p (update_global_store s 0 1 g0) remote
  | _ => (g0, remote)
  end.

End RunWithSheets.

(* ================================================================== *)
(** * Statements and scenarios *)
(* ================================================================== *)

(** ** Running a computation *)

Definition run_py {A : Type} (m : Py A) (σ : store) : A * store := m σ.
Definition value_of {A : Type} (m : Py A) (σ : store) : A := fst (m σ).
Definition store_after {A : Type} (m : Py A) (σ : store) : store := snd (m σ).

(** The frame a reference designates. *)
Definition frame_at (σ : store) (r : ref) : option DataFrame := frames σ !! r.

(** ** Scenarios *)

Definition verification_ref : ref := 0.
Definition products_url_ref : ref := 1.

(** Both collections empty, with their required columns. *)
Definition fresh_store : store :=
  mkStore [empty_frame REQUIRED_COLUMNS_VERIFICATION;
           empty_frame REQUIRED_COLUMNS_PRODUCTS_URL] [].

(** One confirmed URL, filed under the lower-case product name. *)
Definition cached_widget : store :=
  mkStore [empty_frame REQUIRED_COLUMNS_VERIFICATION;
           mkFrame REQUIRED_COLUMNS_PRODUCTS_URL
             [ {[ "NomProduit" := CStr "widget";
                  "CompetitorDomain" := CStr "taklope.com";
                  "URLConcurrent" := CStr "http://a" ]} ]] [].

(** One pair waiting for manual verification, with the URL it was parked
    with. *)
Definition parked_widget : store :=
  mkStore [mkFrame REQUIRED_COLUMNS_VERIFICATION
             [ {[ "MonNomProduit" := CStr "Widget";
                  "Concurrent" := CStr "taklope.com";
                  "URLConcurrent" := CStr "http://old" ]} ];
           empty_frame REQUIRED_COLUMNS_PRODUCTS_URL] [].

(** The [URLConcurrent] column of the frame a reference designates. *)
Definition urls_at (σ : store) (r : ref) : option (list cell) :=
  (fun df => map (fun row => at_col row "URLConcurrent") (rows df))
    <$> frame_at σ r.

(** The normalised key of a row of the confirmed-URL cache. *)
Definition cache_key (row : gmap string cell) : option string :=
  match at_col row "NomProduit", at_col row "CompetitorDomain" with
  | CStr n, CStr d => Some (index_unique n d)
  | _, _ => None
  end.

Definition cache_keys_at (σ : store) (r : ref) : option (list (option string)) :=
  (fun df => map cache_key (rows df)) <$> frame_at σ r.

Section LpvAnswers.

Variable driver : Type.
Variable scrape :
driver -> string ->
outcome (option string * option float * status) * driver.

(** The one result that answers a message: for a task, the result of
  the scraping routine (in some state of the session) under the
  task's URL and product name, or, if the routine raised, a result
  with a [WorkerLoopError] status under the same URL and product
  name; for anything else, an [InvalidTaskData] result. *)
Inductive answers : task_msg -> result -> Prop :=
| answers_scraped d url my_product_name name price st :
    fst (scrape d url) = Returned (name, price, st) ->
    answers (Task url my_product_name)
      (mkResult st name price (Some url) LPV my_product_name)
| answers_raised d url my_product_name exc :
    fst (scrape d url) = Raised exc ->
    answers (Task url my_product_name)
      (mkResult (SText ("WorkerLoopError: " ++ exc)) None None (Some url)
         LPV my_product_name)
| answers_invalid repr :
    answers (Malformed repr)
      (mkResult (SText "InvalidTaskData") None None (Some repr) LPV
         "Inconnu (Erreur Task Data)").

End LpvAnswers.

(** A session that counts the pages it loaded; the page "http://crash"
    makes the routine raise, any other page is scraped. *)
Definition counting_scrape (d : nat) (url : string)
  : outcome (option string * option float * status) * nat :=
  (if String.eqb url "http://crash" then Raised "ImportError"
   else Returned (Some "Widget Pro", Some 40%float, SCode 200), S d).

(** Three pages of a competitor: one with the product title and an empty
    price block, one complete, one without the price block. *)
Definition page_without_price : element :=
  Element "html" "" [] ""
    [Element "h1" "" ["c-pdt__title"] "Widget Pro" [];
     Element "div" "" ["product-prices"] "" []].

Definition page_complete : element :=
  Element "html" "" [] ""
    [Element "h1" "" ["c-pdt__title"] " Widget Pro " [];
     Element "div" "" ["product-prices"] ""
       [Element "span" "" ["c-price--current"] "39,90 EUR" []]].

Definition page_without_block : element :=
  Element "html" "" [] "" [Element "h1" "" ["c-pdt__title"] "Widget Pro" []].

(** An HTTP client for the scenarios. *)
Definition scenario_get (url : string) : get_outcome element :=
  if String.eqb url "http://taklope.com/widget" then
    GetResponse 200 page_without_price
  else if String.eqb url "http://taklope.com/widget-pro" then
    GetResponse 200 page_complete
  else if String.eqb url "http://taklope.com/bare" then
    GetResponse 200 page_without_block
  else if String.eqb url "http://taklope.com/gone" then
    GetResponse 404 page_without_block
  else GetRequestException "ConnectionError".

(** The URL resolution by its rules, in the words of the specification
    (with "non-empty" read as "not blank"), to be compared with
    [resolve_url]. *)

(** The URL cell filed under [key] in a collection: that of the first
    row with this index. *)
Definition filed_url (key : string) (df : DataFrame) : option cell :=
  if in_index key df then
    head (map (fun r => at_col r "URLConcurrent")
            (List.filter (fun r => cell_is key (at_col r "IndexUnique"))
               (rows df)))
  else None.

(** A URL that is a string with something else than white space in it. *)
Definition nonblank (c : cell) : option string :=
  match c with
  | CStr s => if PyStr.truthy (PyStr.strip s) then Some s else None
  | CNaN => None
  end.

Definition resolution_by_rules
    (search : string -> string -> outcome (option string))
    (my_product_name domain : string)
    (verification_df products_url_df : DataFrame)
  : option string * status * list (string * string) :=
  let key := index_unique my_product_name domain in
  match filed_url key verification_df with
  | Some c =>
      match nonblank c with
      | Some u => (Some u, SText "URL From Verification", [])
      | None => (None, SText "Verification No URL", [])
      end
  | None =>
      match filed_url key products_url_df ≫= nonblank with
      | Some u => (Some u, SText "URL From Cache", [])
      | None =>
          match search my_product_name domain with
          | Returned found =>
              match (CStr <$> found) ≫= nonblank with
              | Some u =>
                  (Some u, SText "URL From Serper", [(my_product_name, domain)])
              | None =>
                  (None, SText "Serper Not Found", [(my_product_name, domain)])
              end
          | Raised _ =>
              (None, SText "Serper API Error", [(my_product_name, domain)])
          end
      end
  end.

(** A verification collection that has the index column but lost its
    [URLConcurrent] column. *)
Definition verification_without_url_column : DataFrame :=
  mkFrame ["MonNomProduit"; "Concurrent"; "IndexUnique"]
    [ {[ "MonNomProduit" := CStr "Widget";
         "Concurrent" := CStr "taklope.com";
         "IndexUnique" := CStr "widget__taklope.com" ]} ].

(** A verification collection whose entry for the pair has a URL made of
    one space. *)
Definition verification_with_blank_url : DataFrame :=
  mkFrame ["MonNomProduit"; "Concurrent"; "URLConcurrent"; "IndexUnique"]
    [ {[ "MonNomProduit" := CStr "Widget";
         "Concurrent" := CStr "taklope.com";
         "URLConcurrent" := CStr " ";
         "IndexUnique" := CStr "widget__taklope.com" ]} ].

(** A search that finds nothing, and one that finds a page. *)
Definition search_nothing (_ _ : string) : outcome (option string) :=
  Returned None.
Definition search_finds (_ _ : string) : outcome (option string) :=
  Returned (Some "http://taklope.com/widget").

(** An extractor that is never reached in the scenarios. *)
Definition extract_never (_ _ : string)
  : outcome (option string * option float * status) :=
  Raised "Unreachable".

(** A confirmed-URL cache with its index column. *)
Definition products_url_indexed : DataFrame :=
  mkFrame ["NomProduit"; "CompetitorDomain"; "URLConcurrent"; "IndexUnique"]
    [ {[ "NomProduit" := CStr "widget";
         "CompetitorDomain" := CStr "taklope.com";
         "URLConcurrent" := CStr "http://a";
         "IndexUnique" := CStr "widget__taklope.com" ]} ].

(** A similarity for the scenarios. *)
Definition similarity_constant (_ _ : string) : outcome float :=
  Returned 0.5%float.

(** A row is submitted when its name is true - any name but the empty
    [str], a missing name (NaN) included - and the price table has a
    price for the name. *)
Definition is_submitted (prices : gmap cell float) (row : product_row)
  : bool :=
  cell_truthy (NomProduit row) && bool_decide (is_Some (prices !! NomProduit row)).


(** A run with a catalog of three rows - "Widget" at 50, "Gadget"
    without a price, a row without a name at 3 - and two competitors,
    one of them the site that needs the browser.  The pool tasks run on
    the cache of [products_url_indexed]; the browser worker never
    answers. *)
Definition scenario_catalog : list product_row :=
  [mkRow "Widget" (VNum 50); mkRow "Gadget" VNone; mkRow CNaN (VNum 3)].

Definition scenario_competitors : list string :=
  ["taklope.com"; "lepetitvapoteur.com"].

Definition scenario_extract (url domain : string)
  : outcome (option string * option float * status) :=
  Returned (extract_product_info scenario_get url domain).

Definition scenario_future (fut : future) : outcome result :=
  Returned (_worker_task search_finds scenario_extract
              (f_my_product_name fut) (f_domain fut)
              (empty_frame REQUIRED_COLUMNS_VERIFICATION)
              products_url_indexed).

Definition scenario_run : run :=
  process_products similarity_constant scenario_future (@List.rev future)
    true (fun _ => true) (fun _ => Empty) scenario_competitors
    scenario_catalog fresh_store verification_ref products_url_ref.

(** ** Further statements *)

(** A string that does not begin with white space. *)
Definition starts_clean (s : string) : bool :=
  match s with
  | EmptyString => true
  | String c _ => negb (PyStr.is_space c)
  end.

(** The characters [clean_price] keeps: digits, commas and dots. *)
Definition price_char (c : ascii) : bool :=
  PyStr.is_digit c || Ascii.eqb c "," || Ascii.eqb c ".".

(** The digits of a text. *)
Definition digits_of (s : string) : string :=
  PyStr.filter_chars PyStr.is_digit s.

(** What the loop over the finished futures keeps true of the tasks
    forwarded to the browser worker. *)
Definition queue_ok (lpv_started : bool) (s : run_state) : Prop :=
  lpv_tasks_submitted_count s = length (lpv_url_queue s)
  /\ Forall (fun m => exists url name,
                        m = Task url name /\ PyStr.truthy url = true)
       (lpv_url_queue s)
  /\ (lpv_started = false -> lpv_url_queue s = []).

(** A result that answers a forwarded task: it carries the task's URL
    and product name, for the site that needs the browser. *)
Definition answer_to_task (m : task_msg) (r : result) : Prop :=
  exists url name,
    m = Task url name /\ PyStr.truthy url = true
    /\ r_url r = Some url /\ r_my_product_name r = name
    /\ r_domain r = LPV.

(** A text without white space. *)
Definition no_space (s : string) : Prop :=
  PyStr.filter_chars PyStr.is_space s = "".

(** The statuses of the browser scraping routine. *)
Definition lpv_statuses : list status :=
  [SCode 200; SCode 404; SCode 408; SCode 503; SCode 500].

(** A triple of the browser routine that is graded as its status says:
    the status is 200 exactly for a name that is not empty with a
    price, and 408, 503 and 500 come with neither name nor price. *)
Definition graded (name : option string) (price : option float)
    (st : status) : Prop :=
  st ∈ lpv_statuses
  /\ (st = SCode 200 <-> name_truthy name = true /\ price <> None)
  /\ (st ∈ [SCode 408; SCode 503; SCode 500] -> name = None /\ price = None).

(** The status the worker reports when the routine raises on the
    timeout of a page load. *)
Definition unbound_timeout : status :=
  SText "WorkerLoopError: UnboundLocalError".

(** The statuses of the results of the browser worker. *)
Definition worker_statuses : list status :=
  unbound_timeout :: SText "InvalidTaskData" :: lpv_statuses.

(** The columns the index creation sets. *)
Definition index_columns : list string :=
  ["_nom_norm"; "_dom_norm"; "IndexUnique"].

(** The normalised key of a row, from its cells in the columns
    [name_col] and [dom_col]. *)
Definition row_key (name_col dom_col : string) (r : gmap string cell)
  : string :=
  index_unique (astype_str (at_col r name_col))
    (astype_str (at_col r dom_col)).

(** A verification collection as loaded from its sheet: one pair, filed
    with capitals and blanks. *)
Definition verification_loaded : DataFrame :=
  mkFrame REQUIRED_COLUMNS_VERIFICATION
    [ {[ "MonNomProduit" := CStr " Widget Pro";
         "Concurrent" := CStr "Taklope.com ";
         "URLConcurrent" := CStr "http://t/w" ]} ].

(** Two frames whose rows are written to a sheet alike, as far as the
    columns in [keep] go. *)
Definition written_alike (keep : string -> Prop) (df df' : DataFrame) : Prop :=
  Forall2 (fun r r' => forall c, keep c ->
                         sheet_cell df' r' c = sheet_cell df r c)
    (rows df) (rows df').

(** What happens to the frames of a store: each one is still there,
    with its rows and - save for the URL column of the frame at
    [products_url_df] - its cells as they are written. *)
Definition frames_evolve (products_url_df : ref) (σ σ' : store) : Prop :=
  forall i df,
    frames σ !! i = Some df ->
    exists df',
      frames σ' !! i = Some df'
      /\ written_alike (fun c => i <> products_url_df \/ c <> "URLConcurrent")
           df df'.

(** A computation under which the frames only evolve. *)
Definition preserves {A : Type} (products_url_df : ref) (m : Py A) : Prop :=
  forall σ, frames_evolve products_url_df σ (m σ).2.

(** The frames a run starts from, for given answers of the sheet
    service. *)
Definition loaded_verification
    (numeric_text : list (option sheet_value) -> sheet_value -> string)
    (records : outcome (list sheet_record)) : DataFrame :=
  default (empty_frame REQUIRED_COLUMNS_VERIFICATION)
    (load_verification_sheet numeric_text records).

Definition loaded_products_url
    (numeric_text : list (option sheet_value) -> sheet_value -> string)
    (records : outcome (list sheet_record)) : DataFrame :=
  default (empty_frame REQUIRED_COLUMNS_PRODUCTS_URL)
    (load_products_url_sheet numeric_text records).

(** A sheet after a save, by the mark of its frame before and after: a
    sheet whose mark is cleared holds the data of its frame, if it was
    marked, and is untouched otherwise; a sheet that is still marked
    was marked before, and is untouched or empty. *)
Definition sheet_state (marked marked' : bool) (cols : list string)
    (frame : option DataFrame) (before after : sheet) : Prop :=
  if marked' then marked = true /\ (after = before \/ after = [])
  else if marked then
    after = match frame with
            | Some df => data_to_update cols df
            | None => before
            end
  else after = before.

(** A report row that is consistent in itself: it compares two
    numbers, for a competitor product that has a name, and its flag
    and its difference are the ones of its two prices. *)
Definition report_row_consistent (row : ReportRow) : Prop :=
  exists my_p comp_p,
    MonPrix row = VNum my_p
    /\ PrixConcurrent row = VNum comp_p
    /\ NomProduitConcurrent row <> ""
    /\ EstMoinsCher row = (comp_p <? my_p)%float
    /\ DifferencePrix row
       = calculate_price_difference (VNum my_p) (VNum comp_p).

(** A computation that leaves the report as it is. *)
Definition keeps_report {A : Type} (m : Py A) : Prop :=
  forall σ, results_list (m σ).2 = results_list σ.

(** The report of a run: the rows the store had are followed by at
    most one consistent row for each completed task. *)
Definition report_ok (σ : store) (s : run_state) : Prop :=
  exists extra,
    results_list (rs_store s) = (results_list σ ++ extra)%list
    /\ length extra <= completed_final_tasks s
    /\ Forall report_row_consistent extra.

(** Records of a sheet with the labels of the verification sheet. *)
Definition verification_records_sample : list sheet_record :=
  [ {[ "MonNomProduit" := SVStr "Widget"; "Concurrent" := SVStr "taklope.com";
       "URLConcurrent" := SVStr "http://t/w" ]};
    {[ "MonNomProduit" := SVStr "Gadget";
       "Concurrent" := SVStr "kumulusvape.fr";
       "URLConcurrent" := SVStr "" ]} ].

(** A formatting of numbers, for the runs of the scenarios: their
    sheets hold no number. *)
Definition numeric_text_sample (_ : list (option sheet_value))
    (_ : sheet_value) : string :=
  "0".

(** A session whose page loads time out. *)
Definition load_times_out (d : nat) (_ : string) : lpv_page * nat :=
  (mkPage (Failed TimeoutException) (Found tt) (Found "") (Found "")
     (Found ""),
   S d).

(* ================================================================== *)
(** * Properties *)
(* ================================================================== *)

Ltac unfold_py :=
  unfold value_of, store_after, run_py, mbind, Py_bind, mret, Py_ret,
    load, modify, alloc, append_result in *.

(** ** The local cache store *)

Section CacheStore.

Variables (product_name domain : string) (url : option string).

(** An upsert for a pair the cache does not hold builds the longer
    frame as a new object; every frame of the store is as before. *)
Lemma save_or_update_url_absent σ r df :
  frame_at σ r = Some df ->
  has_cols ["NomProduit"; "CompetitorDomain"; "URLConcurrent"] df = true ->
  List.filter (pair_mask "NomProduit" "CompetitorDomain" product_name domain)
    (rows df) = [] ->
  save_or_update_url product_name domain url r σ
  = (true, mkStore (frames σ ++ [pd_concat df (products_url_row product_name domain url)])
             (results_list σ)).
Proof.
  unfold frame_at. intros Hr Hc Hf.
  unfold save_or_update_url, ensure_columns. unfold_py.
  rewrite Hr, Hc, Hf. reflexivity.
Qed.

Lemma add_to_manual_verification_absent σ r df :
  frame_at σ r = Some df ->
  has_cols ["MonNomProduit"; "Concurrent"] df = true ->
  existsb id (map (pair_mask "MonNomProduit" "Concurrent" product_name domain)
                (rows df)) = false ->
  add_to_manual_verification product_name domain r url σ
  = (true, mkStore (frames σ ++ [pd_concat df (verification_row product_name domain url)])
             (results_list σ)).
Proof.
  unfold frame_at. intros Hr Hc Hf.
  unfold add_to_manual_verification, ensure_columns. unfold_py.
  rewrite Hr, Hc, Hf. reflexivity.
Qed.

Lemma filter_shorter {A : Type} (keep : A -> bool) (l : list A) :
  existsb (fun x => negb (keep x)) l = true ->
  length (List.filter keep l) < length l.
Proof.
  induction l as [|x l IH]; simpl; [discriminate|].
  pose proof (List.filter_length_le keep l) as Hle.
  destruct (keep x); simpl; intros Hex.
  - apply IH in Hex. lia.
  - lia.
Qed.

Lemma existsb_negb_negb {A : Type} (p : A -> bool) (l : list A) :
  existsb (fun x => negb (negb (p x))) l = existsb p l.
Proof.
  induction l as [|x l IH]; simpl; [done|].
  by rewrite IH, negb_involutive.
Qed.

Lemma remove_from_manual_verification_present σ r df :
  frame_at σ r = Some df ->
  df_empty df = false ->
  has_cols ["MonNomProduit"; "Concurrent"] df = true ->
  existsb (pair_mask "MonNomProduit" "Concurrent" product_name domain)
    (rows df) = true ->
  remove_from_manual_verification product_name domain r σ
  = (true,
     mkStore
       (frames σ
        ++ [mkFrame (columns df)
              (List.filter
                 (fun x => negb (pair_mask "MonNomProduit" "Concurrent"
                                   product_name domain x)) (rows df))])
       (results_list σ)).
Proof.
  unfold frame_at. intros Hr He Hc Hex.
  unfold remove_from_manual_verification. unfold_py.
  rewrite Hr, He, Hc. cbn [negb]. cbv zeta. rewrite Hex. cbn [rows].
  assert (Hlt : length (List.filter
                  (fun x => negb (pair_mask "MonNomProduit" "Concurrent"
                                    product_name domain x)) (rows df))
                < length (rows df)).
  { apply filter_shorter. by rewrite existsb_negb_negb. }
  apply Nat.ltb_lt in Hlt. rewrite Hlt. reflexivity.
Qed.

(** A frame of the store is still there after an object was created. *)
Lemma frame_at_alloc σ r df new :
  frame_at σ r = Some df ->
  frame_at (mkStore (frames σ ++ [new]) (results_list σ)) r = Some df.
Proof.
  unfold frame_at. simpl. intros Hr. rewrite lookup_app_l; [done|].
  by eapply lookup_lt_Some.
Qed.

(** Hence the same upsert, applied again, reports a change again. *)
Lemma save_or_update_url_absent_again σ r df :
  frame_at σ r = Some df ->
  has_cols ["NomProduit"; "CompetitorDomain"; "URLConcurrent"] df = true ->
  List.filter (pair_mask "NomProduit" "CompetitorDomain" product_name domain)
    (rows df) = [] ->
  value_of (save_or_update_url product_name domain url r)
    (store_after (save_or_update_url product_name domain url r) σ) = true.
Proof.
  intros Hr Hc Hf. unfold value_of, store_after.
  rewrite (save_or_update_url_absent σ r df Hr Hc Hf). simpl snd.
  erewrite save_or_update_url_absent; eauto using frame_at_alloc.
Qed.

Lemma add_to_manual_verification_absent_again σ r df :
  frame_at σ r = Some df ->
  has_cols ["MonNomProduit"; "Concurrent"] df = true ->
  existsb id (map (pair_mask "MonNomProduit" "Concurrent" product_name domain)
                (rows df)) = false ->
  value_of (add_to_manual_verification product_name domain r url)
    (store_after (add_to_manual_verification product_name domain r url) σ)
  = true.
Proof.
  intros Hr Hc Hf. unfold value_of, store_after.
  rewrite (add_to_manual_verification_absent σ r df Hr Hc Hf). simpl snd.
  erewrite add_to_manual_verification_absent; eauto using frame_at_alloc.
Qed.

Lemma remove_from_manual_verification_present_again σ r df :
  frame_at σ r = Some df ->
  df_empty df = false ->
  has_cols ["MonNomProduit"; "Concurrent"] df = true ->
  existsb (pair_mask "MonNomProduit" "Concurrent" product_name domain)
    (rows df) = true ->
  value_of (remove_from_manual_verification product_name domain r)
    (store_after (remove_from_manual_verification product_name domain r) σ)
  = true.
Proof.
  intros Hr He Hc Hex. unfold value_of, store_after.
  rewrite (remove_from_manual_verification_present σ r df Hr He Hc Hex).
  simpl snd.
  erewrite remove_from_manual_verification_present;
    eauto using frame_at_alloc.
Qed.

End CacheStore.

(** C2 (failing inputs): on the empty cache, the upsert of ("Widget",
    "taklope.com", "http://x") reports a change, and the identical upsert
    applied to the resulting store reports a change again; the same
    holds for adding the pair to the empty verification collection twice
    and for removing it twice from a collection that holds it.  After
    each first application the collection is the object it was. *)
Theorem cache_operations_reapplied_report_change :
  let upsert := save_or_update_url "Widget" "taklope.com" (Some "http://x")
                  products_url_ref in
  let add := add_to_manual_verification "Widget" "taklope.com"
               verification_ref (Some "http://x") in
  let remove := remove_from_manual_verification "Widget" "taklope.com"
                  verification_ref in
  (value_of upsert fresh_store = true
   /\ value_of upsert (store_after upsert fresh_store) = true
   /\ frame_at (store_after upsert fresh_store) products_url_ref
      = frame_at fresh_store products_url_ref)
  /\ (value_of add fresh_store = true
      /\ value_of add (store_after add fresh_store) = true
      /\ frame_at (store_after add fresh_store) verification_ref
         = frame_at fresh_store verification_ref)
  /\ (value_of remove parked_widget = true
      /\ value_of remove (store_after remove parked_widget) = true
      /\ frame_at (store_after remove parked_widget) verification_ref
         = frame_at parked_widget verification_ref).
Proof. vm_compute. repeat split; reflexivity. Qed.

(** C6 (failing input): the cache holds ("widget", "taklope.com") with
    URL "http://a"; the upsert of ("Widget", "taklope.com", "http://b")
    has the same normalised key, yet reports a change without updating
    the entry, and the frame it builds holds the key twice. *)
Theorem upsert_under_case_variance_appends :
  let upsert := save_or_update_url "Widget" "taklope.com" (Some "http://b")
                  products_url_ref in
  index_unique "Widget" "taklope.com" = index_unique "widget" "taklope.com"
  /\ value_of upsert cached_widget = true
  /\ urls_at (store_after upsert cached_widget) products_url_ref
     = Some [CStr "http://a"]
  /\ cache_keys_at (store_after upsert cached_widget) 2
     = Some [Some "widget__taklope.com"; Some "widget__taklope.com"].
Proof. vm_compute. repeat split; reflexivity. Qed.

(** ** Price difference *)

Lemma float_positive_not_zero (c : float) :
  (0 <? c)%float = true -> (c =? 0)%float = false.
Proof.
  rewrite FloatAxioms.ltb_spec, FloatAxioms.eqb_spec.
  change (Prim2SF 0) with (S754_zero false).
  destruct (Prim2SF c) as [[]| [] | | [] ? ?]; vm_compute; congruence.
Qed.

Lemma float_zero_not_positive (c : float) :
  (c =? 0)%float = true -> (0 <? c)%float = false.
Proof.
  intros H. destruct (0 <? c)%float eqn:E; [|done].
  apply float_positive_not_zero in E. congruence.
Qed.

Lemma float_negative_not_positive (c : float) :
  (c <? 0)%float = true -> (0 <? c)%float = false /\ (c =? 0)%float = false.
Proof.
  rewrite !FloatAxioms.ltb_spec, FloatAxioms.eqb_spec.
  change (Prim2SF 0) with (S754_zero false).
  destruct (Prim2SF c) as [[]| [] | | [] ? ?]; vm_compute; split; congruence.
Qed.

(** C5 (counterexample): a price that is present but cannot be converted
    to a number does not give "N/A". *)
Lemma unconvertible_price_is_not_NA :
  calculate_price_difference VBad (VNum 10) = PDText "Erreur Type"
  /\ calculate_price_difference VBad (VNum 10) <> PDText "N/A".
Proof. split; [reflexivity | discriminate]. Qed.

(** C5 (amended): the percentage rounded to two decimals when the
    competitor price is positive; 0.0 when both prices are zero;
    +infinity when the competitor price is zero and mine is positive;
    "N/A" when the competitor price is negative or a price is [None];
    "Erreur Type" when both are present and one cannot be converted to a
    number; and the four sample values. *)
Theorem calculate_price_difference_cases :
  (forall m c, (0 <? c)%float = true ->
     calculate_price_difference (VNum m) (VNum c)
     = PDNum (PyFloat.round2 (((m - c) / c) * 100)%float))
  /\ (forall m c, (c =? 0)%float = true -> (m =? 0)%float = true ->
        calculate_price_difference (VNum m) (VNum c) = PDNum 0%float)
  /\ (forall m c, (c =? 0)%float = true -> (0 <? m)%float = true ->
        calculate_price_difference (VNum m) (VNum c) = PDNum infinity)
  /\ (forall m c, (c <? 0)%float = true ->
        calculate_price_difference (VNum m) (VNum c) = PDText "N/A")
  /\ (forall my_price competitor_price,
        my_price = VNone \/ competitor_price = VNone ->
        calculate_price_difference my_price competitor_price = PDText "N/A")
  /\ (forall my_price competitor_price,
        my_price <> VNone -> competitor_price <> VNone ->
        my_price = VBad \/ competitor_price = VBad ->
        calculate_price_difference my_price competitor_price
        = PDText "Erreur Type")
  /\ calculate_price_difference (VNum 100) (VNum 80) = PDNum 25%float
  /\ calculate_price_difference (VNum 80) (VNum 100) = PDNum (-20)%float
  /\ calculate_price_difference (VNum 10) (VNum 0) = PDNum infinity
  /\ calculate_price_difference (VNum 0) (VNum 0) = PDNum 0%float.
Proof.
  repeat apply conj; [| | | | | | reflexivity ..].
  - intros m c Hc. unfold calculate_price_difference. by rewrite Hc.
  - intros m c Hc Hm. unfold calculate_price_difference.
    rewrite (float_zero_not_positive c Hc), Hc, Hm.
    rewrite (float_zero_not_positive m Hm). reflexivity.
  - intros m c Hc Hm. unfold calculate_price_difference.
    by rewrite (float_zero_not_positive c Hc), Hc, Hm.
  - intros m c Hc. unfold calculate_price_difference.
    destruct (float_negative_not_positive c Hc) as [-> ->]. reflexivity.
  - intros my_price competitor_price [-> | ->];
      [by destruct competitor_price | by destruct my_price].
  - intros my_price competitor_price Hm Hc [-> | ->];
      [by destruct competitor_price | by destruct my_price].
Qed.

Lemma calculate_price_difference_cases_witness :
  (0 <? 80)%float = true
  /\ calculate_price_difference (VNum 100) (VNum 80)
     = PDNum (PyFloat.round2 (((100 - 80) / 80) * 100)%float).
Proof.
  split; [reflexivity|].
  apply (proj1 calculate_price_difference_cases 100%float 80%float).
  reflexivity.
Defined.

(** ** Browser worker *)

Section LpvWorkerFacts.

Variable driver : Type.
Variable scrape :
  driver -> string ->
  outcome (option string * option float * status) * driver.

Lemma worker_loop_before_sentinel pre post :
  Sentinel ∉ pre ->
  forall d last,
  exists rs,
    worker_loop driver scrape d last (pre ++ Sentinel :: post)
    = (rs, S (length pre), StoppedOnSentinel)
    /\ Forall2 (answers driver scrape) pre rs.
Proof.
  induction pre as [|m pre IH]; intros Hno d last.
  - exists []. split; [reflexivity | constructor].
  - apply not_elem_of_cons in Hno as [Hm Hno].
    destruct m as [|url my_product_name|repr]; [done| |]; simpl.
    + destruct (scrape d url) as [o d'] eqn:Hs.
      destruct (IH Hno d' (Some (url, my_product_name))) as (rs & -> & Hrs).
      eexists. split; [reflexivity|]. constructor; [|done].
      destruct o as [[[name price] st]|exc].
      * apply (answers_scraped driver scrape d). by rewrite Hs.
      * apply (answers_raised driver scrape d). by rewrite Hs.
    + destruct (IH Hno d last) as (rs & -> & Hrs).
      eexists. split; [reflexivity|]. constructor; [constructor | done].
Qed.

Lemma worker_loop_without_sentinel queue :
  Sentinel ∉ queue ->
  forall d last,
  exists rs,
    worker_loop driver scrape d last queue
    = (rs, length queue, WaitingForTask)
    /\ Forall2 (answers driver scrape) queue rs.
Proof.
  induction queue as [|m queue IH]; intros Hno d last.
  - exists []. split; [reflexivity | constructor].
  - apply not_elem_of_cons in Hno as [Hm Hno].
    destruct m as [|url my_product_name|repr]; [done| |]; simpl.
    + destruct (scrape d url) as [o d'] eqn:Hs.
      destruct (IH Hno d' (Some (url, my_product_name))) as (rs & -> & Hrs).
      eexists. split; [reflexivity|]. constructor; [|done].
      destruct o as [[[name price] st]|exc].
      * apply (answers_scraped driver scrape d). by rewrite Hs.
      * apply (answers_raised driver scrape d). by rewrite Hs.
    + destruct (IH Hno d last) as (rs & -> & Hrs).
      eexists. split; [reflexivity|]. constructor; [constructor | done].
Qed.

(** C7: once its session is up, the worker that finds the messages
    [pre], then the sentinel, then [post] on its task queue emits one
    result per message of [pre], in order - for a task, under the
    task's URL and product name, with the scraper's status or, if the
    scraper raised, with a [WorkerLoopError] status - takes nothing
    after the sentinel from the queue, stops and closes the session. *)
Theorem worker_answers_each_task_once (d : driver)
    (pre post : list task_msg) :
  Sentinel ∉ pre ->
  let run := persistent_lpv_worker driver scrape (Some d)
               (pre ++ Sentinel :: post) in
  Forall2 (answers driver scrape) pre (emitted run)
  /\ length (emitted run) = length pre
  /\ consumed run = S (length pre)
  /\ ending run = StoppedOnSentinel
  /\ driver_quit run = true.
Proof.
  intros Hno. simpl. unfold persistent_lpv_worker.
  destruct (worker_loop_before_sentinel pre post Hno d None)
    as (rs & -> & Hrs).
  simpl. repeat split; try done. symmetry. by eapply Forall2_length.
Qed.

End LpvWorkerFacts.

Lemma worker_answers_each_task_once_witness :
  (Sentinel ∉ [Task "http://lpv/1" "Widget"; Malformed "42";
               Task "http://crash" "Gadget"])
  /\ map r_status
       (emitted (persistent_lpv_worker nat counting_scrape (Some 0)
                   ([Task "http://lpv/1" "Widget"; Malformed "42";
                     Task "http://crash" "Gadget"]
                    ++ Sentinel :: [Task "http://lpv/2" "Late"])))
     = [SCode 200; SText "InvalidTaskData";
        SText "WorkerLoopError: ImportError"]
  /\ length (emitted (persistent_lpv_worker nat counting_scrape (Some 0)
                        ([Task "http://lpv/1" "Widget"; Malformed "42";
                          Task "http://crash" "Gadget"]
                         ++ Sentinel :: [Task "http://lpv/2" "Late"])))
     = 3.
Proof.
  assert (Hno : Sentinel ∉ [Task "http://lpv/1" "Widget"; Malformed "42";
                            Task "http://crash" "Gadget"]).
  { intros H. repeat (apply elem_of_cons in H as [H|H]; [discriminate|]).
    by apply elem_of_nil in H. }
  split; [exact Hno|]. split; [reflexivity|].
  exact (proj1 (proj2 (worker_answers_each_task_once nat counting_scrape 0
                         _ [Task "http://lpv/2" "Late"] Hno))).
Defined.

(** ** Lightweight extractor *)

Section ExtractorFacts.

Context {tag : Type} `{Soup tag}.
Variable requests_get : string -> get_outcome tag.

(** Looking a page up raises nothing but the attribute error of a
    [find] on [None]. *)
Lemma extract_fields_raises_other soup domain e :
  extract_fields soup domain = Raise e -> exists exc, e = OtherException exc.
Proof.
  unfold extract_fields, find_in, mbind, attempt_bind, mret, attempt_ret.
  intros Hraise.
  repeat match type of Hraise with
         | context [if ?b then _ else _] => destruct b
         | context [match ?o with Some _ => _ | None => _ end] => destruct o
         end;
    first [discriminate | inversion Hraise; eauto].
Qed.

(** C8: the extractor returns a triple for every URL and domain,
    whatever the HTTP client and the page do: the numeric status code
    when the response is an HTTP error, "RequestError" when the client
    raises a transport error, "UnknownError" when the client or the
    page lookup raises anything else; otherwise the fields found and
    the numeric status code. *)
Theorem extract_product_info_fails_closed (url domain : string) :
  (exists name price st,
     extract_product_info requests_get url domain = (name, price, st))
  /\ (forall code soup,
        requests_get url = GetResponse code soup ->
        (400 <= code < 600)%Z ->
        extract_product_info requests_get url domain
        = (None, None, SCode code))
  /\ (forall exc,
        requests_get url = GetRequestException exc ->
        extract_product_info requests_get url domain
        = (None, None, SText "RequestError"))
  /\ (forall exc,
        requests_get url = GetOtherException exc ->
        extract_product_info requests_get url domain
        = (None, None, SText "UnknownError"))
  /\ (forall code soup e,
        requests_get url = GetResponse code soup ->
        ~ (400 <= code < 600)%Z ->
        extract_fields soup domain = Raise e ->
        extract_product_info requests_get url domain
        = (None, None, SText "UnknownError"))
  /\ (forall code soup name price_text,
        requests_get url = GetResponse code soup ->
        ~ (400 <= code < 600)%Z ->
        extract_fields soup domain = Done (name, price_text) ->
        extract_product_info requests_get url domain
        = (name, clean_price_if price_text, SCode code)).
Proof.
  assert (Hrange : forall code,
            ((400 <=? code) && (code <? 600))%Z = true
            <-> (400 <= code < 600)%Z).
  { intros code. rewrite andb_true_iff, Z.leb_le, Z.ltb_lt. tauto. }
  repeat apply conj.
  - destruct (extract_product_info requests_get url domain)
      as [[name price] st]. eauto.
  - intros code soup Hget Hcode. unfold extract_product_info, extract_body.
    rewrite Hget. apply Hrange in Hcode. by rewrite Hcode.
  - intros exc Hget. unfold extract_product_info, extract_body.
    by rewrite Hget.
  - intros exc Hget. unfold extract_product_info, extract_body.
    by rewrite Hget.
  - intros code soup e Hget Hcode Hraise.
    unfold extract_product_info, extract_body. rewrite Hget.
    destruct ((400 <=? code) && (code <? 600))%Z eqn:E;
      [by apply Hrange in E|].
    destruct (extract_fields_raises_other _ _ _ Hraise) as [exc ->].
    by rewrite Hraise.
  - intros code soup name price_text Hget Hcode Hdone.
    unfold extract_product_info, extract_body. rewrite Hget.
    destruct ((400 <=? code) && (code <? 600))%Z eqn:E;
      [by apply Hrange in E|].
    by rewrite Hdone.
Qed.

End ExtractorFacts.

Lemma extract_product_info_fails_closed_witness :
  scenario_get "http://taklope.com/gone" = GetResponse 404 page_without_block
  /\ (400 <= 404 < 600)%Z
  /\ extract_product_info scenario_get "http://taklope.com/gone" "taklope.com"
     = (None, None, SCode 404).
Proof.
  split; [reflexivity|]. split; [lia|].
  apply (proj1 (proj2 (extract_product_info_fails_closed scenario_get
                         "http://taklope.com/gone" "taklope.com"))
           404%Z page_without_block); [reflexivity | lia].
Defined.

(** ** URL resolution *)

Lemma strip_truthy (s : string) :
  PyStr.truthy (PyStr.strip s) = true -> PyStr.truthy s = true.
Proof. by destruct s. Qed.

Lemma url_checked_nonblank (c : cell) : url_checked (Some c) = nonblank c.
Proof.
  destruct c as [s|]; [|done]. unfold url_checked, url_valid, nonblank.
  destruct (PyStr.truthy (PyStr.strip s)) eqn:E.
  - by rewrite (strip_truthy s E).
  - by rewrite andb_false_r.
Qed.

Lemma url_valid_nonblank (c : cell) :
  url_valid (Some c) = bool_decide (is_Some (nonblank c)).
Proof.
  destruct c as [s|]; [|done]. unfold url_valid, nonblank.
  destruct (PyStr.truthy (PyStr.strip s)) eqn:E.
  - by rewrite (strip_truthy s E).
  - by rewrite andb_false_r.
Qed.

Lemma url_valid_truthy (v : url_value) :
  url_valid v = true -> url_truthy v = true.
Proof.
  destruct v as [[s|]|]; simpl; try done. by intros [? _]%andb_true_iff.
Qed.

Lemma in_index_filed (key : string) (df : DataFrame) :
  in_index key df = true ->
  exists c,
    head (map (fun r => at_col r "URLConcurrent")
            (List.filter (fun r => cell_is key (at_col r "IndexUnique"))
               (rows df))) = Some c.
Proof.
  unfold in_index. intros [_ Hex]%andb_true_iff.
  induction (rows df) as [|r l IH]; simpl in *; [discriminate|].
  destruct (cell_is key (at_col r "IndexUnique")); simpl; eauto.
Qed.

(** Membership in a list that is written out. *)
Ltac in_list :=
  cbn; repeat first [apply list_elem_of_here | apply list_elem_of_further].

Section WorkerTaskFacts.

Variable search : string -> string -> outcome (option string).

(** The exceptions of the local lookup leave the task without a URL
    and not parked. *)
Lemma local_lookup_raised idx vdf pdf l l1 e :
  local_lookup idx vdf pdf l = (l1, Some e) ->
  competitor_url l1 = competitor_url l
  /\ verification_has_no_url l1 = verification_has_no_url l.
Proof.
  unfold local_lookup.
  destruct (in_index idx vdf).
  - destruct (url_series idx vdf) as [series|exc].
    + destruct (url_valid (head series)) eqn:Hv; cbn [competitor_url
        verification_has_no_url].
      * rewrite (url_valid_truthy _ Hv). cbn. discriminate.
      * rewrite andb_false_r. cbn. discriminate.
    + intros [= <- _]. done.
  - destruct (negb (url_truthy (competitor_url l))
              && negb (verification_has_no_url l) && in_index idx pdf);
      [|discriminate].
    destruct (url_series idx pdf) as [series|exc].
    + repeat match goal with
             | |- context [if ?b then _ else _] => destruct b
             end; discriminate.
    + intros [= <- _]. done.
Qed.

(** After the resolution the status is one of seven, never
    "LocalLookupError". *)
Lemma resolve_url_statuses my_product_name domain vdf pdf :
  l_status (fst (resolve_url search my_product_name domain vdf pdf))
  ∈ [SText "Init"; SText "URL From Verification";
     SText "Verification No URL"; SText "URL From Cache";
     SText "URL From Serper"; SText "Serper Not Found";
     SText "Serper API Error"].
Proof.
  unfold resolve_url.
  destruct (local_lookup _ vdf pdf _) as [l1 [e|]] eqn:Hl.
  - apply local_lookup_raised in Hl as [Hu Hv].
    cbn [competitor_url verification_has_no_url] in *.
    rewrite Hu, Hv. cbn.
    destruct (search my_product_name domain) as [found|exc]; cbn;
      [destruct (url_valid (CStr <$> found)); cbn|]; in_list.
  - assert (Hs : l_status l1 ∈ [SText "Init"; SText "URL From Verification";
                   SText "Verification No URL"; SText "URL From Cache"]).
    { revert Hl. unfold local_lookup.
      repeat match goal with
             | |- context [if ?b then _ else _] => destruct b
             | |- context [match ?o with Returned _ => _ | Raised _ => _ end]
               => destruct o
             end; intros [= <-]; cbn; in_list. }
    destruct (negb (url_truthy (competitor_url l1))
              && negb (verification_has_no_url l1)); cbn;
      [|revert Hs; rewrite !elem_of_cons; tauto].
    destruct (search my_product_name domain) as [found|exc]; cbn;
      [destruct (url_valid (CStr <$> found)); cbn|]; in_list.
Qed.

End WorkerTaskFacts.

Ltac simpl_locals :=
  cbn [negb andb competitor_url verification_has_no_url l_status
       found_in_verification fst snd].

Section ResolutionClaims.

Variable search : string -> string -> outcome (option string).
Variable extract :
  string -> string -> outcome (option string * option float * status).

Lemma search_step_statuses my_product_name domain vdf pdf l1 e :
  local_lookup (index_unique my_product_name domain) vdf pdf
    (mkLocals (SText "Init") None false false) = (l1, Some e) ->
  resolve_url search my_product_name domain vdf pdf
  = match search my_product_name domain with
    | Returned found =>
        if url_valid (CStr <$> found)
        then (mkLocals (SText "URL From Serper") (CStr <$> found)
                (found_in_verification l1) false,
              [(my_product_name, domain)])
        else (mkLocals (SText "Serper Not Found") None
                (found_in_verification l1) false,
              [(my_product_name, domain)])
    | Raised _ =>
        (mkLocals (SText "Serper API Error") None
           (found_in_verification l1) false,
         [(my_product_name, domain)])
    end.
Proof.
  intros Hl. unfold resolve_url. rewrite Hl.
  apply local_lookup_raised in Hl as [Hu Hv].
  cbn [competitor_url verification_has_no_url] in *.
  rewrite Hu, Hv. reflexivity.
Qed.

(** C9 (what the code does instead): when the local lookup raises, the
    exception stays inside the task, the search collaborator is called,
    and the status the resolution ends with is the one of the search,
    "URL From Serper", "Serper Not Found" or "Serper API Error", not
    "LocalLookupError"; without a URL from the search the task reports
    that search status. *)
Theorem lookup_error_status_is_overwritten my_product_name domain vdf pdf
    l1 e :
  local_lookup (index_unique my_product_name domain) vdf pdf
    (mkLocals (SText "Init") None false false) = (l1, Some e) ->
  let res := resolve_url search my_product_name domain vdf pdf in
  snd res = [(my_product_name, domain)]
  /\ l_status (fst res) ∈ [SText "URL From Serper";
                          SText "Serper Not Found";
                          SText "Serper API Error"]
  /\ l_status (fst res) <> SText "LocalLookupError"
  /\ (resolved_url (fst res) = None ->
      r_status (_worker_task search extract my_product_name domain vdf pdf)
      ∈ [SText "Serper Not Found"; SText "Serper API Error"]).
Proof.
  intros Hl. unfold _worker_task, scrape_or_mark.
  rewrite (search_step_statuses _ _ _ _ _ _ Hl). clear Hl.
  destruct (search my_product_name domain) as [found|exc];
    [destruct (url_valid (CStr <$> found)) eqn:Hv|]; cbn [fst snd l_status].
  - repeat split; [in_list | discriminate |].
    unfold resolved_url. cbn [competitor_url].
    destruct found as [u|]; [|discriminate]. unfold url_checked.
    cbn [fmap option_fmap option_map]. cbn in Hv |- *. rewrite Hv.
    discriminate.
  - repeat split; [in_list | discriminate |]. intros _. in_list.
  - repeat split; [in_list | discriminate |]. intros _. in_list.
Qed.

(** C4 (amended): with the [URLConcurrent] column present in both
    collections, the resolution is the one by the rules: first match
    wins, a URL counting only when it is not blank. *)
Theorem resolve_url_follows_rules my_product_name domain vdf pdf :
  has_col "URLConcurrent" vdf = true ->
  has_col "URLConcurrent" pdf = true ->
  let res := resolve_url search my_product_name domain vdf pdf in
  (resolved_url (fst res), l_status (fst res), snd res)
  = resolution_by_rules search my_product_name domain vdf pdf.
Proof.
  intros Hv Hp. unfold resolve_url, resolution_by_rules, local_lookup,
    filed_url, url_series, resolved_url.
  rewrite Hv, Hp.
  set (key := index_unique my_product_name domain).
  assert (Hsearch :
    forall fv,
      let x :=
        match search my_product_name domain with
        | Returned serper_url =>
            if url_valid (CStr <$> serper_url)
            then (mkLocals (SText "URL From Serper") (CStr <$> serper_url)
                    fv false, [(my_product_name, domain)])
            else (mkLocals (SText "Serper Not Found") None fv false,
                  [(my_product_name, domain)])
        | Raised _ =>
            (mkLocals (SText "Serper API Error") None fv false,
             [(my_product_name, domain)])
        end in
      (url_checked (competitor_url (fst x)), l_status (fst x), snd x)
      = match search my_product_name domain with
        | Returned found =>
            match (CStr <$> found) ≫= nonblank with
            | Some u => (Some u, SText "URL From Serper",
                         [(my_product_name, domain)])
            | None => (None, SText "Serper Not Found",
                       [(my_product_name, domain)])
            end
        | Raised _ => (None, SText "Serper API Error",
                       [(my_product_name, domain)])
        end).
  { intros fv.
    destruct (search my_product_name domain) as [[u|]|exc];
      [|reflexivity|reflexivity].
    change (CStr <$> Some u) with (Some (CStr u)).
    rewrite url_valid_nonblank. cbn [mbind option_bind].
    pose proof (url_checked_nonblank (CStr u)) as Hc.
    destruct (nonblank (CStr u)) as [w|] eqn:E.
    - rewrite bool_decide_eq_true_2 by eauto.
      cbn [competitor_url l_status fst snd]. by rewrite Hc.
    - rewrite bool_decide_eq_false_2 by (intros [? ?]; discriminate).
      reflexivity. }
  destruct (in_index key vdf) eqn:Hiv.
  - destruct (in_index_filed key vdf Hiv) as [c Hc]. rewrite Hc.
    rewrite url_valid_nonblank.
    pose proof (url_checked_nonblank c) as Hchk.
    pose proof (url_valid_nonblank c) as Hval.
    destruct (nonblank c) as [u|] eqn:E; cbn [bool_decide decide_rel].
    + rewrite bool_decide_eq_true_2 by eauto.
      rewrite bool_decide_eq_true_2 in Hval by eauto.
      simpl_locals. rewrite (url_valid_truthy _ Hval). simpl_locals.
      rewrite (url_valid_truthy _ Hval). simpl_locals. by rewrite Hchk.
    + rewrite bool_decide_eq_false_2 by (intros [? ?]; discriminate).
      simpl_locals. rewrite !andb_false_r. simpl_locals.
      rewrite !andb_false_r. simpl_locals. by rewrite Hchk.
  - cbn [competitor_url verification_has_no_url url_truthy negb andb].
    destruct (in_index key pdf) eqn:Hip.
    + destruct (in_index_filed key pdf Hip) as [c Hc]. rewrite Hc.
      assert (Hex : existsb (fun r => cell_is key (at_col r "IndexUnique"))
                      (rows pdf) = true).
      { unfold in_index in Hip. by apply andb_true_iff in Hip as [_ ?]. }
      rewrite Hex. rewrite url_valid_nonblank. cbn [mbind option_bind].
      pose proof (url_checked_nonblank c) as Hchk.
      pose proof (url_valid_nonblank c) as Hval.
      destruct (nonblank c) as [u|] eqn:E.
      * rewrite bool_decide_eq_true_2 by eauto.
        rewrite bool_decide_eq_true_2 in Hval by eauto.
        simpl_locals. rewrite (url_valid_truthy _ Hval). simpl_locals.
        by rewrite Hchk.
      * rewrite bool_decide_eq_false_2 by (intros [? ?]; discriminate).
        exact (Hsearch false).
    + exact (Hsearch false).
Qed.

End ResolutionClaims.

(** C4 (counterexample): the verification collection holds the pair with
    the URL " ", which is not empty; the resolution does not use it and
    parks the pair instead, although the search would find a page. *)
Lemma blank_verification_url_is_parked :
  filed_url (index_unique "Widget" "taklope.com") verification_with_blank_url
  = Some (CStr " ")
  /\ " " <> ""
  /\ l_status (fst (resolve_url search_finds "Widget" "taklope.com"
                      verification_with_blank_url
                      (empty_frame REQUIRED_COLUMNS_PRODUCTS_URL)))
     = SText "Verification No URL"
  /\ l_status (fst (resolve_url search_finds "Widget" "taklope.com"
                      verification_with_blank_url
                      (empty_frame REQUIRED_COLUMNS_PRODUCTS_URL)))
     <> SText "URL From Verification".
Proof. vm_compute. repeat split; try reflexivity; discriminate. Qed.

Lemma resolve_url_follows_rules_witness :
  has_col "URLConcurrent" (empty_frame REQUIRED_COLUMNS_VERIFICATION) = true
  /\ has_col "URLConcurrent" products_url_indexed = true
  /\ (let res := resolve_url search_nothing " Widget" "Taklope.com "
                   (empty_frame REQUIRED_COLUMNS_VERIFICATION)
                   products_url_indexed in
      (resolved_url (fst res), l_status (fst res), snd res))
     = (Some "http://a", SText "URL From Cache", []).
Proof.
  split; [reflexivity|]. split; [reflexivity|].
  exact (resolve_url_follows_rules search_nothing " Widget" "Taklope.com "
           (empty_frame REQUIRED_COLUMNS_VERIFICATION) products_url_indexed
           eq_refl eq_refl).
Defined.

Lemma lookup_error_status_is_overwritten_witness :
  local_lookup (index_unique "Widget" "taklope.com")
    verification_without_url_column
    (empty_frame REQUIRED_COLUMNS_PRODUCTS_URL)
    (mkLocals (SText "Init") None false false)
  = (mkLocals (SText "Init") None true false, Some "KeyError")
  /\ l_status (fst (resolve_url search_nothing "Widget" "taklope.com"
                      verification_without_url_column
                      (empty_frame REQUIRED_COLUMNS_PRODUCTS_URL)))
     <> SText "LocalLookupError".
Proof.
  split; [reflexivity|].
  exact (proj1 (proj2 (proj2
           (lookup_error_status_is_overwritten search_nothing extract_never
              "Widget" "taklope.com" verification_without_url_column
              (empty_frame REQUIRED_COLUMNS_PRODUCTS_URL)
              (mkLocals (SText "Init") None true false) "KeyError"
              eq_refl)))).
Defined.

(** The task of the scenario ends with the status of the search. *)
Lemma lookup_error_reported_as_search_failure :
  r_status (_worker_task search_nothing extract_never "Widget" "taklope.com"
              verification_without_url_column
              (empty_frame REQUIRED_COLUMNS_PRODUCTS_URL))
  = SText "Serper Not Found".
Proof. reflexivity. Qed.

(** ** Result correlator *)

(** Writing the URL of the rows of a pair does not change which rows
    belong to the pair. *)
Lemma pair_mask_set_url product_name domain c (row : gmap string cell) :
  pair_mask "NomProduit" "CompetitorDomain" product_name domain
    (<["URLConcurrent" := c]> row)
  = pair_mask "NomProduit" "CompetitorDomain" product_name domain row.
Proof.
  unfold pair_mask, at_col. by rewrite !lookup_insert_ne.
Qed.

Lemma filter_set_url product_name domain url_str (l : list (gmap string cell)) :
  let mask := pair_mask "NomProduit" "CompetitorDomain" product_name domain in
  let write := fun r : gmap string cell =>
                 if mask r then <["URLConcurrent" := CStr url_str]> r else r in
  List.filter mask (map write l) = map write (List.filter mask l).
Proof.
  intros mask write. induction l as [|r l IH]; [done|]. simpl.
  destruct (mask r) eqn:E.
  - unfold write at 1. rewrite E. unfold mask at 1.
    rewrite pair_mask_set_url. fold mask. rewrite E. simpl. by rewrite IH.
  - unfold write at 1. rewrite E, E. done.
Qed.

(** The upsert of a pair the cache holds, under exactly this name and
    domain, creates no object, and afterwards the first row of the pair
    carries the URL. *)
Lemma save_or_update_url_present product_name domain url σ r df first rest :
  frame_at σ r = Some df ->
  has_cols ["NomProduit"; "CompetitorDomain"; "URLConcurrent"] df = true ->
  List.filter (pair_mask "NomProduit" "CompetitorDomain" product_name domain)
    (rows df) = first :: rest ->
  exists df' first' rest',
    frame_at (store_after (save_or_update_url product_name domain url r) σ) r
    = Some df'
    /\ length (frames (store_after
                         (save_or_update_url product_name domain url r) σ))
       = length (frames σ)
    /\ columns df' = columns df
    /\ List.filter (pair_mask "NomProduit" "CompetitorDomain" product_name
                      domain) (rows df') = first' :: rest'
    /\ at_col first' "URLConcurrent" = CStr (url_string url).
Proof.
  unfold frame_at. intros Hr Hc Hf.
  unfold store_after, save_or_update_url, ensure_columns. unfold_py.
  rewrite Hr, Hc, Hf.
  destruct (cell_is (url_string url) (at_col first "URLConcurrent")) eqn:E;
    cbn [negb snd frames].
  - exists df, first, rest. repeat split; [done..|].
    destruct (at_col first "URLConcurrent") as [s|]; [|done].
    apply String.eqb_eq in E. by subst.
  - eexists (set_url_where
               (pair_mask "NomProduit" "CompetitorDomain" product_name domain)
               (url_string url) df), _, _.
    cbn [snd frames].
    split; [by rewrite list_lookup_alter_eq, Hr|].
    split; [by rewrite length_alter|].
    split; [done|]. cbn [rows set_url_where].
    rewrite filter_set_url, Hf. cbn [map]. split; [reflexivity|].
    assert (Hm : pair_mask "NomProduit" "CompetitorDomain" product_name domain
                   first = true).
    { assert (Hin : In first (List.filter (pair_mask "NomProduit"
                       "CompetitorDomain" product_name domain) (rows df)))
        by (rewrite Hf; by left).
      by apply List.filter_In in Hin as [_ ?]. }
    rewrite Hm. unfold at_col. by rewrite lookup_insert_eq.
Qed.

(** Hence the upsert of a pair the cache holds under exactly this name
    and domain, applied again, reports no change. *)
Lemma save_or_update_url_present_again product_name domain url σ r df first
    rest :
  frame_at σ r = Some df ->
  has_cols ["NomProduit"; "CompetitorDomain"; "URLConcurrent"] df = true ->
  List.filter (pair_mask "NomProduit" "CompetitorDomain" product_name domain)
    (rows df) = first :: rest ->
  value_of (save_or_update_url product_name domain url r)
    (store_after (save_or_update_url product_name domain url r) σ) = false.
Proof.
  intros Hr Hc Hf.
  destruct (save_or_update_url_present product_name domain url σ r df first
              rest Hr Hc Hf) as (df' & first' & rest' & Hr' & _ & Hcols & Hf'
                                 & Hurl).
  set (σ' := store_after _ σ) in *. clearbody σ'.
  unfold frame_at in Hr'.
  unfold value_of, save_or_update_url, ensure_columns. unfold_py.
  rewrite Hr'.
  assert (Hc' : has_cols ["NomProduit"; "CompetitorDomain"; "URLConcurrent"]
                  df' = true).
  { revert Hc. unfold has_cols, has_col. by rewrite Hcols. }
  rewrite Hc', Hf', Hurl. cbn [cell_is]. by rewrite String.eqb_refl.
Qed.

(** Adding a pair the verification collection holds changes nothing. *)
Lemma add_to_manual_verification_present product_name domain url σ r df :
  frame_at σ r = Some df ->
  has_cols ["MonNomProduit"; "Concurrent"] df = true ->
  existsb (pair_mask "MonNomProduit" "Concurrent" product_name domain)
    (rows df) = true ->
  add_to_manual_verification product_name domain r url σ = (false, σ).
Proof.
  unfold frame_at. intros Hr Hc Hex.
  unfold add_to_manual_verification, ensure_columns. unfold_py.
  rewrite Hr, Hc.
  assert (Hex' : existsb id (map (pair_mask "MonNomProduit" "Concurrent"
                   product_name domain) (rows df)) = true).
  { clear -Hex. induction (rows df) as [|x l IH]; [done|].
    simpl in *. unfold id at 1.
    destruct (pair_mask "MonNomProduit" "Concurrent" product_name domain x);
      [done | by apply IH]. }
  by rewrite Hex'.
Qed.

Section CorrelatorClaims.

Variable similarity_ratio : string -> string -> outcome float.

(** C3 (amended): on a success - status "200", a name and a price, the
    similarity computed - a report row is appended, then
    [save_or_update_url] is applied to the confirmed-URL cache with
    the pair's URL and [remove_from_manual_verification] to the
    verification collection, and their results are the two flags; an
    entry the cache holds under exactly this name and domain carries
    the URL afterwards.  On any other outcome no report row is
    appended and, unless the status is "Verification No URL",
    [add_to_manual_verification] is applied with the URL discovered so
    far; an entry the verification collection already holds for the
    pair is left as it is.  With the status "Verification No URL"
    nothing changes. *)
Theorem process_single_result_dispatch (my_product_name : string)
    (my_price : pyval) (domain : string) (competitor_url : option string)
    (http_status : status) (competitor_name : option string)
    (competitor_price : pyval) (verification_df products_url_df : ref)
    (σ : store) :
  let call :=
    process_single_result similarity_ratio my_product_name my_price domain
      competitor_url http_status competitor_name competitor_price
      verification_df products_url_df in
  let similarity :=
    similarity_ratio (PyStr.lower my_product_name)
      (PyStr.lower (name_str competitor_name)) in
  let success := is_success http_status competitor_name competitor_price in
  (* success *)
  (forall ratio,
     success = true -> similarity = Returned ratio ->
     let σ1 := mkStore (frames σ)
                 (results_list σ
                  ++ [report_row my_product_name my_price domain
                        competitor_url competitor_name competitor_price
                        ratio]) in
     let upsert := save_or_update_url my_product_name domain competitor_url
                     products_url_df in
     let remove := remove_from_manual_verification my_product_name domain
                     verification_df in
     call σ = ((value_of remove (store_after upsert σ1),
                value_of upsert σ1),
               store_after remove (store_after upsert σ1))
     /\ (forall df first rest,
           frame_at σ products_url_df = Some df ->
           has_cols ["NomProduit"; "CompetitorDomain"; "URLConcurrent"] df
           = true ->
           List.filter (pair_mask "NomProduit" "CompetitorDomain"
                          my_product_name domain) (rows df)
           = first :: rest ->
           exists df' first' rest',
             frame_at (store_after upsert σ1) products_url_df = Some df'
             /\ List.filter (pair_mask "NomProduit" "CompetitorDomain"
                               my_product_name domain) (rows df')
                = first' :: rest'
             /\ at_col first' "URLConcurrent"
                = CStr (url_string competitor_url)))
  (* any other outcome *)
  /\ (success = false \/ (exists exc, similarity = Raised exc) ->
      let add := add_to_manual_verification my_product_name domain
                   verification_df competitor_url in
      (status_str http_status <> "Verification No URL" ->
       call σ = ((value_of add σ, false), store_after add σ)
       /\ results_list (store_after call σ) = results_list σ
       /\ (forall df,
             frame_at σ verification_df = Some df ->
             has_cols ["MonNomProduit"; "Concurrent"] df = true ->
             existsb (pair_mask "MonNomProduit" "Concurrent"
                        my_product_name domain) (rows df) = true ->
             call σ = ((false, false), σ)))
      /\ (status_str http_status = "Verification No URL" ->
          call σ = ((false, false), σ))).
Proof.
  cbv zeta. split.
  - intros ratio Hs Hsim. split.
    + unfold process_single_result, name_similarity.
      fold (is_success http_status
        competitor_name competitor_price). rewrite Hs, Hsim.
      unfold value_of, store_after, report_row. unfold_py.
      cbn [fst snd].
      destruct (save_or_update_url _ _ _ _ _) as [p σ2].
      destruct (remove_from_manual_verification _ _ _ _) as [v σ3].
      reflexivity.
    + intros df first rest Hr Hc Hf.
      destruct (save_or_update_url_present my_product_name domain
                  competitor_url
                  (mkStore (frames σ)
                     (results_list σ
                      ++ [report_row my_product_name my_price domain
                            competitor_url competitor_name competitor_price
                            ratio]))
                  products_url_df df first rest Hr Hc Hf)
        as (df' & first' & rest' & H1 & _ & _ & H2 & H3).
      exists df', first', rest'. by repeat split.
  - intros Hfail.
    assert (Hcall : forall τ,
              process_single_result similarity_ratio my_product_name my_price
                domain competitor_url http_status competitor_name
                competitor_price verification_df products_url_df τ
              = if negb (String.eqb (status_str http_status)
                           "Verification No URL")
                then
                  let '(a, τ') := add_to_manual_verification my_product_name
                                    domain verification_df competitor_url τ in
                  ((a || false, false), τ')
                else ((false, false), τ)).
    { intros τ. unfold process_single_result, name_similarity.
      fold (is_success http_status competitor_name competitor_price).
      destruct Hfail as [-> | [exc Hexc]].
      - unfold_py. cbn [negb].
        by destruct (String.eqb (status_str http_status) _).
      - rewrite Hexc. destruct (is_success _ _ _); unfold_py; cbn [negb];
          by destruct (String.eqb (status_str http_status) _). }
    split.
    + intros Hne. apply String.eqb_neq in Hne.
      repeat split.
      * rewrite Hcall, Hne. unfold value_of, store_after. cbn [negb].
        destruct (add_to_manual_verification _ _ _ _ _) as [a τ'].
        by rewrite orb_false_r.
      * unfold store_after. rewrite Hcall, Hne. cbn [negb].
        unfold add_to_manual_verification, ensure_columns. unfold_py.
        repeat match goal with
               | |- context [match ?o with Some _ => _ | None => _ end] =>
                   destruct o
               | |- context [if ?b then _ else _] => destruct b
               end; reflexivity.
      * intros df Hr Hc Hex. rewrite Hcall, Hne. cbn [negb].
        by rewrite (add_to_manual_verification_present _ _ _ _ _ df).
    + intros He. apply String.eqb_eq in He. by rewrite Hcall, He.
Qed.

End CorrelatorClaims.

(** C3 (counterexample): the pair waits for verification with the URL
    "http://old"; its scrape fails with status 404 under the URL
    "http://new".  The entry is not updated: it still carries
    "http://old", and no change is reported. *)
Lemma existing_verification_entry_is_not_updated :
  let call :=
    process_single_result similarity_constant "Widget" (VNum 50) "taklope.com"
      (Some "http://new") (SCode 404) None VNone verification_ref
      products_url_ref in
  urls_at parked_widget verification_ref = Some [CStr "http://old"]
  /\ value_of call parked_widget = (false, false)
  /\ urls_at (store_after call parked_widget) verification_ref
     = Some [CStr "http://old"]
  /\ urls_at (store_after call parked_widget) verification_ref
     <> Some [CStr "http://new"].
Proof. vm_compute. repeat split; try reflexivity. discriminate. Qed.

Lemma process_single_result_dispatch_witness :
  is_success (SCode 404) None VNone = false
  /\ status_str (SCode 404) <> "Verification No URL"
  /\ process_single_result similarity_constant "Widget" (VNum 50)
       "taklope.com" (Some "http://new") (SCode 404) None VNone
       verification_ref products_url_ref parked_widget
     = ((false, false), parked_widget).
Proof.
  assert (Hne : status_str (SCode 404) <> "Verification No URL").
  { intros H. vm_compute in H. discriminate. }
  split; [reflexivity|]. split; [exact Hne|].
  refine (proj2 (proj2 (proj1
            (proj2 (process_single_result_dispatch similarity_constant
                      "Widget" (VNum 50) "taklope.com" (Some "http://new")
                      (SCode 404) None VNone verification_ref
                      products_url_ref parked_widget)
               (or_introl eq_refl)) Hne))
            (mkFrame REQUIRED_COLUMNS_VERIFICATION
               [ {[ "MonNomProduit" := CStr "Widget";
                    "Concurrent" := CStr "taklope.com";
                    "URLConcurrent" := CStr "http://old" ]} ]) _ _ _);
    vm_compute; reflexivity.
Defined.

(** Status 200 alone is no success: without a name, or without a price,
    the correlator takes the failure path. *)
Lemma status_200_without_fields_fails (competitor_name : option string)
    (competitor_price : pyval) :
  name_truthy competitor_name = false \/ competitor_price = VNone ->
  is_success (SCode 200) competitor_name competitor_price = false.
Proof.
  unfold is_success. intros [-> | ->]; cbn [is_none negb].
  - by rewrite andb_false_r.
  - by rewrite andb_false_r.
Qed.

(** C10 (failing input): the page of the competitor has the product title
    and an empty price block.  The extractor returns the name, no price
    and status 200; the correlator appends no report row and reports the
    verification collection as changed, yet the collection is as before:
    it holds no entry for the pair. *)
Theorem page_without_price_is_a_failure :
  let scraped :=
    extract_product_info scenario_get "http://taklope.com/widget"
      "taklope.com" in
  let call :=
    process_single_result similarity_constant "Widget" (VNum 50) "taklope.com"
      (Some "http://taklope.com/widget") (snd scraped) (fst (fst scraped))
      (price_val (snd (fst scraped))) verification_ref products_url_ref in
  scraped = (Some "Widget Pro", None, SCode 200)
  /\ results_list (store_after call fresh_store) = []
  /\ value_of call fresh_store = (true, false)
  /\ frame_at (store_after call fresh_store) verification_ref
     = Some (empty_frame REQUIRED_COLUMNS_VERIFICATION).
Proof. vm_compute. repeat split; reflexivity. Qed.

(** ** Orchestrator: progress *)




Section OrchestratorFacts.

Variable similarity_ratio : string -> string -> outcome float.
Variable future_result : future -> outcome result.
Variable as_completed : list future -> list future.
Variable lpv_start_ok : bool.
Variable lpv_is_alive : future -> bool.
Variable lpv_result_queue_get : nat -> queue_get.

(** Every future finishes, once. *)
Hypothesis as_completed_all : forall fs, as_completed fs ≡ₚ fs.








End OrchestratorFacts.



(** A price cell that cannot be read as a number ends the run before
    any progress is reported. *)
Lemma unparsable_price_aborts_run similarity_ratio future_result as_completed
    lpv_start_ok lpv_is_alive lpv_result_queue_get competitors products σ
    verification_df products_url_df :
  prices_parse products = false ->
  process_products similarity_ratio future_result as_completed lpv_start_ok
    lpv_is_alive lpv_result_queue_get competitors products σ verification_df
    products_url_df = Fatal.
Proof. intros Hparse. unfold process_products. by rewrite Hparse. Qed.

Section ProgressClaim.

Variable similarity_ratio : string -> string -> outcome float.
Variable future_result : future -> outcome result.
Variable as_completed : list future -> list future.
Variable lpv_start_ok : bool.
Variable lpv_is_alive : future -> bool.
Variable lpv_result_queue_get : nat -> queue_get.


End ProgressClaim.



(** ** Key normalisation *)

Lemma lower_char_idem c :
  PyStr.lower_char (PyStr.lower_char c) = PyStr.lower_char c.
Proof. destruct c as [[] [] [] [] [] [] [] []]; reflexivity. Qed.

Lemma is_space_lower_char c :
  PyStr.is_space (PyStr.lower_char c) = PyStr.is_space c.
Proof. destruct c as [[] [] [] [] [] [] [] []]; reflexivity. Qed.

Lemma lower_idem s : PyStr.lower (PyStr.lower s) = PyStr.lower s.
Proof.
  induction s as [|c s IH]; [done|]. cbn. by rewrite lower_char_idem, IH.
Qed.

Lemma append_cons c (s t : string) : String c s ++ t = String c (s ++ t).
Proof. reflexivity. Qed.

Lemma lower_app s t : PyStr.lower (s ++ t) = PyStr.lower s ++ PyStr.lower t.
Proof.
  induction s as [|c s IH]; [done|].
  rewrite append_cons. cbn [PyStr.lower]. by rewrite append_cons, IH.
Qed.

Lemma append_assoc (s t u : string) : (s ++ t) ++ u = s ++ (t ++ u).
Proof. induction s as [|c s IH]; [done|]. by rewrite !append_cons, IH. Qed.

Lemma rev_onto_app s acc : PyStr.rev_onto s acc = PyStr.rev s ++ acc.
Proof.
  unfold PyStr.rev. revert acc.
  induction s as [|c s IH]; intros acc; [done|].
  cbn [PyStr.rev_onto]. rewrite IH, (IH (String c "")).
  by rewrite append_assoc.
Qed.

Lemma rev_cons c s : PyStr.rev (String c s) = PyStr.rev s ++ String c "".
Proof. unfold PyStr.rev at 1. cbn. by rewrite rev_onto_app. Qed.

Lemma rev_snoc s c : PyStr.rev (s ++ String c "") = String c (PyStr.rev s).
Proof.
  induction s as [|a s IH]; [done|].
  by rewrite append_cons, !rev_cons, IH.
Qed.

Lemma rev_involutive s : PyStr.rev (PyStr.rev s) = s.
Proof.
  induction s as [|c s IH]; [done|]. by rewrite rev_cons, rev_snoc, IH.
Qed.

Lemma rev_lower s : PyStr.rev (PyStr.lower s) = PyStr.lower (PyStr.rev s).
Proof.
  induction s as [|c s IH]; [done|].
  cbn [PyStr.lower]. by rewrite !rev_cons, IH, lower_app.
Qed.

Lemma lstrip_lower s :
  PyStr.lstrip (PyStr.lower s) = PyStr.lower (PyStr.lstrip s).
Proof.
  induction s as [|c s IH]; [done|].
  cbn [PyStr.lower PyStr.lstrip]. rewrite is_space_lower_char.
  by destruct (PyStr.is_space c).
Qed.

Lemma strip_lower s : PyStr.strip (PyStr.lower s) = PyStr.lower (PyStr.strip s).
Proof.
  unfold PyStr.strip, PyStr.rstrip.
  by rewrite lstrip_lower, rev_lower, lstrip_lower, rev_lower.
Qed.

Lemma lstrip_starts_clean s : starts_clean (PyStr.lstrip s) = true.
Proof.
  induction s as [|c s IH]; [done|]. cbn [PyStr.lstrip].
  destruct (PyStr.is_space c) eqn:E; [done|]. cbn [starts_clean].
  by rewrite E.
Qed.

Lemma lstrip_clean s : starts_clean s = true -> PyStr.lstrip s = s.
Proof.
  destruct s as [|c s]; [done|]. cbn [starts_clean PyStr.lstrip].
  by destruct (PyStr.is_space c).
Qed.

Lemma lstrip_snoc s c :
  PyStr.is_space c = false ->
  PyStr.lstrip (s ++ String c "") = PyStr.lstrip s ++ String c "".
Proof.
  intros Hc. induction s as [|a s IH].
  { change (PyStr.lstrip (String c "") = String c "").
    cbn [PyStr.lstrip]. by rewrite Hc. }
  rewrite append_cons. cbn [PyStr.lstrip].
  by destruct (PyStr.is_space a).
Qed.

Lemma rstrip_starts_clean s :
  starts_clean s = true -> starts_clean (PyStr.rstrip s) = true.
Proof.
  destruct s as [|c s]; [done|]. cbn [starts_clean].
  intros Hc%negb_true_iff. unfold PyStr.rstrip.
  rewrite rev_cons, lstrip_snoc, rev_snoc by done.
  cbn [starts_clean]. by rewrite Hc.
Qed.

Lemma rstrip_idem s : PyStr.rstrip (PyStr.rstrip s) = PyStr.rstrip s.
Proof.
  unfold PyStr.rstrip. rewrite rev_involutive.
  by rewrite (lstrip_clean _ (lstrip_starts_clean _)).
Qed.

Lemma strip_idem s : PyStr.strip (PyStr.strip s) = PyStr.strip s.
Proof.
  unfold PyStr.strip.
  rewrite (lstrip_clean (PyStr.rstrip (PyStr.lstrip s))).
  - apply rstrip_idem.
  - apply rstrip_starts_clean, lstrip_starts_clean.
Qed.

(** X1: the key under which a pair is looked up does not depend on the
    case of the product name or of the domain, nor on white space
    around either of them. *)
Theorem index_unique_ignores_case_and_blanks n d :
  index_unique (PyStr.lower n) d = index_unique n d
  /\ index_unique n (PyStr.lower d) = index_unique n d
  /\ index_unique (PyStr.strip n) d = index_unique n d
  /\ index_unique n (PyStr.strip d) = index_unique n d.
Proof.
  unfold index_unique. repeat split.
  - by rewrite strip_lower, lower_idem.
  - by rewrite strip_lower, lower_idem.
  - by rewrite strip_idem.
  - by rewrite strip_idem.
Qed.

(** ** Price texts *)

Lemma filter_chars_filter (p q : ascii -> bool) s :
  (forall c, p c = true -> q c = true) ->
  PyStr.filter_chars p (PyStr.filter_chars q s) = PyStr.filter_chars p s.
Proof.
  intros Hpq. induction s as [|c s IH]; [done|]. cbn [PyStr.filter_chars].
  destruct (q c) eqn:Hq.
  - cbn [PyStr.filter_chars]. by rewrite IH.
  - rewrite IH. destruct (p c) eqn:Hp; [|done].
    apply Hpq in Hp. congruence.
Qed.

Lemma comma_or_dot (c : ascii) :
  price_char (if Ascii.eqb c "," then "."%char else c) = price_char c
  /\ PyStr.is_digit (if Ascii.eqb c "," then "."%char else c)
     = PyStr.is_digit c.
Proof.
  destruct (Ascii.eqb c ",") eqn:E; [|done].
  apply Ascii.eqb_eq in E. by subst.
Qed.

Lemma filter_chars_replace_comma (p : ascii -> bool) s :
  (forall c, p (if Ascii.eqb c "," then "."%char else c) = p c) ->
  PyStr.filter_chars p (PyStr.replace_char "," "." s)
  = PyStr.replace_char "," "." (PyStr.filter_chars p s).
Proof.
  intros Hp. induction s as [|c s IH]; [done|].
  cbn [PyStr.replace_char PyStr.filter_chars]. rewrite Hp.
  destruct (p c); [|done]. cbn [PyStr.replace_char]. by rewrite IH.
Qed.

Lemma replace_comma_idem s :
  PyStr.replace_char "," "." (PyStr.replace_char "," "." s)
  = PyStr.replace_char "," "." s.
Proof.
  induction s as [|c s IH]; [done|]. cbn [PyStr.replace_char].
  rewrite IH. f_equal. destruct (Ascii.eqb c ",") eqn:E; [done|].
  by rewrite E.
Qed.

Lemma digits_of_replace_comma s :
  digits_of (PyStr.replace_char "," "." s) = digits_of s.
Proof.
  unfold digits_of. induction s as [|c s IH]; [done|].
  cbn [PyStr.replace_char PyStr.filter_chars]. rewrite IH.
  destruct (Ascii.eqb c ",") eqn:E; [|done].
  apply Ascii.eqb_eq in E. by subst.
Qed.

Lemma search_number_none s : search_number s = None <-> digits_of s = "".
Proof.
  unfold digits_of. induction s as [|c s IH]; [done|].
  cbn [search_number PyStr.filter_chars].
  destruct (PyStr.is_digit c); [|done].
  split; [|discriminate].
  destruct (PyStr.span_digits (String c s)) as [ip rest].
  repeat case_match; discriminate.
Qed.

(** X2: a price text gives no price exactly when it holds no digit. *)
Theorem clean_price_none_iff_no_digit price_text :
  clean_price price_text = None <-> digits_of price_text = "".
Proof.
  assert (Hd : digits_of price_text
               = digits_of (PyStr.replace_char "," "."
                              (PyStr.filter_chars price_char price_text))).
  { rewrite digits_of_replace_comma. unfold digits_of. symmetry.
    apply filter_chars_filter. intros c Hc. unfold price_char.
    by rewrite Hc. }
  rewrite Hd, <- search_number_none. unfold clean_price. fold price_char.
  destruct (search_number _) as [[ip fp]|]; [|done].
  split; discriminate.
Qed.

(** X3: what surrounds the digits, commas and dots of a price text does
    not change the price read, and a comma is read as a dot is. *)
Theorem clean_price_reads_digits_commas_dots price_text :
  clean_price (PyStr.filter_chars price_char price_text)
  = clean_price price_text
  /\ clean_price (PyStr.replace_char "," "." price_text)
     = clean_price price_text.
Proof.
  unfold clean_price. fold price_char. split.
  - by rewrite (filter_chars_filter price_char price_char).
  - rewrite filter_chars_replace_comma
      by (intros c; apply (proj1 (comma_or_dot c))).
    by rewrite replace_comma_idem.
Qed.

(** ** Lightweight extractor: what a returned field implies *)

Section ExtractorReach.

Context {tag : Type} `{Soup tag}.
Variable requests_get : string -> get_outcome tag.

(** X4: the extractor returns a name or a price only together with the
    status code of a response that is no HTTP error; with a sentinel
    status or an error code it returns neither. *)
Theorem extracted_fields_imply_response (url domain : string)
    (name : option string) (price : option float) (st : status) :
  extract_product_info requests_get url domain = (name, price, st) ->
  name <> None \/ price <> None ->
  exists code soup,
    requests_get url = GetResponse code soup
    /\ st = SCode code
    /\ ~ (400 <= code < 600)%Z.
Proof.
  unfold extract_product_info, extract_body.
  destruct (requests_get url) as [code soup|exc|exc].
  - destruct ((400 <=? code) && (code <? 600))%Z eqn:E.
    + intros [= <- <- <-] [?|?]; done.
    + unfold mbind, attempt_bind.
      destruct (extract_fields soup domain) as [[n pt]|e].
      * intros [= <- <- <-] _. exists code, soup.
        split; [done|]. split; [done|]. intros [H1 H2].
        apply Z.leb_le in H1. apply Z.ltb_lt in H2.
        rewrite H1, H2 in E. discriminate.
      * destruct e; intros [= <- <- <-] [?|?]; done.
  - intros [= <- <- <-] [?|?]; done.
  - intros [= <- <- <-] [?|?]; done.
Qed.

End ExtractorReach.

Lemma extracted_fields_imply_response_witness :
  extract_product_info scenario_get "http://taklope.com/widget" "taklope.com"
  = (Some "Widget Pro", None, SCode 200)
  /\ exists code soup,
       scenario_get "http://taklope.com/widget" = GetResponse code soup
       /\ SCode 200 = SCode code
       /\ ~ (400 <= code < 600)%Z.
Proof.
  split; [reflexivity|].
  apply (extracted_fields_imply_response scenario_get
           "http://taklope.com/widget" "taklope.com" (Some "Widget Pro")
           None (SCode 200)); [reflexivity | by left].
Defined.

(** ** Pool task: the shape of its result *)

Section ResolutionShape.

Variable search : string -> string -> outcome (option string).

(** The three ways the local lookup can end: with nothing found (or an
    exception), with a URL to scrape, or with a pair that is parked
    without one. *)
Lemma local_lookup_cases idx vdf pdf l1 exc :
  local_lookup idx vdf pdf (mkLocals (SText "Init") None false false)
  = (l1, exc) ->
  (competitor_url l1 = None /\ verification_has_no_url l1 = false
   /\ l_status l1 = SText "Init")
  \/ (exc = None /\ url_valid (competitor_url l1) = true
      /\ verification_has_no_url l1 = false
      /\ l_status l1 ∈ [SText "URL From Verification";
                        SText "URL From Cache"])
  \/ (exc = None /\ url_valid (competitor_url l1) = false
      /\ verification_has_no_url l1 = true
      /\ l_status l1 = SText "Verification No URL").
Proof.
  unfold local_lookup.
  destruct (in_index idx vdf).
  - destruct (url_series idx vdf) as [series|e].
    + destruct (url_valid (head series)) eqn:Hv;
        cbn [competitor_url verification_has_no_url].
      * rewrite (url_valid_truthy _ Hv). cbn [negb andb].
        intros [= <- <-]. right. left. repeat split; [done..|in_list].
      * rewrite andb_false_r. cbn [andb].
        intros [= <- <-]. right. right. done.
    + intros [= <- <-]. by left.
  - cbn [competitor_url verification_has_no_url url_truthy negb andb].
    destruct (in_index idx pdf); [|intros [= <- <-]; by left].
    destruct (url_series idx pdf) as [series|e];
      [|intros [= <- <-]; by left].
    destruct (existsb _ (rows pdf)); [|intros [= <- <-]; by left].
    destruct (url_valid (head series)) eqn:Hv;
      [|intros [= <- <-]; by left].
    intros [= <- <-]. right. left. repeat split; [done..|in_list].
Qed.

(** How the resolution ends: with a URL that is not blank, with a pair
    parked without a URL, or with a failed search. *)
Lemma resolve_url_cases my_product_name domain vdf pdf :
  let res := resolve_url search my_product_name domain vdf pdf in
  let l := fst res in
  ((exists u, resolved_url l = Some u
              /\ PyStr.truthy (PyStr.strip u) = true)
   /\ (snd res = []
       /\ l_status l ∈ [SText "URL From Verification";
                        SText "URL From Cache"]
       \/ snd res = [(my_product_name, domain)]
          /\ l_status l = SText "URL From Serper"))
  \/ (resolved_url l = None /\ verification_has_no_url l = true
      /\ l_status l = SText "Verification No URL" /\ snd res = [])
  \/ (resolved_url l = None /\ verification_has_no_url l = false
      /\ l_status l ∈ [SText "Serper Not Found"; SText "Serper API Error"]
      /\ snd res = [(my_product_name, domain)]).
Proof.
  cbv zeta. unfold resolve_url, resolved_url.
  assert (Hchk : forall v, url_valid v = true ->
            exists u, url_checked v = Some u
                      /\ PyStr.truthy (PyStr.strip u) = true).
  { intros [[s|]|] Hv; try discriminate. unfold url_checked. rewrite Hv.
    exists s. split; [done|]. by apply andb_true_iff in Hv as [_ ?]. }
  assert (Hno : forall v, url_valid v = false -> url_checked v = None).
  { intros [[s|]|] Hv; try done. unfold url_checked. by rewrite Hv. }
  assert (Hsearch : forall fv,
    let x :=
      match search my_product_name domain with
      | Returned serper_url =>
          if url_valid (CStr <$> serper_url)
          then (mkLocals (SText "URL From Serper") (CStr <$> serper_url)
                  fv false, [(my_product_name, domain)])
          else (mkLocals (SText "Serper Not Found") None fv false,
                [(my_product_name, domain)])
      | Raised _ =>
          (mkLocals (SText "Serper API Error") None fv false,
           [(my_product_name, domain)])
      end in
    ((exists u, url_checked (competitor_url (fst x)) = Some u
                /\ PyStr.truthy (PyStr.strip u) = true)
     /\ (snd x = []
         /\ l_status (fst x) ∈ [SText "URL From Verification";
                                 SText "URL From Cache"]
         \/ snd x = [(my_product_name, domain)]
            /\ l_status (fst x) = SText "URL From Serper"))
    \/ (url_checked (competitor_url (fst x)) = None
        /\ verification_has_no_url (fst x) = true
        /\ l_status (fst x) = SText "Verification No URL" /\ snd x = [])
    \/ (url_checked (competitor_url (fst x)) = None
        /\ verification_has_no_url (fst x) = false
        /\ l_status (fst x) ∈ [SText "Serper Not Found";
                                SText "Serper API Error"]
        /\ snd x = [(my_product_name, domain)])).
  { intros fv. cbv zeta.
    destruct (search my_product_name domain) as [found|e].
    - destruct (url_valid (CStr <$> found)) eqn:Hv; cbn [fst snd].
      + left. split; [by apply Hchk | by right].
      + right. right. cbn. repeat split; try done; in_list.
    - right. right. cbn. repeat split; try done; in_list. }
  destruct (local_lookup _ vdf pdf _) as [l1 exc] eqn:Hl.
  destruct (local_lookup_cases _ _ _ _ _ Hl)
    as [(Hu & Hn & Hs) | [(-> & Hv & Hn & Hs) | (-> & Hv & Hn & Hs)]].
  - destruct l1 as [st cu fv nu]. cbn in Hu, Hn, Hs. subst.
    destruct exc as [e|]; cbn [competitor_url verification_has_no_url
      found_in_verification url_truthy negb andb];
      apply (Hsearch fv).
  - rewrite (url_valid_truthy _ Hv). cbn [negb andb fst snd].
    left. split; [by apply Hchk | by left].
  - rewrite Hn, andb_false_r. cbn [fst snd].
    right. left. by rewrite (Hno _ Hv).
Qed.

(** X5: the search collaborator is called at most once for a task, with
    the task's product name and domain, and only when the local
    collections gave no URL and do not park the pair. *)
Theorem search_is_called_at_most_once (my_product_name domain : string)
    (vdf pdf : DataFrame) :
  let res := resolve_url search my_product_name domain vdf pdf in
  (snd res = []
   /\ l_status (fst res) ∈ [SText "URL From Verification";
                            SText "Verification No URL";
                            SText "URL From Cache"])
  \/ (snd res = [(my_product_name, domain)]
      /\ l_status (fst res) ∈ [SText "URL From Serper";
                               SText "Serper Not Found";
                               SText "Serper API Error"]).
Proof.
  cbv zeta.
  destruct (resolve_url_cases my_product_name domain vdf pdf)
    as [(_ & [(-> & Hs) | (-> & Hs)])
       | [(_ & _ & Hs & ->) | (_ & _ & Hs & ->)]].
  - left. split; [done|]. revert Hs. rewrite !elem_of_cons. tauto.
  - right. split; [done|]. rewrite Hs. in_list.
  - left. split; [done|]. rewrite Hs. in_list.
  - right. split; [done|]. revert Hs. rewrite !elem_of_cons. tauto.
Qed.

End ResolutionShape.

Section WorkerTaskShape.

Variable search : string -> string -> outcome (option string).
Variable extract :
  string -> string -> outcome (option string * option float * status).

(** X6: the result of a pool task carries the task's product name -
    a text, or the NaN of a row without a name - and domain; its URL,
    when it has one, is not blank, and the name is a text then; and a
    result without a URL has no name and no price, and its status is
    "Verification No URL", "Serper Not Found", "Serper API Error" or
    "KeyNormalizationError" - the last one exactly when the product
    name is no text - never "Init", "LocalLookupError" or
    "No URL To Scrape". *)
Theorem worker_task_result_shape (my_product_name : cell) (domain : string)
    (vdf pdf : DataFrame) :
  let res := _worker_task search extract my_product_name domain vdf pdf in
  r_domain res = domain
  /\ r_my_product_name res = my_product_name
  /\ match r_url res with
     | Some u =>
         PyStr.truthy (PyStr.strip u) = true /\ my_product_name <> CNaN
     | None =>
         r_name res = None /\ r_price res = None
         /\ r_status res ∈ [SText "Verification No URL";
                            SText "Serper Not Found";
                            SText "Serper API Error";
                            SText "KeyNormalizationError"]
         /\ (r_status res = SText "KeyNormalizationError"
             <-> my_product_name = CNaN)
     end.
Proof.
  cbv zeta. unfold _worker_task.
  destruct my_product_name as [name|];
    [|cbn; repeat split; try done; in_list].
  unfold scrape_or_mark.
  destruct (resolve_url_cases search name domain vdf pdf)
    as [((u & -> & Hu) & _) | [(-> & -> & -> & _) | (-> & -> & Hs & _)]].
  - destruct (String.eqb domain "lepetitvapoteur.com"); [done|].
    by destruct (extract u domain) as [[[n p] st]|e].
  - cbn. repeat split; try done. in_list.
  - cbn [negb].
    rewrite bool_decide_eq_true_2
      by (revert Hs; rewrite !elem_of_cons; tauto).
    cbn. repeat split; try done.
    + revert Hs. rewrite !elem_of_cons. tauto.
    + intros Heq. rewrite Heq in Hs. revert Hs.
      rewrite !elem_of_cons, elem_of_nil. intros [?|[?|?]]; done.
Qed.

(** X7: a pair of the site that needs the browser is never scraped by
    the pool task: the result has no name and no price, whatever the
    extractor would do, and its status is "Requires LPV" exactly when
    it carries a URL. *)
Theorem lpv_pair_is_left_to_the_browser (my_product_name : cell)
    (vdf pdf : DataFrame) :
  let res := _worker_task search extract my_product_name
               "lepetitvapoteur.com" vdf pdf in
  r_name res = None /\ r_price res = None
  /\ (r_status res = SText "Requires LPV" <-> is_Some (r_url res))
  /\ forall extract',
       _worker_task search extract' my_product_name "lepetitvapoteur.com"
         vdf pdf = res.
Proof.
  cbv zeta. unfold _worker_task.
  destruct my_product_name as [name|];
    [|cbn; repeat split; try done; by intros [? ?]].
  unfold scrape_or_mark.
  destruct (resolve_url_cases search name "lepetitvapoteur.com"
              vdf pdf)
    as [((u & -> & Hu) & _) | [(-> & -> & -> & _) | (-> & -> & Hs & _)]].
  - cbn. repeat split; eauto.
  - cbn. repeat split; try done; by intros [? ?].
  - cbn [negb].
    rewrite bool_decide_eq_true_2
      by (revert Hs; rewrite !elem_of_cons; tauto).
    cbn. repeat split; try done; try (by intros [? ?]).
    intros Heq. rewrite Heq in Hs. revert Hs.
    rewrite !elem_of_cons, elem_of_nil. intros [?|[?|?]]; done.
Qed.

End WorkerTaskShape.

(** The tasks of the catalog row without a name: they are submitted
    with the price of the row, and end on the key normalisation. *)
Lemma nameless_row_fails_on_normalisation :
  submit_row (product_prices scenario_catalog) scenario_competitors 2
    (mkRow CNaN (VNum 3))
  = [mkFuture 2 CNaN "taklope.com" 3; mkFuture 3 CNaN "lepetitvapoteur.com" 3]
  /\ scenario_future (mkFuture 2 CNaN "taklope.com" 3)
     = Returned (mkResult (SText "KeyNormalizationError") None None None
                   "taklope.com" CNaN)
  /\ scenario_future (mkFuture 3 CNaN "lepetitvapoteur.com" 3)
     = Returned (mkResult (SText "KeyNormalizationError") None None None
                   "lepetitvapoteur.com" CNaN).
Proof. vm_compute. repeat split; reflexivity. Qed.

(** ** Orchestrator: what is submitted *)

Lemma submit_row_pairs prices competitors next_id row :
  map (fun f => (f_my_product_name f, f_domain f))
    (submit_row prices competitors next_id row)
  = (if is_submitted prices row
     then map (fun domain => (NomProduit row, domain)) competitors
     else [])
  /\ Forall (fun f => prices !! f_my_product_name f = Some (f_my_price f)
                      /\ cell_truthy (f_my_product_name f) = true)
       (submit_row prices competitors next_id row)
  /\ map f_id (submit_row prices competitors next_id row)
     = seq next_id (length (submit_row prices competitors next_id row)).
Proof.
  unfold submit_row, is_submitted.
  destruct (prices !! NomProduit row) as [my_price|] eqn:E.
  - rewrite bool_decide_eq_true_2 by eauto.
    destruct (cell_truthy (NomProduit row)) eqn:Hn; cbn [negb andb];
      [|done].
    repeat split.
    + change (map ?f ?l) with (f <$> l). rewrite fmap_imap.
      apply (imap_const (fun domain => (NomProduit row, domain))).
    + apply Forall_forall. intros f [i [domain [-> _]]]%elem_of_lookup_imap.
      done.
    + change (map ?f ?l) with (f <$> l). rewrite fmap_imap, length_imap.
      rewrite <- (list_fmap_id (seq next_id (length competitors))).
      apply (imap_seq competitors id next_id).
  - rewrite bool_decide_eq_false_2 by (intros [? ?]; discriminate).
    by rewrite andb_false_r.
Qed.

(** Every task carries the price the table holds for its name. *)
Lemma submit_all_prices
    (prices : gmap cell float) (competitors : list string)
    (products : list product_row) (next_id : nat) :
  Forall (fun f => prices !! f_my_product_name f = Some (f_my_price f)
                   /\ cell_truthy (f_my_product_name f) = true)
    (submit_all prices competitors next_id products).
Proof.
  revert next_id.
  induction products as [|row products IH]; intros next_id; [constructor|].
  cbn [submit_all]. apply Forall_app. split; [|apply IH].
  apply (submit_row_pairs prices competitors next_id row).
Qed.


(** The price table holds, for a name, the price of the last row of the
    name that has one. *)
Lemma product_prices_snoc products row :
  product_prices (products ++ [row])
  = match MonPrixCell row with
    | VNum f => if is_nan f then product_prices products
                else <[NomProduit row := f]> (product_prices products)
    | _ => product_prices products
    end.
Proof. unfold product_prices. by rewrite fold_left_app. Qed.

Lemma product_prices_last pre row post p :
  MonPrixCell row = VNum p ->
  is_nan p = false ->
  Forall (fun r => NomProduit r = NomProduit row ->
                   match MonPrixCell r with
                   | VNum q => is_nan q = true
                   | _ => True
                   end) post ->
  product_prices (pre ++ row :: post) !! NomProduit row = Some p.
Proof.
  intros Hrow Hp. induction post as [|r post IH] using rev_ind; intros Hpost.
  - rewrite product_prices_snoc, Hrow, Hp. apply lookup_insert_eq.
  - apply Forall_app in Hpost as [Hpost Hr].
    apply Forall_cons in Hr as [Hr _].
    replace (pre ++ row :: post ++ [r])%list
      with ((pre ++ row :: post) ++ [r])%list by (by rewrite <- app_assoc).
    rewrite product_prices_snoc.
    destruct (MonPrixCell r) as [|q|] eqn:Hq; try by apply IH.
    destruct (is_nan q) eqn:Hnan; [by apply IH|].
    destruct (decide (NomProduit r = NomProduit row)) as [Heq|Hne].
    + apply Hr in Heq. congruence.
    + rewrite lookup_insert_ne by done. by apply IH.
Qed.

(** X9: of the rows of one product name, the last one that has a price
    sets the price of the name, and every task for the name - also
    those submitted for an earlier row - carries that price. *)
Theorem last_priced_row_sets_the_price (pre post : list product_row)
    (row : product_row) (p : float) (competitors : list string)
    (next_id : nat) :
  MonPrixCell row = VNum p ->
  is_nan p = false ->
  Forall (fun r => NomProduit r = NomProduit row ->
                   match MonPrixCell r with
                   | VNum q => is_nan q = true
                   | _ => True
                   end) post ->
  let products := (pre ++ row :: post)%list in
  product_prices products !! NomProduit row = Some p
  /\ Forall (fun f => f_my_product_name f = NomProduit row ->
                      f_my_price f = p)
       (submit_all (product_prices products) competitors next_id products).
Proof.
  intros Hrow Hp Hpost products.
  pose proof (product_prices_last pre row post p Hrow Hp Hpost) as Hlast.
  split; [exact Hlast|].
  eapply Forall_impl;
    [apply (submit_all_prices (product_prices products) competitors products
              next_id)|]. intros f [Hprice _] Hname.
  rewrite Hname in Hprice. unfold products in Hprice. congruence.
Qed.

Lemma last_priced_row_sets_the_price_witness :
  MonPrixCell (mkRow "Widget" (VNum 50)) = VNum 50
  /\ is_nan 50 = false
  /\ product_prices ([mkRow "Widget" (VNum 40)]
                     ++ mkRow "Widget" (VNum 50) :: [mkRow "Gadget" VNone])
     !! CStr "Widget" = Some 50%float.
Proof.
  split; [reflexivity|]. split; [reflexivity|].
  refine (proj1 (last_priced_row_sets_the_price [mkRow "Widget" (VNum 40)]
                   [mkRow "Gadget" VNone] (mkRow "Widget" (VNum 50)) 50%float
                   ["taklope.com"] 0 eq_refl eq_refl _)).
  repeat constructor.
Defined.

(** ** Orchestrator and browser worker *)

Section LpvForward.

Variable similarity_ratio : string -> string -> outcome float.
Variable future_result : future -> outcome result.
Variable lpv_is_alive : future -> bool.
Variable search : string -> string -> outcome (option string).
Variable extract :
  string -> string -> outcome (option string * option float * status).

(** X10: a pool task that ends with "Requires LPV" carries a URL that is
    not blank, so that the orchestrator either forwards it to the
    browser worker, under the product name of its future, or - when
    the worker is not running - hands the pair to the correlator with
    the status "LPV Worker Not Ready", the URL, no name and no price;
    it never reports "No URL To Scrape" for it. *)
Theorem requires_lpv_is_forwarded_or_parked (lpv_started : bool)
    (verification_df products_url_df : ref) (s : run_state) (fut : future)
    (vdf pdf : DataFrame) :
  let res := _worker_task search extract (f_my_product_name fut)
               (f_domain fut) vdf pdf in
  future_result fut = Returned res ->
  r_status res = SText "Requires LPV" ->
  exists url,
    r_url res = Some url
    /\ PyStr.truthy (PyStr.strip url) = true
    /\ handle_future similarity_ratio future_result lpv_is_alive lpv_started
         verification_df products_url_df s fut
       = if lpv_started && lpv_is_alive fut then
           mkRunState (rs_store s) (total_tasks s) (completed_final_tasks s)
             (callbacks s)
             (lpv_url_queue s ++ [Task url (f_my_product_name fut)])
             (S (lpv_tasks_submitted_count s))
             (verification_needs_global_update s)
             (products_url_needs_global_update s)
         else
           count_one
             (correlate similarity_ratio s (f_my_product_name fut)
                (VNum (f_my_price fut)) (f_domain fut) (Some url)
                (SText "LPV Worker Not Ready") None VNone verification_df
                products_url_df).
Proof.
  cbv zeta. intros Hres Hst. unfold handle_future. rewrite Hres.
  rewrite bool_decide_eq_true_2 by exact Hst. clear Hres. revert Hst.
  unfold _worker_task.
  destruct (f_my_product_name fut) as [name|]; [|cbn; discriminate].
  unfold scrape_or_mark.
  destruct (resolve_url_cases search name (f_domain fut) vdf pdf)
    as [((u & -> & Hu) & _) | [(-> & -> & -> & _) | (-> & -> & Hs & _)]].
  - assert (Hurl : forall st n p,
              r_url (mkResult st n p (Some u) (f_domain fut) name)
              = Some u) by done.
    intros _. exists u.
    assert (Hu' : PyStr.truthy u = true) by (by apply strip_truthy).
    destruct (String.eqb (f_domain fut) "lepetitvapoteur.com");
      [|destruct (extract u (f_domain fut)) as [[[n p] st]|e]];
      cbn [r_url name_truthy default]; rewrite Hu'; cbn [negb andb];
      (repeat split; [done..|]);
      by destruct (lpv_started && lpv_is_alive fut).
  - cbn. discriminate.
  - cbn [negb].
    rewrite bool_decide_eq_true_2
      by (revert Hs; rewrite !elem_of_cons; tauto).
    cbn. intros Heq. rewrite Heq in Hs. revert Hs.
    rewrite !elem_of_cons, elem_of_nil. intros [?|[?|?]]; done.
Qed.

End LpvForward.

Section LpvDispatch.

Variable similarity_ratio : string -> string -> outcome float.
Variable future_result : future -> outcome result.
Variable as_completed : list future -> list future.
Variable lpv_start_ok : bool.
Variable lpv_is_alive : future -> bool.
Variable lpv_result_queue_get : nat -> queue_get.
Variable driver : Type.
Variable scrape :
  driver -> string ->
  outcome (option string * option float * status) * driver.

Lemma correlate_queue s n p d u st cn cp v pr :
  let s' := correlate similarity_ratio s n p d u st cn cp v pr in
  lpv_url_queue s' = lpv_url_queue s
  /\ lpv_tasks_submitted_count s' = lpv_tasks_submitted_count s.
Proof.
  cbv zeta. unfold correlate.
  by destruct (process_single_result _ _ _ _ _ _ _ _ _ _ _) as [[vc pc] σ'].
Qed.

Lemma count_after_correlate_queue started s n p d u st cn cp v pr :
  queue_ok started s ->
  queue_ok started
    (count_one (correlate similarity_ratio s n p d u st cn cp v pr)).
Proof.
  destruct (correlate_queue s n p d u st cn cp v pr) as [Hq Hn].
  unfold queue_ok, count_one.
  cbn [lpv_url_queue lpv_tasks_submitted_count]. by rewrite Hq, Hn.
Qed.

Lemma handle_future_queue started v pr s fut :
  queue_ok started s ->
  queue_ok started
    (handle_future similarity_ratio future_result lpv_is_alive started v pr
       s fut).
Proof.
  intros Hok. unfold handle_future.
  destruct (future_result fut) as [res|exc]; [|exact Hok].
  destruct (bool_decide (r_status res = SText "Requires LPV"));
    [|by apply count_after_correlate_queue].
  destruct (name_truthy (r_url res) && started && lpv_is_alive fut) eqn:E;
    [|by apply count_after_correlate_queue].
  apply andb_true_iff in E as [[Hu Hs]%andb_true_iff _].
  destruct Hok as (Hn & Hq & Hoff). unfold queue_ok.
  cbn [lpv_url_queue lpv_tasks_submitted_count].
  repeat split.
  - rewrite length_app, Hn. cbn. lia.
  - apply Forall_app. split; [done|]. apply Forall_singleton.
    destruct (r_url res) as [u|]; [|done]. by exists u, (f_my_product_name fut).
  - intros Hoff'. congruence.
Qed.

Lemma collect_one_queue started prices v pr s i :
  queue_ok started s ->
  queue_ok started
    (collect_one similarity_ratio lpv_result_queue_get prices v pr s i).
Proof.
  intros Hok. unfold collect_one.
  destruct (lpv_result_queue_get i) as [res| |]; try exact Hok.
  destruct (price_of_answer prices (r_my_product_name res)); [|exact Hok].
  destruct (cell_truthy (r_my_product_name res)
            && PyStr.truthy (r_domain res));
    [by apply count_after_correlate_queue | exact Hok].
Qed.

Lemma fold_left_invariant {A B : Type} (P : A -> Prop) (f : A -> B -> A)
    (l : list B) :
  (forall a b, P a -> P (f a b)) -> forall a, P a -> P (fold_left f l a).
Proof.
  intros Hf. induction l as [|b l IH]; intros a Ha; [done|].
  cbn. by apply IH, Hf.
Qed.

(** A result answers a forwarded task under the task's URL and product
    name, for the site that needs the browser. *)
Lemma answers_forwarded queue rs :
  Forall (fun m => exists url name,
                     m = Task url name /\ PyStr.truthy url = true) queue ->
  Forall2 (answers driver scrape) queue rs ->
  Forall2 (answer_to_task) queue rs.
Proof.
  intros Hq Ha. induction Ha as [|m r queue rs Hm _ IH]; [constructor|].
  apply Forall_cons in Hq as [(url & name & -> & Hu) Hq].
  constructor; [|by apply IH].
  exists url, name. inversion Hm; subst; done.
Qed.

(** X11: the browser worker emits exactly as many results as the run
    waits for: when the run has finished collecting, the number of
    awaited results is the number of tasks put on the worker's queue;
    each of them is a task with a non-empty URL; none was put there if
    the site was not selected or the worker did not start; and the
    worker that finds these tasks and then the terminating [None] on its
    queue answers each task once, in order, under the task's URL and
    product name, stops and closes the session. *)
Theorem worker_emits_what_the_run_awaits (d : driver)
    (competitors : list string) (products : list product_row) (σ : store)
    (verification_df products_url_df : ref) (s : run_state) :
  process_products similarity_ratio future_result as_completed lpv_start_ok
    lpv_is_alive lpv_result_queue_get competitors products σ verification_df
    products_url_df = Finished s ->
  let w := persistent_lpv_worker driver scrape (Some d)
             (lpv_url_queue s ++ [Sentinel]) in
  lpv_tasks_submitted_count s = length (lpv_url_queue s)
  /\ ("lepetitvapoteur.com" ∉ competitors \/ lpv_start_ok = false ->
      lpv_url_queue s = [])
  /\ length (emitted w) = lpv_tasks_submitted_count s
  /\ Forall2 answer_to_task (lpv_url_queue s) (emitted w)
  /\ ending w = StoppedOnSentinel
  /\ driver_quit w = true.
Proof.
  unfold process_products.
  destruct (negb (prices_parse products)); [discriminate|].
  destruct (length products =? 0)%nat; [discriminate|].
  intros [= <-].
  set (started := bool_decide ("lepetitvapoteur.com" ∈ competitors)
                  && lpv_start_ok).
  set (s0 := mkRunState σ _ 0 _ [] 0 false false).
  assert (Hok0 : queue_ok started s0) by (repeat split; constructor).
  set (s1 := fold_left _ (as_completed _) s0).
  assert (Hok1 : queue_ok started s1).
  { apply fold_left_invariant; [|exact Hok0].
    intros a fut. apply handle_future_queue. }
  set (s2 := fold_left _ (seq 0 _) s1).
  assert (Hok2 : queue_ok started s2).
  { apply fold_left_invariant; [|exact Hok1].
    intros a i. apply collect_one_queue. }
  clearbody s2. destruct Hok2 as (Hn & Hq & Hoff). cbv zeta.
  assert (Hno : Sentinel ∉ lpv_url_queue s2).
  { intros Hin. rewrite Forall_forall in Hq.
    by destruct (Hq _ Hin) as (url & name & ? & _). }
  unfold persistent_lpv_worker.
  destruct (worker_loop_before_sentinel driver scrape (lpv_url_queue s2) []
              Hno d None) as (rs & -> & Hrs).
  cbn [emitted ending driver_quit].
  repeat split; try done.
  - intros [Hnot | Hfail]; apply Hoff; unfold started.
    + by rewrite bool_decide_eq_false_2.
    + by rewrite Hfail, andb_false_r.
  - rewrite Hn. symmetry. by eapply Forall2_length.
  - by apply answers_forwarded.
Qed.

Lemma worker_loop_prefix q1 q2 :
  forall d last,
    (worker_loop driver scrape d last q1).1.1
    `prefix_of` (worker_loop driver scrape d last (q1 ++ q2)).1.1.
Proof.
  induction q1 as [|m q1 IH]; intros d last; [apply prefix_nil|].
  destruct m as [|url my_product_name|repr]; cbn [worker_loop app].
  - done.
  - destruct (scrape d url) as [o d'].
    specialize (IH d' (Some (url, my_product_name))).
    destruct (worker_loop driver scrape d' _ q1) as [[rs n] e].
    destruct (worker_loop driver scrape d' _ (q1 ++ q2)) as [[rs' n'] e'].
    by apply prefix_cons.
  - specialize (IH d last).
    destruct (worker_loop driver scrape d last q1) as [[rs n] e].
    destruct (worker_loop driver scrape d last (q1 ++ q2)) as [[rs' n'] e'].
    by apply prefix_cons.
Qed.

(** X12: a result the browser worker has emitted does not depend on
    the messages that arrive later: the results for the messages
    received so far are the first results for any longer queue. *)
Theorem worker_results_are_final (init : option driver)
    (received later : list task_msg) :
  emitted (persistent_lpv_worker driver scrape init received)
  `prefix_of`
  emitted (persistent_lpv_worker driver scrape init (received ++ later)).
Proof.
  unfold persistent_lpv_worker. destruct init as [d|]; [|done].
  pose proof (worker_loop_prefix received later d None) as Hp.
  destruct (worker_loop driver scrape d None received) as [[rs n] e].
  by destruct (worker_loop driver scrape d None (received ++ later))
    as [[rs' n'] e'].
Qed.

End LpvDispatch.

Lemma requires_lpv_is_forwarded_or_parked_witness :
  let res := _worker_task search_finds extract_never "Widget"
               "lepetitvapoteur.com"
               (empty_frame REQUIRED_COLUMNS_VERIFICATION)
               (empty_frame REQUIRED_COLUMNS_PRODUCTS_URL) in
  r_status res = SText "Requires LPV"
  /\ exists url,
       r_url res = Some url /\ PyStr.truthy (PyStr.strip url) = true.
Proof.
  cbv zeta. split; [reflexivity|].
  destruct (requires_lpv_is_forwarded_or_parked similarity_constant
              (fun _ => Returned
                 (_worker_task search_finds extract_never "Widget"
                    "lepetitvapoteur.com"
                    (empty_frame REQUIRED_COLUMNS_VERIFICATION)
                    (empty_frame REQUIRED_COLUMNS_PRODUCTS_URL)))
              (fun _ => true) search_finds extract_never true
              verification_ref products_url_ref
              (mkRunState fresh_store 2 0 [(0, 2)] [] 0 false false)
              (mkFuture 0 "Widget" "lepetitvapoteur.com" 50)
              (empty_frame REQUIRED_COLUMNS_VERIFICATION)
              (empty_frame REQUIRED_COLUMNS_PRODUCTS_URL) eq_refl eq_refl)
    as (url & Hurl & Hblank & _).
  by exists url.
Defined.

Lemma worker_emits_what_the_run_awaits_witness :
  exists s,
    scenario_run = Finished s
    /\ lpv_tasks_submitted_count s = 1
    /\ length (emitted (persistent_lpv_worker nat counting_scrape (Some 0)
                          (lpv_url_queue s ++ [Sentinel])))
       = lpv_tasks_submitted_count s.
Proof.
  assert (Hrun : exists s, scenario_run = Finished s
                           /\ lpv_tasks_submitted_count s = 1).
  { eexists. split; [vm_compute; reflexivity | reflexivity]. }
  destruct Hrun as (s & Hrun & Hone). exists s.
  split; [exact Hrun|]. split; [exact Hone|].
  exact (proj1 (proj2 (proj2
           (worker_emits_what_the_run_awaits similarity_constant
              scenario_future (@List.rev future) true (fun _ => true)
              (fun _ => Empty) nat counting_scrape 0 scenario_competitors
              scenario_catalog fresh_store verification_ref products_url_ref
              s Hrun)))).
Defined.

(** ** Browser scraping routine *)

Lemma lstrip_no_space s : no_space s -> PyStr.lstrip s = s.
Proof.
  unfold no_space. destruct s as [|c s]; [done|].
  cbn [PyStr.filter_chars PyStr.lstrip].
  by destruct (PyStr.is_space c).
Qed.

Lemma rstrip_no_space s : no_space s -> PyStr.rstrip s = s.
Proof.
  unfold no_space. induction s as [|c s IH]; [done|].
  cbn [PyStr.filter_chars].
  destruct (PyStr.is_space c) eqn:Hc; [discriminate|]. intros Hs.
  unfold PyStr.rstrip in *.
  by rewrite rev_cons, lstrip_snoc, rev_snoc, IH.
Qed.

Lemma strip_no_space s : no_space s -> PyStr.strip s = s.
Proof.
  intros Hs. unfold PyStr.strip.
  by rewrite (lstrip_no_space s Hs), rstrip_no_space.
Qed.

Lemma price_char_no_space c :
  price_char c = true ->
  PyStr.is_space (if Ascii.eqb c "," then "."%char else c) = false.
Proof.
  destruct c as [[] [] [] [] [] [] [] []]; intros Hc;
    vm_compute in Hc |- *; congruence.
Qed.

Lemma price_clean_no_space text :
  no_space (PyStr.replace_char "," "." (PyStr.filter_chars price_char text)).
Proof.
  unfold no_space. induction text as [|c text IH]; [done|].
  cbn [PyStr.filter_chars].
  destruct (price_char c) eqn:Hc; [|done].
  cbn [PyStr.replace_char PyStr.filter_chars].
  by rewrite (price_char_no_space c Hc).
Qed.

Lemma search_decimal_number s : search_decimal s = search_number s.
Proof.
  induction s as [|c s IH]; [done|].
  cbn [search_decimal search_number].
  destruct (PyStr.is_digit c); [|done].
  destruct (PyStr.span_digits (String c s)) as [ip rest].
  destruct rest as [|a rest]; [done|].
  destruct (Ascii.eqb a ".") eqn:Ha.
  - apply Ascii.eqb_eq in Ha. subst a.
    destruct (PyStr.span_digits rest) as [fp rest']. by destruct fp.
  - by destruct a as [[] [] [] [] [] [] [] []].
Qed.

(** X13: the browser routine reads a price text as the lightweight
    extractor does. *)
Theorem lpv_price_is_cleaned_like_any_price (price_text : option string) :
  lpv_clean_price price_text = clean_price_if price_text.
Proof.
  destruct price_text as [text|]; [|done].
  unfold lpv_clean_price, clean_price_if, clean_price. fold price_char.
  destruct (PyStr.truthy text); [|done].
  by rewrite (strip_no_space _ (price_clean_no_space text)),
    search_decimal_number.
Qed.

Section LpvCoreFacts.

Variable driver : Type.
Variable load_page : driver -> string -> lpv_page * driver.

Lemma status_str_200 (st : status) :
  st ∈ lpv_statuses ->
  String.eqb (status_str st) "200" = bool_decide (st = SCode 200).
Proof.
  unfold lpv_statuses. rewrite !elem_of_cons, elem_of_nil.
  intros [->|[->|[->|[->|[->|[]]]]]]; reflexivity.
Qed.

(** A triple the routine returns: graded as its status says. *)
Lemma graded_failure (st : status) :
  st ∈ [SCode 404; SCode 408; SCode 503; SCode 500] ->
  graded None None st.
Proof.
  intros Hst. split; [by apply list_elem_of_further|].
  split; [|done]. split; [|by intros [? ?]].
  intros ->. revert Hst. rewrite !elem_of_cons, elem_of_nil.
  intros [?|[?|[?|[?|[]]]]]; discriminate.
Qed.

(** Unless the page load times out, the routine returns a graded
    triple, whatever the session does. *)
Lemma lpv_core_graded (d : driver) (url : string) :
  page_get (load_page d url).1 <> Failed TimeoutException ->
  exists name price st,
    scrape_with_selenium_lpv_core driver load_page d url
    = (Returned (name, price, st), (load_page d url).2)
    /\ graded name price st.
Proof.
  unfold scrape_with_selenium_lpv_core.
  destruct (load_page d url) as [page d']. cbn [fst snd]. intros Hget.
  assert (Hfail : forall st,
            st ∈ [SCode 404; SCode 408; SCode 503; SCode 500] ->
            exists name price st0,
              (@Returned (option string * option float * status)
                 (None, None, st), d')
              = (Returned (name, price, st0), d')
              /\ graded name price st0).
  { intros st Hst. exists None, None, st. split; [done|].
    by apply graded_failure. }
  unfold lpv_core_body, mbind, browse_bind, mret, browse_ret.
  destruct (page_get page) as [[]|e];
    [|destruct e; try done; apply Hfail; in_list].
  destruct (page_wait page) as [[]|e];
    [|destruct e; apply Hfail; in_list].
  destruct (find_text (page_name page)) as [product_name|e];
    [|destruct e; apply Hfail; in_list].
  destruct (find_price_text page) as [price_text|e];
    [|destruct e; apply Hfail; in_list].
  destruct (lpv_clean_price price_text) as [price|];
    destruct (name_truthy product_name) eqn:Hn; cbn [andb negb is_none price_val].
  - exists product_name, (Some price), (SCode 200).
    split; [done|]. split; [in_list|]. split; [done|].
    rewrite !elem_of_cons, elem_of_nil. intros [?|[?|[?|[]]]]; discriminate.
  - exists product_name, (Some price), (SCode 404).
    split; [done|]. split; [in_list|].
    split; [split; [discriminate | intros [? _]; congruence]|].
    rewrite !elem_of_cons, elem_of_nil. intros [?|[?|[?|[]]]]; discriminate.
  - exists product_name, None, (SCode 404).
    split; [done|]. split; [in_list|].
    split; [split; [discriminate | intros [_ ?]; congruence]|].
    rewrite !elem_of_cons, elem_of_nil. intros [?|[?|[?|[]]]]; discriminate.
  - exists product_name, None, (SCode 404).
    split; [done|]. split; [in_list|].
    split; [split; [discriminate | intros [_ ?]; congruence]|].
    rewrite !elem_of_cons, elem_of_nil. intros [?|[?|[?|[]]]]; discriminate.
Qed.

(** When the page load times out, the routine raises. *)
Lemma lpv_core_unbound (d : driver) (url : string) :
  page_get (load_page d url).1 = Failed TimeoutException ->
  scrape_with_selenium_lpv_core driver load_page d url
  = (Raised "UnboundLocalError", (load_page d url).2).
Proof.
  unfold scrape_with_selenium_lpv_core.
  destruct (load_page d url) as [page d']. cbn [fst snd]. by intros ->.
Qed.

(** X14: the browser routine raises in one case only: when the load of
    the page itself times out, it ends with [UnboundLocalError] instead
    of the status 408.  In every other case it returns a name, a price
    and one of the statuses 200, 404, 408, 503 and 500; the status is
    200 exactly when the name is not empty and a price was read, which
    is exactly when the correlator takes the result for a success;
    with 408, 503 or 500 it returns neither name nor price. *)
Theorem lpv_core_grades_or_raises_unbound (d : driver) (url : string) :
  let page := (load_page d url).1 in
  let d' := (load_page d url).2 in
  let call := scrape_with_selenium_lpv_core driver load_page d url in
  match page_get page with
  | Failed TimeoutException => call = (Raised "UnboundLocalError", d')
  | _ =>
      exists name price st,
        call = (Returned (name, price, st), d')
        /\ st ∈ lpv_statuses
        /\ (st = SCode 200 <-> name_truthy name = true /\ price <> None)
        /\ (st ∈ [SCode 408; SCode 503; SCode 500] ->
            name = None /\ price = None)
        /\ is_success st name (price_val price)
           = bool_decide (st = SCode 200)
  end.
Proof.
  cbv zeta.
  assert (Hgraded :
            page_get (load_page d url).1 <> Failed TimeoutException ->
            exists name price st,
              scrape_with_selenium_lpv_core driver load_page d url
              = (Returned (name, price, st), (load_page d url).2)
              /\ st ∈ lpv_statuses
              /\ (st = SCode 200
                  <-> name_truthy name = true /\ price <> None)
              /\ (st ∈ [SCode 408; SCode 503; SCode 500] ->
                  name = None /\ price = None)
              /\ is_success st name (price_val price)
                 = bool_decide (st = SCode 200)).
  { intros Hget.
    destruct (lpv_core_graded d url Hget)
      as (name & price & st & Hret & Hst & H200 & Herr).
    exists name, price, st. do 4 (split; [done|]).
    unfold is_success. rewrite (status_str_200 st Hst).
    destruct (decide (st = SCode 200)) as [Heq|Hne].
    - rewrite bool_decide_eq_true_2 by done.
      apply H200 in Heq as [-> Hp]. by destruct price.
    - by rewrite bool_decide_eq_false_2. }
  pose proof (lpv_core_unbound d url) as Hunbound.
  destruct (page_get (load_page d url).1) as [[]|e];
    [by apply Hgraded|].
  destruct e; solve [by apply Hunbound | by apply Hgraded].
Qed.

Lemma worker_loop_statuses queue :
  forall d last,
    Forall (fun r => r_status r ∈ worker_statuses /\ r_domain r = LPV
                     /\ (r_status r = unbound_timeout ->
                         r_name r = None /\ r_price r = None))
      (worker_loop driver (scrape_with_selenium_lpv_core driver load_page)
         d last queue).1.1.
Proof.
  induction queue as [|m queue IH]; intros d last; [constructor|].
  destruct m as [|url my_product_name|repr]; cbn [worker_loop].
  - constructor.
  - assert (Hdec : forall b : browse unit,
              b = Failed TimeoutException \/ b <> Failed TimeoutException).
    { intros [[]|[]]; (by left) || (by right). }
    destruct (Hdec (page_get (load_page d url).1)) as [Hget|Hget].
    + rewrite (lpv_core_unbound d url Hget).
      specialize (IH (load_page d url).2 (Some (url, my_product_name))).
      destruct (worker_loop _ _ _ _ queue) as [[rs n] e].
      constructor; [|exact IH]. split; [apply list_elem_of_here | done].
    + destruct (lpv_core_graded d url Hget)
        as (name & price & st & -> & Hst & _).
      specialize (IH (load_page d url).2 (Some (url, my_product_name))).
      destruct (worker_loop _ _ _ _ queue) as [[rs n] e].
      constructor; [|exact IH].
      split; [by do 2 apply list_elem_of_further|]. split; [done|].
      cbn [r_status]. intros ->. revert Hst. unfold lpv_statuses.
      rewrite !elem_of_cons, elem_of_nil.
      intros [?|[?|[?|[?|[?|[]]]]]]; discriminate.
  - specialize (IH d last).
    destruct (worker_loop _ _ d last queue) as [[rs n] e].
    constructor; [|exact IH].
    split; [apply list_elem_of_further, list_elem_of_here|].
    split; [done | discriminate].
Qed.

Lemma worker_loop_no_timeout queue :
  (forall d url, page_get (load_page d url).1 <> Failed TimeoutException) ->
  forall d last,
    Forall (fun r => r_status r ∈ SText "InvalidTaskData" :: lpv_statuses)
      (worker_loop driver (scrape_with_selenium_lpv_core driver load_page)
         d last queue).1.1.
Proof.
  intros Hget.
  induction queue as [|m queue IH]; intros d last; [constructor|].
  destruct m as [|url my_product_name|repr]; cbn [worker_loop].
  - constructor.
  - destruct (lpv_core_graded d url (Hget d url))
      as (name & price & st & -> & Hst & _).
    specialize (IH (load_page d url).2 (Some (url, my_product_name))).
    destruct (worker_loop _ _ _ _ queue) as [[rs n] e].
    constructor; [|exact IH]. by apply list_elem_of_further.
  - specialize (IH d last).
    destruct (worker_loop _ _ d last queue) as [[rs n] e].
    constructor; [|exact IH]. apply list_elem_of_here.
Qed.

(** X15: the browser worker that runs the browser routine emits, for
    the site that needs the browser, only results whose status is 200,
    404, 408, 503, 500, "InvalidTaskData" or
    "WorkerLoopError: UnboundLocalError".  The last one is the answer
    to a task whose page load timed out - it carries the URL and the
    product name of the task, no name and no price - and the only
    "WorkerLoopError" the routine gives the loop to report: a session
    whose page loads never time out gets none. *)
Theorem worker_loop_error_is_the_unbound_timeout (init : option driver)
    (url_queue : list task_msg) :
  let w := persistent_lpv_worker driver
             (scrape_with_selenium_lpv_core driver load_page) in
  Forall (fun r => r_status r ∈ worker_statuses /\ r_domain r = LPV
                   /\ (r_status r = unbound_timeout ->
                       r_name r = None /\ r_price r = None))
    (emitted (w init url_queue))
  /\ ((forall d url,
         page_get (load_page d url).1 <> Failed TimeoutException) ->
      Forall (fun r => r_status r ∈ SText "InvalidTaskData" :: lpv_statuses)
        (emitted (w init url_queue)))
  /\ (forall d url my_product_name,
        page_get (load_page d url).1 = Failed TimeoutException ->
        emitted (w (Some d) [Task url my_product_name])
        = [mkResult unbound_timeout None None (Some url) LPV
             my_product_name]).
Proof.
  cbv zeta. unfold persistent_lpv_worker. repeat split.
  - destruct init as [d|]; [|constructor].
    pose proof (worker_loop_statuses url_queue d None) as Hs.
    by destruct (worker_loop _ _ d None url_queue) as [[rs n] e].
  - intros Hget. destruct init as [d|]; [|constructor].
    pose proof (worker_loop_no_timeout url_queue Hget d None) as Hs.
    by destruct (worker_loop _ _ d None url_queue) as [[rs n] e].
  - intros d url my_product_name Hget. cbn [worker_loop].
    by rewrite (lpv_core_unbound d url Hget).
Qed.

End LpvCoreFacts.

Lemma worker_loop_error_is_the_unbound_timeout_witness :
  page_get (load_times_out 0 "http://lpv/widget").1 = Failed TimeoutException
  /\ emitted (persistent_lpv_worker nat
                (scrape_with_selenium_lpv_core nat load_times_out) (Some 0)
                [Task "http://lpv/widget" "Widget"])
     = [mkResult (SText "WorkerLoopError: UnboundLocalError") None None
          (Some "http://lpv/widget") "lepetitvapoteur.com" "Widget"].
Proof.
  split; [reflexivity|].
  exact (proj2 (proj2 (worker_loop_error_is_the_unbound_timeout nat
                         load_times_out None []))
           0 "http://lpv/widget" (CStr "Widget") eq_refl).
Defined.

(** ** The index of the collections *)

Lemma has_col_set_column c c' value df :
  has_col c (set_column c' value df) = has_col c df || String.eqb c c'.
Proof.
  unfold set_column, has_col. cbn [columns].
  destruct (String.eqb c c') eqn:E.
  - apply String.eqb_eq in E. subst c'. rewrite orb_true_r.
    destruct (bool_decide (c ∈ columns df)) eqn:Hc; [exact Hc|].
    apply bool_decide_eq_true_2, elem_of_app. right. apply list_elem_of_here.
  - rewrite orb_false_r. apply String.eqb_neq in E.
    destruct (bool_decide (c' ∈ columns df)); [done|].
    apply bool_decide_ext. rewrite elem_of_app, list_elem_of_singleton.
    tauto.
Qed.

Lemma has_col_add_empty_column c c' df :
  has_col c (add_empty_column c' df) = has_col c df || String.eqb c c'.
Proof.
  unfold has_col, add_empty_column. cbn [columns].
  destruct (String.eqb c c') eqn:E.
  - apply String.eqb_eq in E. subst c'. rewrite orb_true_r.
    apply bool_decide_eq_true_2, elem_of_app. right. apply list_elem_of_here.
  - rewrite orb_false_r. apply String.eqb_neq in E.
    apply bool_decide_ext. rewrite elem_of_app, list_elem_of_singleton.
    tauto.
Qed.

(** The index creation keeps the columns of the frame. *)
Lemma has_col_build_index c name_col dom_col df :
  has_col c df = true -> has_col c (build_index name_col dom_col df) = true.
Proof.
  intros Hc. unfold build_index.
  repeat match goal with
         | |- context [if ?b then _ else _] => destruct b
         end;
    rewrite ?has_col_set_column, ?has_col_add_empty_column, ?Hc; done.
Qed.

Lemma df_empty_set_column c value df :
  df_empty df = false -> df_empty (set_column c value df) = false.
Proof.
  unfold df_empty, set_column. cbn [rows columns].
  destruct (rows df) as [|r l]; [done|]. cbn [map].
  destruct (columns df) as [|x cols]; [done|].
  by destruct (has_col c _).
Qed.

Lemma build_index_rows name_col dom_col df :
  name_col ∉ index_columns -> dom_col ∉ index_columns ->
  df_empty df = false ->
  has_cols [name_col; dom_col] df = true ->
  rows (build_index name_col dom_col df)
  = map (fun r =>
           <["IndexUnique" := CStr (row_key name_col dom_col r)]>
             (<["_dom_norm" := CStr (norm_cell (at_col r dom_col))]>
                (<["_nom_norm" := CStr (norm_cell (at_col r name_col))]> r)))
      (rows df)
  /\ df_empty (build_index name_col dom_col df) = false
  /\ has_col "IndexUnique" (build_index name_col dom_col df) = true.
Proof.
  intros Hn Hd He Hc. unfold build_index. rewrite He, Hc. cbn [negb].
  assert (Hd' : dom_col <> "_nom_norm").
  { intros ->. apply Hd. unfold index_columns. in_list. }
  split; [|split].
  - cbn [set_column rows]. rewrite !map_map. apply map_ext. intros r.
    unfold row_key, index_unique, norm_cell, at_col.
    rewrite lookup_insert_eq, (lookup_insert_ne _ "_dom_norm" "_nom_norm"),
      lookup_insert_eq by done.
    by rewrite (lookup_insert_ne _ "_nom_norm" dom_col).
  - by do 3 apply df_empty_set_column.
  - rewrite has_col_set_column. apply orb_true_r.
Qed.

(** X16: in a collection that has rows and its two key columns, the
    index creation files every row under the normalised key of its
    name and domain cells: a key is in the index exactly when some row
    has it, and the URLs looked up under a key are the URL cells of
    the rows that have it, in the order of the rows. *)
Theorem index_files_rows_by_normalised_key (name_col dom_col : string)
    (df : DataFrame) (key : string) :
  name_col ∉ index_columns -> dom_col ∉ index_columns ->
  df_empty df = false ->
  has_cols [name_col; dom_col] df = true ->
  let hit := fun r => String.eqb (row_key name_col dom_col r) key in
  in_index key (build_index name_col dom_col df) = existsb hit (rows df)
  /\ url_series key (build_index name_col dom_col df)
     = if has_col "URLConcurrent" df
       then Returned (map (fun r => at_col r "URLConcurrent")
                        (List.filter hit (rows df)))
       else Raised "KeyError".
Proof.
  intros Hn Hd He Hc hit.
  destruct (build_index_rows name_col dom_col df Hn Hd He Hc)
    as (Hrows & He' & Hiu).
  split.
  - unfold in_index. rewrite He', Hiu, Hrows. cbn [negb andb].
    clear Hrows. induction (rows df) as [|r l IH]; [done|].
    cbn [map existsb]. rewrite IH. f_equal. unfold at_col.
    by rewrite lookup_insert_eq.
  - unfold url_series.
    assert (Hurl : has_col "URLConcurrent" (build_index name_col dom_col df)
                   = has_col "URLConcurrent" df).
    { unfold build_index. rewrite He, Hc. cbn [negb].
      by rewrite !has_col_set_column, !orb_false_r. }
    rewrite Hurl. destruct (has_col "URLConcurrent" df); [|done].
    f_equal. rewrite Hrows. clear Hrows.
    induction (rows df) as [|r l IH]; [done|]. cbn [map List.filter].
    assert (Hkey : cell_is key
                     (at_col
                        (<["IndexUnique" :=
                             CStr (row_key name_col dom_col r)]>
                           (<["_dom_norm" :=
                                CStr (norm_cell (at_col r dom_col))]>
                              (<["_nom_norm" :=
                                   CStr (norm_cell (at_col r name_col))]>
                                 r))) "IndexUnique") = hit r).
    { unfold at_col. by rewrite lookup_insert_eq. }
    rewrite Hkey. destruct (hit r); [|exact IH]. cbn [map].
    rewrite IH. f_equal. unfold at_col. by rewrite !lookup_insert_ne.
Qed.

Lemma index_files_rows_by_normalised_key_witness :
  ("MonNomProduit" ∉ index_columns)
  /\ ("Concurrent" ∉ index_columns)
  /\ df_empty verification_loaded = false
  /\ has_cols ["MonNomProduit"; "Concurrent"] verification_loaded = true
  /\ url_series (index_unique "widget pro " " TAKLOPE.COM")
       (build_index "MonNomProduit" "Concurrent" verification_loaded)
     = Returned [CStr "http://t/w"].
Proof.
  assert (Hn : "MonNomProduit" ∉ index_columns).
  { unfold index_columns. rewrite !not_elem_of_cons, elem_of_nil.
    repeat split; try discriminate. tauto. }
  assert (Hd : "Concurrent" ∉ index_columns).
  { unfold index_columns. rewrite !not_elem_of_cons, elem_of_nil.
    repeat split; try discriminate. tauto. }
  split; [exact Hn|]. split; [exact Hd|].
  split; [reflexivity|]. split; [reflexivity|].
  rewrite (proj2 (index_files_rows_by_normalised_key "MonNomProduit"
                    "Concurrent" verification_loaded
                    (index_unique "widget pro " " TAKLOPE.COM") Hn Hd
                    eq_refl eq_refl)).
  reflexivity.
Defined.

(** The local lookup raises only on a collection that lacks the
    [URLConcurrent] column. *)
Lemma local_lookup_returns idx vdf pdf l :
  has_col "URLConcurrent" vdf = true ->
  has_col "URLConcurrent" pdf = true ->
  (local_lookup idx vdf pdf l).2 = None.
Proof.
  intros Hv Hp. unfold local_lookup, url_series. rewrite Hv, Hp.
  repeat match goal with
         | |- context [if ?b then _ else _] => destruct b
         end; reflexivity.
Qed.

Lemma load_sheet_columns numeric_text required records df :
  load_sheet numeric_text required records = Some df ->
  columns df = required.
Proof.
  unfold load_sheet. destruct records as [[|rec data]|e]; [| |done];
    by intros [= <-].
Qed.

(** X17: on the frames a run works on - the two sheets as loaded, or
    empty collections where loading failed, with the index added - the
    local lookup of a pool task raises no exception, for any key. *)
Theorem local_lookup_returns_on_loaded_sheets
    (numeric_text : list (option sheet_value) -> sheet_value -> string)
    (verification_records products_url_records : outcome (list sheet_record))
    (g : GlobalStore.t) (idx : string) (l : locals) :
  let loaded := load_initial_frames
                  (load_sheets_into_memory numeric_text verification_records
                     products_url_records g) in
  (local_lookup idx loaded.1 loaded.2 l).2 = None.
Proof.
  cbv zeta. unfold load_initial_frames, load_sheets_into_memory.
  cbn [GlobalStore.verification_df GlobalStore.products_url_df default fst
       snd].
  apply local_lookup_returns; apply has_col_build_index.
  - unfold load_verification_sheet.
    destruct (load_sheet _ _ verification_records) as [df|] eqn:E; [|done].
    change (has_col "URLConcurrent" df = true). unfold has_col.
    by rewrite (load_sheet_columns _ _ _ _ E).
  - unfold load_products_url_sheet.
    destruct (load_sheet _ _ products_url_records) as [df|] eqn:E; [|done].
    change (has_col "URLConcurrent" df = true). unfold has_col.
    by rewrite (load_sheet_columns _ _ _ _ E).
Qed.

(** ** What a run does to the collections *)

Lemma written_alike_refl keep df : written_alike keep df df.
Proof.
  unfold written_alike. induction (rows df) as [|r l IH]; by constructor.
Qed.

Lemma written_alike_trans keep df1 df2 df3 :
  written_alike keep df1 df2 -> written_alike keep df2 df3 ->
  written_alike keep df1 df3.
Proof.
  unfold written_alike. generalize (rows df1) (rows df2) (rows df3).
  intros l1 l2 l3 H12. revert l3.
  induction H12 as [|r1 r2 l1 l2 Hr _ IH]; intros l3 H23;
    inversion H23 as [|? r3 ? l3' Hr' H23']; subst; constructor.
  - intros c Hc. by rewrite (Hr' c Hc), (Hr c Hc).
  - by apply IH.
Qed.

Lemma written_alike_weaken (keep keep' : string -> Prop) df df' :
  (forall c, keep' c -> keep c) ->
  written_alike keep df df' -> written_alike keep' df df'.
Proof.
  unfold written_alike. intros Hk H.
  eapply Forall2_impl; [exact H|]. intros r r' Hr c Hc. by apply Hr, Hk.
Qed.

Lemma written_alike_data_rows keep cols df df' :
  written_alike keep df df' -> Forall keep cols ->
  data_rows cols df' = data_rows cols df.
Proof.
  unfold written_alike, data_rows. intros H Hcols.
  induction H as [|r r' l l' Hr _ IH]; [done|]. cbn [map].
  rewrite IH. f_equal. clear IH.
  induction Hcols as [|c cols Hc _ IHc]; [done|]. cbn [map].
  by rewrite IHc, (Hr c Hc).
Qed.

Lemma written_alike_map keep (f : gmap string cell -> gmap string cell)
    df df' :
  rows df' = map f (rows df) ->
  (forall r c, keep c -> sheet_cell df' (f r) c = sheet_cell df r c) ->
  written_alike keep df df'.
Proof.
  unfold written_alike. intros -> Hf.
  induction (rows df) as [|r l IH]; constructor; [|exact IH].
  intros c Hc. by apply Hf.
Qed.

Lemma written_alike_add_empty_column c df :
  has_col c df = false ->
  written_alike (fun _ => True) df (add_empty_column c df).
Proof.
  intros Hc. apply (written_alike_map _ (delete c)); [done|].
  intros r c0 _. unfold sheet_cell. rewrite has_col_add_empty_column.
  destruct (String.eqb c0 c) eqn:E.
  - apply String.eqb_eq in E. subst c0. rewrite Hc. cbn [orb].
    unfold at_col. by rewrite lookup_delete_eq.
  - rewrite orb_false_r. apply String.eqb_neq in E.
    unfold at_col. by rewrite lookup_delete_ne.
Qed.

Lemma written_alike_add_missing_columns required df :
  written_alike (fun _ => True) df (add_missing_columns required df).
Proof.
  unfold add_missing_columns. revert df.
  induction required as [|c required IH]; intros df;
    [apply written_alike_refl|].
  cbn [fold_left]. destruct (has_col c df) eqn:Hc; [apply IH|].
  eapply written_alike_trans; [|apply IH].
  by apply written_alike_add_empty_column.
Qed.

Lemma written_alike_set_url_where mask url_str df :
  written_alike (fun c => c <> "URLConcurrent") df
    (set_url_where mask url_str df).
Proof.
  apply (written_alike_map _
           (fun r => if mask r then <["URLConcurrent" := CStr url_str]> r
                     else r)); [done|].
  intros r c Hc. unfold sheet_cell, has_col. cbn [columns set_url_where].
  destruct (mask r); [|done]. unfold at_col. by rewrite lookup_insert_ne.
Qed.

Lemma written_alike_set_column c value df :
  written_alike (fun c0 => c0 <> c) df (set_column c value df).
Proof.
  apply (written_alike_map _ (fun r => <[c := value r]> r)); [done|].
  intros r c0 Hc. unfold sheet_cell. rewrite has_col_set_column.
  apply String.eqb_neq in Hc. rewrite Hc, orb_false_r.
  apply String.eqb_neq in Hc. unfold at_col. by rewrite lookup_insert_ne.
Qed.

(** The index creation changes no cell outside the index columns. *)
Lemma written_alike_build_index name_col dom_col df :
  written_alike (fun c => c ∉ index_columns) df
    (build_index name_col dom_col df).
Proof.
  assert (Hset : forall c value d,
            c ∈ index_columns ->
            written_alike (fun c0 => c0 ∉ index_columns) d
              (set_column c value d)).
  { intros c value d Hc.
    eapply written_alike_weaken; [|apply written_alike_set_column].
    intros c0 Hc0 ->. by apply Hc0. }
  unfold build_index.
  destruct (negb (df_empty df)).
  - destruct (has_cols [name_col; dom_col] df);
      [|apply written_alike_refl].
    eapply written_alike_trans;
      [eapply written_alike_trans|]; apply Hset; unfold index_columns;
      in_list.
  - destruct (has_col "IndexUnique" df) eqn:Hc; cbn [negb];
      [apply written_alike_refl|].
    eapply written_alike_weaken;
      [|by apply written_alike_add_empty_column]. done.
Qed.

Lemma frames_evolve_refl p σ : frames_evolve p σ σ.
Proof. intros i df Hi. exists df. split; [done | apply written_alike_refl]. Qed.

Lemma frames_evolve_trans p σ1 σ2 σ3 :
  frames_evolve p σ1 σ2 -> frames_evolve p σ2 σ3 -> frames_evolve p σ1 σ3.
Proof.
  intros H12 H23 i df Hi.
  destruct (H12 i df Hi) as (df2 & Hi2 & Ha).
  destruct (H23 i df2 Hi2) as (df3 & Hi3 & Hb).
  exists df3. split; [done|]. by eapply written_alike_trans.
Qed.

Lemma preserves_ret {A : Type} p (a : A) : preserves p (mret a).
Proof. intros σ. apply frames_evolve_refl. Qed.

Lemma preserves_bind {A B : Type} p (m : Py A) (k : A -> Py B) :
  preserves p m -> (forall a, preserves p (k a)) -> preserves p (m ≫= k).
Proof.
  intros Hm Hk σ. unfold mbind, Py_bind.
  specialize (Hm σ). destruct (m σ) as [a σ'].
  eapply frames_evolve_trans; [exact Hm | apply Hk].
Qed.

Lemma preserves_load p r : preserves p (load r).
Proof. intros σ. apply frames_evolve_refl. Qed.

Lemma preserves_append_result p row : preserves p (append_result row).
Proof.
  intros σ i df Hi. exists df. split; [done | apply written_alike_refl].
Qed.

Lemma preserves_alloc p df : preserves p (alloc df).
Proof.
  intros σ i d Hi. exists d. split; [|apply written_alike_refl].
  cbn. rewrite lookup_app_l; [done|]. by eapply lookup_lt_Some.
Qed.

Lemma preserves_modify p r (f : DataFrame -> DataFrame) :
  (forall df, written_alike (fun c => r <> p \/ c <> "URLConcurrent") df
                (f df)) ->
  preserves p (modify r f).
Proof.
  intros Hf σ i df Hi. cbn.
  destruct (decide (i = r)) as [->|Hne].
  - exists (f df). split; [|apply Hf].
    by rewrite list_lookup_alter_eq, Hi.
  - exists df. split; [|apply written_alike_refl].
    by rewrite list_lookup_alter_ne.
Qed.

Lemma preserves_ensure_columns p r needed required df :
  preserves p (ensure_columns r needed required df).
Proof.
  unfold ensure_columns.
  destruct (has_cols needed df); [apply preserves_ret|].
  destruct (df_empty df); [|apply preserves_ret].
  apply preserves_bind; [|intros; apply preserves_ret].
  apply preserves_modify. intros d.
  eapply written_alike_weaken; [|apply written_alike_add_missing_columns].
  done.
Qed.

Lemma preserves_add_to_manual_verification p product_name domain r url :
  preserves p (add_to_manual_verification product_name domain r url).
Proof.
  unfold add_to_manual_verification.
  apply preserves_bind; [apply preserves_load | intros [df0|]];
    [|apply preserves_ret].
  apply preserves_bind; [apply preserves_ensure_columns | intros [df|]];
    [|apply preserves_ret].
  destruct (negb _); [|apply preserves_ret].
  apply preserves_bind; [apply preserves_alloc | intros; apply preserves_ret].
Qed.

Lemma preserves_remove_from_manual_verification p product_name domain r :
  preserves p (remove_from_manual_verification product_name domain r).
Proof.
  unfold remove_from_manual_verification.
  apply preserves_bind; [apply preserves_load | intros [df|]];
    [|apply preserves_ret].
  destruct (df_empty df); [apply preserves_ret|].
  destruct (negb _); [apply preserves_ret|].
  cbv zeta. destruct (existsb _ _); [|apply preserves_ret].
  apply preserves_bind; [apply preserves_alloc | intros ref'].
  destruct (_ <? _)%nat; apply preserves_ret.
Qed.

Lemma preserves_save_or_update_url p product_name domain url :
  preserves p (save_or_update_url product_name domain url p).
Proof.
  unfold save_or_update_url.
  apply preserves_bind; [apply preserves_load | intros [df0|]];
    [|apply preserves_ret].
  apply preserves_bind; [apply preserves_ensure_columns | intros [df|]];
    [|apply preserves_ret].
  cbv zeta. destruct (List.filter _ (rows df)) as [|first rest].
  - apply preserves_bind; [apply preserves_alloc | intros; apply preserves_ret].
  - destruct (negb _); [|apply preserves_ret].
    apply preserves_bind; [|intros; apply preserves_ret].
    apply preserves_modify. intros d.
    eapply written_alike_weaken; [|apply written_alike_set_url_where].
    intros c [?|?]; done.
Qed.

Lemma preserves_process_single_result similarity_ratio my_product_name
    my_price domain competitor_url http_status competitor_name
    competitor_price verification_df products_url_df :
  preserves products_url_df
    (process_single_result similarity_ratio my_product_name my_price domain
       competitor_url http_status competitor_name competitor_price
       verification_df products_url_df).
Proof.
  unfold process_single_result. cbv zeta.
  apply preserves_bind.
  - destruct (is_success _ _ _); [|apply preserves_ret].
    destruct (name_similarity _ _ _) as [ratio|exc]; [|apply preserves_ret].
    apply preserves_bind; [apply preserves_append_result | intros _].
    apply preserves_bind; [apply preserves_save_or_update_url | intros ?].
    apply preserves_bind;
      [apply preserves_remove_from_manual_verification | intros ?].
    apply preserves_ret.
  - intros [[processed_ok vc] pc].
    destruct (negb processed_ok); [|apply preserves_ret].
    destruct (negb _); [|apply preserves_ret].
    apply preserves_bind;
      [apply preserves_add_to_manual_verification | intros ?].
    apply preserves_ret.
Qed.

Section RunKeepsRows.

Variable similarity_ratio : string -> string -> outcome float.
Variable future_result : future -> outcome result.
Variable as_completed : list future -> list future.
Variable lpv_start_ok : bool.
Variable lpv_is_alive : future -> bool.
Variable lpv_result_queue_get : nat -> queue_get.

Lemma correlate_evolves s n price d u st cn cp v p σ :
  frames_evolve p σ (rs_store s) ->
  frames_evolve p σ
    (rs_store (count_one
                 (correlate similarity_ratio s n price d u st cn cp v p))).
Proof.
  intros Hs. unfold count_one, correlate. cbn [rs_store].
  pose proof (preserves_process_single_result similarity_ratio n price d u
                st cn cp v p (rs_store s)) as Hp.
  destruct (process_single_result _ _ _ _ _ _ _ _ _ _ _) as [[vc pc] σ'].
  by eapply frames_evolve_trans.
Qed.

Lemma handle_future_evolves started v p s fut σ :
  frames_evolve p σ (rs_store s) ->
  frames_evolve p σ
    (rs_store (handle_future similarity_ratio future_result lpv_is_alive
                 started v p s fut)).
Proof.
  intros Hs. unfold handle_future.
  destruct (future_result fut) as [res|exc]; [|exact Hs].
  destruct (bool_decide _); [|by apply correlate_evolves].
  destruct (_ && _); [exact Hs | by apply correlate_evolves].
Qed.

Lemma collect_one_evolves prices v p s i σ :
  frames_evolve p σ (rs_store s) ->
  frames_evolve p σ
    (rs_store (collect_one similarity_ratio lpv_result_queue_get prices v p
                 s i)).
Proof.
  intros Hs. unfold collect_one.
  destruct (lpv_result_queue_get i) as [res| |]; try exact Hs.
  destruct (price_of_answer _ _); [|exact Hs].
  destruct (_ && _); [by apply correlate_evolves | exact Hs].
Qed.

(** In a run the frames only evolve. *)
Lemma process_products_evolves competitors products σ v p s :
  process_products similarity_ratio future_result as_completed lpv_start_ok
    lpv_is_alive lpv_result_queue_get competitors products σ v p
  = Finished s ->
  frames_evolve p σ (rs_store s).
Proof.
  unfold process_products.
  destruct (negb (prices_parse products)); [discriminate|].
  destruct (length products =? 0)%nat; [discriminate|].
  intros [= <-].
  apply (fold_left_invariant (fun s => frames_evolve p σ (rs_store s)));
    [intros a i; apply collect_one_evolves|].
  apply (fold_left_invariant (fun s => frames_evolve p σ (rs_store s)));
    [intros a fut; apply handle_future_evolves|].
  apply frames_evolve_refl.
Qed.

End RunKeepsRows.

(** X18: none of the three cache operations adds a row to a frame of
    the store or removes one from it, not even for the frame it is
    given: after [save_or_update_url] every frame has the rows it had,
    written as before save for the URL cells of the frame the operation
    was given; after [add_to_manual_verification] every frame has the
    rows it had, written as before; after
    [remove_from_manual_verification] every frame is as it was. *)
Theorem cache_operations_keep_the_rows (product_name domain : string)
    (url : option string) (r : ref) (σ : store) (i : nat) (df : DataFrame) :
  frames σ !! i = Some df ->
  (exists df',
     frames (store_after (save_or_update_url product_name domain url r) σ)
     !! i = Some df'
     /\ length (rows df') = length (rows df)
     /\ written_alike (fun c => i <> r \/ c <> "URLConcurrent") df df')
  /\ (exists df',
        frames (store_after
                  (add_to_manual_verification product_name domain r url) σ)
        !! i = Some df'
        /\ length (rows df') = length (rows df)
        /\ written_alike (fun _ => True) df df')
  /\ frames (store_after
               (remove_from_manual_verification product_name domain r) σ)
     !! i = Some df.
Proof.
  intros Hi. split; [|split].
  - destruct (preserves_save_or_update_url r product_name domain url σ i df
                Hi) as (df' & Hi' & Ha).
    exists df'. split; [done|]. split; [|done].
    symmetry. by eapply Forall2_length.
  - destruct (preserves_add_to_manual_verification (S i) product_name domain
                r url σ i df Hi) as (df' & Hi' & Ha).
    exists df'. split; [done|].
    split; [symmetry; by eapply Forall2_length|].
    eapply written_alike_weaken; [|exact Ha]. intros c _. left. lia.
  - assert (Happ : forall new : DataFrame,
              (frames σ ++ [new])%list !! i = Some df).
    { intros new. rewrite lookup_app_l; [done|]. by eapply lookup_lt_Some. }
    unfold store_after, remove_from_manual_verification. unfold_py.
    destruct (frames σ !! r) as [d|]; [|done].
    destruct (df_empty d); [done|].
    destruct (negb _); [done|].
    cbv zeta. destruct (existsb _ _); [|done].
    destruct (_ <? _)%nat; apply Happ.
Qed.

Lemma cache_operations_keep_the_rows_witness :
  frames parked_widget !! 0 = Some
    (mkFrame REQUIRED_COLUMNS_VERIFICATION
       [ {[ "MonNomProduit" := CStr "Widget";
            "Concurrent" := CStr "taklope.com";
            "URLConcurrent" := CStr "http://old" ]} ])
  /\ frames (store_after
               (remove_from_manual_verification "Widget" "taklope.com" 0)
               parked_widget) !! 0
     = Some
         (mkFrame REQUIRED_COLUMNS_VERIFICATION
            [ {[ "MonNomProduit" := CStr "Widget";
                 "Concurrent" := CStr "taklope.com";
                 "URLConcurrent" := CStr "http://old" ]} ]).
Proof.
  split; [reflexivity|].
  exact (proj2 (proj2 (cache_operations_keep_the_rows "Widget" "taklope.com"
                         None 0 parked_widget 0 _ eq_refl))).
Defined.

(** ** Saving the sheets *)

(** X19: after [save_sheets_to_google], whether it returned or raised,
    the two frames of [GlobalStore] are the ones they were, and each
    sheet is saved or still marked: a sheet whose mark is cleared holds
    the header and the data of its frame if it was marked, and is
    untouched if it was not; a sheet whose mark is still set is
    untouched, or empty when the service failed between clearing and
    writing it; and when the function returns no mark is left. *)
Theorem a_sheet_is_saved_or_still_marked (api_v api_p : api_behaviour)
    (g : GlobalStore.t) (remote : sheets) :
  let out := save_sheets_to_google api_v api_p g remote in
  let g' := out.1.2 in
  let remote' := out.2 in
  GlobalStore.verification_df g' = GlobalStore.verification_df g
  /\ GlobalStore.products_url_df g' = GlobalStore.products_url_df g
  /\ (out.1.1 = Returned tt ->
      GlobalStore.verification_changed g' = false
      /\ GlobalStore.products_url_changed g' = false)
  /\ sheet_state (GlobalStore.verification_changed g)
       (GlobalStore.verification_changed g') REQUIRED_COLUMNS_VERIFICATION
       (GlobalStore.verification_df g) (verification_manuelle remote)
       (verification_manuelle remote')
  /\ sheet_state (GlobalStore.products_url_changed g)
       (GlobalStore.products_url_changed g') REQUIRED_COLUMNS_PRODUCTS_URL
       (GlobalStore.products_url_df g) (products_url remote)
       (products_url remote').
Proof.
  destruct g as [vd pd vc pc], remote as [sv sp].
  destruct vc, pc, vd as [vd|], pd as [pd|], api_v, api_p;
    cbn; unfold sheet_state; cbn; repeat split; try done; auto.
Qed.

(** What a sheet can hold after a save, whatever the service does. *)
Lemma save_sheets_to_google_sheets api_v api_p g remote :
  let out := save_sheets_to_google api_v api_p g remote in
  (verification_manuelle out.2 = verification_manuelle remote
   \/ verification_manuelle out.2 = []
   \/ exists df, GlobalStore.verification_df g = Some df
                 /\ verification_manuelle out.2
                    = data_to_update REQUIRED_COLUMNS_VERIFICATION df)
  /\ (products_url out.2 = products_url remote
      \/ products_url out.2 = []
      \/ exists df, GlobalStore.products_url_df g = Some df
                    /\ products_url out.2
                       = data_to_update REQUIRED_COLUMNS_PRODUCTS_URL df).
Proof.
  destruct g as [vd pd vc pc], remote as [sv sp].
  destruct vc, pc, vd as [vd|], pd as [pd|], api_v, api_p;
    cbn; split; eauto.
Qed.

(** ** A run, from the sheets to the sheets *)

Ltac not_index_column :=
  let H := fresh in
  intros H; unfold index_columns in H;
  rewrite !elem_of_cons, elem_of_nil in H;
  repeat (destruct H as [H|H]; [discriminate|]); exact H.

Lemma update_global_store_frames s v p g :
  GlobalStore.verification_df (update_global_store s v p g)
  = (if verification_needs_global_update s then frames (rs_store s) !! v
     else GlobalStore.verification_df g)
  /\ GlobalStore.products_url_df (update_global_store s v p g)
     = (if products_url_needs_global_update s then frames (rs_store s) !! p
        else GlobalStore.products_url_df g).
Proof.
  unfold update_global_store.
  by destruct (verification_needs_global_update s),
    (products_url_needs_global_update s).
Qed.

Section RunAndSheets.

Variable similarity_ratio : string -> string -> outcome float.
Variable future_result : future -> outcome result.
Variable as_completed : list future -> list future.
Variable lpv_start_ok : bool.
Variable lpv_is_alive : future -> bool.
Variable lpv_result_queue_get : nat -> queue_get.
Variable numeric_text : list (option sheet_value) -> sheet_value -> string.

(** X20: a run adds no row to a sheet and removes none.  Whatever the
    catalog, the collaborators and the sheet service do, the
    verification sheet is afterwards what it was before the run, or
    empty (the service failed between clearing and writing it), or the
    header and the rows that were loaded from it at the start of the
    run; and the sheet of confirmed URLs is what it was, or empty, or
    the header and one row for each row loaded, with the same product
    name and domain. *)
Theorem a_run_adds_no_row_to_the_sheets
    (verification_records products_url_records : outcome (list sheet_record))
    (api_v api_p : api_behaviour) (competitors : list string)
    (products : list product_row) (g : GlobalStore.t) (remote : sheets) :
  let out := process_products_with_sheets similarity_ratio future_result
               as_completed lpv_start_ok lpv_is_alive lpv_result_queue_get
               numeric_text verification_records products_url_records api_v api_p
               competitors products g remote in
  (verification_manuelle out.2 = verification_manuelle remote
   \/ verification_manuelle out.2 = []
   \/ verification_manuelle out.2
      = data_to_update REQUIRED_COLUMNS_VERIFICATION
          (loaded_verification numeric_text verification_records))
  /\ (products_url out.2 = products_url remote
      \/ products_url out.2 = []
      \/ exists df,
           products_url out.2
           = data_to_update REQUIRED_COLUMNS_PRODUCTS_URL df
           /\ data_rows ["NomProduit"; "CompetitorDomain"] df
              = data_rows ["NomProduit"; "CompetitorDomain"]
                  (loaded_products_url numeric_text products_url_records)).
Proof.
  cbv zeta. unfold process_products_with_sheets, load_initial_frames.
  set (g0 := load_sheets_into_memory numeric_text verification_records
               products_url_records g).
  change (GlobalStore.verification_df g0)
    with (Some (loaded_verification numeric_text verification_records)).
  change (GlobalStore.products_url_df g0)
    with (Some (loaded_products_url numeric_text products_url_records)).
  cbn [default].
  set (vdf := loaded_verification numeric_text verification_records).
  set (pdf := loaded_products_url numeric_text products_url_records).
  set (vidx := build_index "MonNomProduit" "Concurrent" vdf).
  set (pidx := build_index "NomProduit" "CompetitorDomain" pdf).
  destruct (process_products _ _ _ _ _ _ _ _ _ _ _) as [| |s] eqn:Hrun;
    [cbn; auto..|].
  apply process_products_evolves in Hrun.
  destruct (Hrun 0 vidx eq_refl) as (v' & Hv' & Hav).
  destruct (Hrun 1 pidx eq_refl) as (p' & Hp' & Hap).
  assert (Hv : data_to_update REQUIRED_COLUMNS_VERIFICATION v'
               = data_to_update REQUIRED_COLUMNS_VERIFICATION vdf).
  { unfold data_to_update. f_equal.
    apply (written_alike_data_rows (fun c => c ∉ index_columns)).
    - eapply written_alike_trans; [apply written_alike_build_index|].
      eapply written_alike_weaken; [|exact Hav]. intros c _. by left.
    - repeat constructor; not_index_column. }
  assert (Hp : data_rows ["NomProduit"; "CompetitorDomain"] p'
               = data_rows ["NomProduit"; "CompetitorDomain"] pdf).
  { apply (written_alike_data_rows
             (fun c => (c ∉ index_columns) /\ c <> "URLConcurrent")).
    - eapply written_alike_trans.
      + eapply written_alike_weaken; [|apply written_alike_build_index].
        by intros c [? _].
      + eapply written_alike_weaken; [|exact Hap]. intros c [_ ?]. by right.
    - repeat constructor; first [not_index_column | discriminate]. }
  set (g1 := update_global_store s 0 1 g0).
  destruct (update_global_store_frames s 0 1 g0) as [Hgv Hgp].
  fold g1 in Hgv, Hgp. rewrite Hv' in Hgv. rewrite Hp' in Hgp.
  unfold save_final. destruct (_ || _); [|cbn; auto].
  pose proof (save_sheets_to_google_sheets api_v api_p g1 remote) as Hs.
  destruct (save_sheets_to_google api_v api_p g1 remote)
    as [[o g'] remote'].
  cbn [fst snd] in Hs |- *. destruct Hs as [Hsv Hsp]. split.
  - destruct Hsv as [?|[?|(df & Hdf & ->)]]; [by left | by right; left|].
    right. right. rewrite Hdf in Hgv.
    destruct (verification_needs_global_update s); by injection Hgv as ->.
  - destruct Hsp as [?|[?|(df & Hdf & ->)]]; [by left | by right; left|].
    right. right. exists df. split; [done|]. rewrite Hdf in Hgp.
    destruct (products_url_needs_global_update s); by injection Hgp as ->.
Qed.

Lemma save_sheets_to_google_verification api_p g remote df :
  GlobalStore.verification_changed g = true ->
  GlobalStore.verification_df g = Some df ->
  verification_manuelle (save_sheets_to_google ApiOk api_p g remote).2
  = data_to_update REQUIRED_COLUMNS_VERIFICATION df.
Proof.
  destruct g as [vd pd vc pc], remote as [sv sp]. cbn. intros -> ->.
  by destruct pc, pd as [pd|], api_p.
Qed.

(** X21: when a run has marked the verification collection as changed
    (or it was marked before) and the sheet service works, the
    verification sheet is overwritten with the header and the rows
    that were loaded at the start of the run - so that a run that
    could not read the sheet overwrites it with the bare header. *)
Theorem a_marked_verification_sheet_is_rewritten_as_loaded
    (verification_records products_url_records : outcome (list sheet_record))
    (api_p : api_behaviour) (competitors : list string)
    (products : list product_row) (g : GlobalStore.t) (remote : sheets)
    (s : run_state) :
  let loaded := load_initial_frames
                  (load_sheets_into_memory numeric_text verification_records
                     products_url_records g) in
  process_products similarity_ratio future_result as_completed lpv_start_ok
    lpv_is_alive lpv_result_queue_get competitors products
    (mkStore [loaded.1; loaded.2] []) 0 1 = Finished s ->
  verification_needs_global_update s = true
  \/ GlobalStore.verification_changed g = true ->
  let out := process_products_with_sheets similarity_ratio future_result
               as_completed lpv_start_ok lpv_is_alive lpv_result_queue_get
               numeric_text verification_records products_url_records ApiOk api_p
               competitors products g remote in
  verification_manuelle out.2
  = data_to_update REQUIRED_COLUMNS_VERIFICATION
      (loaded_verification numeric_text verification_records)
  /\ (forall e, verification_records = Raised e ->
      verification_manuelle out.2 = [REQUIRED_COLUMNS_VERIFICATION]).
Proof.
  cbv zeta. unfold process_products_with_sheets, load_initial_frames.
  set (g0 := load_sheets_into_memory numeric_text verification_records
               products_url_records g).
  change (GlobalStore.verification_df g0)
    with (Some (loaded_verification numeric_text verification_records)).
  change (GlobalStore.products_url_df g0)
    with (Some (loaded_products_url numeric_text products_url_records)).
  cbn [default fst snd].
  set (vdf := loaded_verification numeric_text verification_records).
  set (pdf := loaded_products_url numeric_text products_url_records).
  set (vidx := build_index "MonNomProduit" "Concurrent" vdf).
  set (pidx := build_index "NomProduit" "CompetitorDomain" pdf).
  intros Hrun Hmark. rewrite Hrun.
  apply process_products_evolves in Hrun.
  destruct (Hrun 0 vidx eq_refl) as (v' & Hv' & Hav).
  assert (Hv : data_to_update REQUIRED_COLUMNS_VERIFICATION v'
               = data_to_update REQUIRED_COLUMNS_VERIFICATION vdf).
  { unfold data_to_update. f_equal.
    apply (written_alike_data_rows (fun c => c ∉ index_columns)).
    - eapply written_alike_trans; [apply written_alike_build_index|].
      eapply written_alike_weaken; [|exact Hav]. intros c _. by left.
    - repeat constructor; not_index_column. }
  set (g1 := update_global_store s 0 1 g0).
  destruct (update_global_store_frames s 0 1 g0) as [Hgv _].
  fold g1 in Hgv. rewrite Hv' in Hgv.
  assert (Hflag : GlobalStore.verification_changed g1 = true).
  { unfold g1, update_global_store.
    destruct Hmark as [-> | Hg].
    - by destruct (products_url_needs_global_update s).
    - by destruct (verification_needs_global_update s),
        (products_url_needs_global_update s). }
  assert (Hsheet : verification_manuelle (save_final ApiOk api_p g1 remote).2
                   = data_to_update REQUIRED_COLUMNS_VERIFICATION vdf).
  { unfold save_final. rewrite Hflag. cbn [orb].
    destruct (verification_needs_global_update s).
    - rewrite <- Hv.
      rewrite <- (save_sheets_to_google_verification api_p g1 remote v' Hflag
                    Hgv).
      by destruct (save_sheets_to_google ApiOk api_p g1 remote) as [[o g'] r'].
    - rewrite <- (save_sheets_to_google_verification api_p g1 remote vdf Hflag
                    Hgv).
      by destruct (save_sheets_to_google ApiOk api_p g1 remote) as [[o g'] r'].
  }
  split; [exact Hsheet|]. intros e He. rewrite Hsheet. unfold vdf.
  by rewrite He.
Qed.

End RunAndSheets.

(** ** Loading a sheet *)

Lemma list_to_map_lookup_map (f : string -> cell) (required : list string)
    (c : string) :
  c ∈ required ->
  (list_to_map (map (fun c => (c, f c)) required) : gmap string cell) !! c
  = Some (f c).
Proof.
  induction required as [|c0 required IH]; [by intros ?%elem_of_nil|].
  cbn [map list_to_map foldr]. intros Hc.
  destruct (decide (c = c0)) as [->|Hne]; [apply lookup_insert_eq|].
  rewrite lookup_insert_ne by done. apply IH.
  apply elem_of_cons in Hc as [?|?]; done.
Qed.

(** X22: writing back a frame that was loaded from records that all
    carry the required labels gives, row by row, the cells of the
    records under these labels: the order of the rows is kept; a cell
    that holds a text is written as that text, an empty one stays
    empty; a cell that holds a number is written as the typing of its
    column formats it, which need not be the text the sheet showed.
    Hence a sheet whose cells under the required labels are all texts
    is written as it was read. *)
Theorem loaded_frame_is_written_as_read
    (numeric_text : list (option sheet_value) -> sheet_value -> string)
    (required : list string) (data : list sheet_record) :
  Forall (fun rec => Forall (fun c => is_Some (rec !! c)) required) data ->
  data_rows required (frame_of_records numeric_text required data)
  = map (fun rec =>
           map (fun c => match rec !! c with
                         | Some (SVStr s) => s
                         | Some number =>
                             numeric_text (column_of c data) number
                         | None => ""
                         end) required) data
  /\ (Forall (fun rec =>
                Forall (fun c => exists s, rec !! c = Some (SVStr s))
                  required) data ->
      data_rows required (frame_of_records numeric_text required data)
      = map (fun rec =>
               map (fun c => match rec !! c with
                             | Some (SVStr s) => s
                             | _ => ""
                             end) required) data).
Proof.
  intros Hdata.
  assert (Hrows :
            data_rows required (frame_of_records numeric_text required data)
            = map (fun rec =>
                     map (fun c => match rec !! c with
                                   | Some (SVStr s) => s
                                   | Some number =>
                                       numeric_text (column_of c data) number
                                   | None => ""
                                   end) required) data).
  { unfold data_rows, frame_of_records. cbn [rows].
    rewrite map_map.
    apply map_ext_in. intros rec Hrec%list_elem_of_In.
    rewrite Forall_forall in Hdata. specialize (Hdata rec Hrec).
    apply map_ext_in. intros c Hc%list_elem_of_In.
    rewrite Forall_forall in Hdata. destruct (Hdata c Hc) as [v Hv].
    unfold sheet_cell, has_col, at_col. cbn [columns].
    rewrite bool_decide_eq_true_2 by done.
    rewrite (list_to_map_lookup_map
               (fun c => CStr (if in_records c data
                               then cell_text numeric_text (column_of c data)
                                      (rec !! c)
                               else ""))
               required c Hc).
    cbn [default]. rewrite Hv.
    assert (Hin : in_records c data = true).
    { unfold in_records. apply existsb_exists. exists rec.
      split; [by apply list_elem_of_In|].
      apply bool_decide_eq_true_2. by rewrite Hv. }
    rewrite Hin. by destruct v. }
  split; [exact Hrows|]. intros Htext. rewrite Hrows.
  apply map_ext_in. intros rec Hrec%list_elem_of_In.
  rewrite Forall_forall in Htext. specialize (Htext rec Hrec).
  apply map_ext_in. intros c Hc%list_elem_of_In.
  rewrite Forall_forall in Htext. by destruct (Htext c Hc) as [text ->].
Qed.

Lemma loaded_frame_is_written_as_read_witness :
  Forall (fun rec => Forall (fun c => is_Some (rec !! c))
                       REQUIRED_COLUMNS_VERIFICATION)
    verification_records_sample
  /\ data_rows REQUIRED_COLUMNS_VERIFICATION
       (frame_of_records numeric_text_sample REQUIRED_COLUMNS_VERIFICATION
          verification_records_sample)
     = [["Widget"; "taklope.com"; "http://t/w"];
        ["Gadget"; "kumulusvape.fr"; ""]].
Proof.
  assert (H : Forall (fun rec => Forall (fun c => is_Some (rec !! c))
                                   REQUIRED_COLUMNS_VERIFICATION)
                verification_records_sample).
  { repeat constructor; by eexists. }
  split; [exact H|].
  rewrite (proj1 (loaded_frame_is_written_as_read numeric_text_sample
                    REQUIRED_COLUMNS_VERIFICATION
                    verification_records_sample H)).
  reflexivity.
Defined.

(** ** The report *)

Lemma keeps_ret {A : Type} (a : A) : keeps_report (mret a).
Proof. by intros σ. Qed.

Lemma keeps_bind {A B : Type} (m : Py A) (k : A -> Py B) :
  keeps_report m -> (forall a, keeps_report (k a)) -> keeps_report (m ≫= k).
Proof.
  intros Hm Hk σ. unfold mbind, Py_bind.
  specialize (Hm σ). destruct (m σ) as [a σ']. by rewrite Hk.
Qed.

Lemma keeps_load r : keeps_report (load r).
Proof. by intros σ. Qed.

Lemma keeps_alloc df : keeps_report (alloc df).
Proof. by intros σ. Qed.

Lemma keeps_modify r f : keeps_report (modify r f).
Proof. by intros σ. Qed.

Lemma keeps_ensure_columns r needed required df :
  keeps_report (ensure_columns r needed required df).
Proof.
  unfold ensure_columns.
  destruct (has_cols needed df); [apply keeps_ret|].
  destruct (df_empty df); [|apply keeps_ret].
  apply keeps_bind; [apply keeps_modify | intros; apply keeps_ret].
Qed.

Lemma keeps_add_to_manual_verification product_name domain r url :
  keeps_report (add_to_manual_verification product_name domain r url).
Proof.
  unfold add_to_manual_verification.
  apply keeps_bind; [apply keeps_load | intros [df0|]]; [|apply keeps_ret].
  apply keeps_bind; [apply keeps_ensure_columns | intros [df|]];
    [|apply keeps_ret].
  destruct (negb _); [|apply keeps_ret].
  apply keeps_bind; [apply keeps_alloc | intros; apply keeps_ret].
Qed.

Lemma keeps_remove_from_manual_verification product_name domain r :
  keeps_report (remove_from_manual_verification product_name domain r).
Proof.
  unfold remove_from_manual_verification.
  apply keeps_bind; [apply keeps_load | intros [df|]]; [|apply keeps_ret].
  destruct (df_empty df); [apply keeps_ret|].
  destruct (negb _); [apply keeps_ret|].
  cbv zeta. destruct (existsb _ _); [|apply keeps_ret].
  apply keeps_bind; [apply keeps_alloc | intros ref'].
  destruct (_ <? _)%nat; apply keeps_ret.
Qed.

Lemma keeps_save_or_update_url product_name domain url r :
  keeps_report (save_or_update_url product_name domain url r).
Proof.
  unfold save_or_update_url.
  apply keeps_bind; [apply keeps_load | intros [df0|]]; [|apply keeps_ret].
  apply keeps_bind; [apply keeps_ensure_columns | intros [df|]];
    [|apply keeps_ret].
  cbv zeta. destruct (List.filter _ (rows df)) as [|first rest].
  - apply keeps_bind; [apply keeps_alloc | intros; apply keeps_ret].
  - destruct (negb _); [|apply keeps_ret].
    apply keeps_bind; [apply keeps_modify | intros; apply keeps_ret].
Qed.

Lemma results_bind_keeps {A B : Type} (m : Py A) (k : A -> Py B) σ :
  (forall a, keeps_report (k a)) ->
  results_list ((m ≫= k) σ).2 = results_list (m σ).2.
Proof.
  intros Hk. unfold mbind, Py_bind. destruct (m σ) as [a σ']. apply Hk.
Qed.

(** A call of the correlator, for a product price that is a number and
    a competitor price as a task returns it, adds at most one row to
    the report, and a consistent one. *)
Lemma process_single_result_report similarity_ratio my_product_name
    (my_p : float) domain competitor_url http_status competitor_name
    (price : option float) verification_df products_url_df σ :
  exists extra,
    results_list
      (process_single_result similarity_ratio my_product_name (VNum my_p)
         domain competitor_url http_status competitor_name (price_val price)
         verification_df products_url_df σ).2
    = (results_list σ ++ extra)%list
    /\ length extra <= 1
    /\ Forall report_row_consistent extra.
Proof.
  unfold process_single_result. cbv zeta.
  rewrite results_bind_keeps.
  2:{ intros [[processed_ok vc] pc].
      destruct (negb processed_ok); [|apply keeps_ret].
      destruct (negb _); [|apply keeps_ret].
      apply keeps_bind;
        [apply keeps_add_to_manual_verification | intros; apply keeps_ret]. }
  destruct (is_success http_status competitor_name (price_val price)) eqn:Hs;
    [|exists []; rewrite app_nil_r; repeat split; [cbn; lia | constructor]].
  destruct (name_similarity _ _ _) as [ratio|exc];
    [|exists []; rewrite app_nil_r; repeat split; [cbn; lia | constructor]].
  exists [report_row my_product_name (VNum my_p) domain competitor_url
            competitor_name (price_val price) ratio].
  split; [|split; [done|]].
  - rewrite results_bind_keeps; [done|]. intros _.
    apply keeps_bind; [apply keeps_save_or_update_url | intros p].
    apply keeps_bind;
      [apply keeps_remove_from_manual_verification | intros v].
    apply keeps_ret.
  - constructor; [|constructor].
    unfold is_success in Hs.
    apply andb_true_iff in Hs as [[_ Hname]%andb_true_iff Hprice].
    destruct price as [comp_p|]; [|discriminate].
    destruct competitor_name as [name|]; [|discriminate].
    exists my_p, comp_p. repeat split; try done.
    cbn. by destruct name.
Qed.

Section RunReport.

Variable similarity_ratio : string -> string -> outcome float.
Variable future_result : future -> outcome result.
Variable as_completed : list future -> list future.
Variable lpv_start_ok : bool.
Variable lpv_is_alive : future -> bool.
Variable lpv_result_queue_get : nat -> queue_get.

Lemma count_one_report σ s : report_ok σ s -> report_ok σ (count_one s).
Proof.
  intros (extra & He & Hn & Hok). exists extra.
  unfold count_one. cbn [rs_store completed_final_tasks].
  repeat split; [done | lia | done].
Qed.

Lemma count_after_correlate_report σ s n my_p d u st cn price v p :
  report_ok σ s ->
  report_ok σ
    (count_one (correlate similarity_ratio s n (VNum my_p) d u st cn
                  (price_val price) v p)).
Proof.
  intros (extra & He & Hn & Hok).
  destruct (process_single_result_report similarity_ratio n my_p d u st cn
              price v p (rs_store s)) as (new & Hnew & Hone & Hnew_ok).
  exists (extra ++ new)%list. unfold count_one, correlate.
  destruct (process_single_result _ _ _ _ _ _ _ _ _ _ _) as [[vc pc] σ'].
  cbn [rs_store completed_final_tasks snd] in *.
  rewrite Hnew, He, length_app, app_assoc.
  repeat split; [lia | by apply Forall_app].
Qed.

Lemma handle_future_report σ started v p s fut :
  report_ok σ s ->
  report_ok σ
    (handle_future similarity_ratio future_result lpv_is_alive started v p
       s fut).
Proof.
  intros Hs. unfold handle_future.
  destruct (future_result fut) as [res|exc]; [|by apply count_one_report].
  destruct (bool_decide _); [|by apply count_after_correlate_report].
  destruct (_ && _); [exact Hs|].
  by apply (count_after_correlate_report σ s _ _ _ _ _ _ None).
Qed.

Lemma collect_one_report σ prices v p s i :
  report_ok σ s ->
  report_ok σ
    (collect_one similarity_ratio lpv_result_queue_get prices v p s i).
Proof.
  intros Hs. unfold collect_one.
  destruct (lpv_result_queue_get i) as [res| |];
    try by apply count_one_report.
  destruct (price_of_answer _ _); [|by apply count_one_report].
  destruct (_ && _);
    [by apply count_after_correlate_report | by apply count_one_report].
Qed.

(** X23: the report of a run has at most one row for each completed
    task, after the rows the store held before, and each of these rows
    is consistent in itself: it compares two numbers, the competitor
    product has a name, the row says the competitor is cheaper exactly
    when its price is below mine, and the difference is the one of the
    two prices. *)
Theorem report_has_consistent_rows (competitors : list string)
    (products : list product_row) (σ : store)
    (verification_df products_url_df : ref) (s : run_state) :
  process_products similarity_ratio future_result as_completed lpv_start_ok
    lpv_is_alive lpv_result_queue_get competitors products σ verification_df
    products_url_df = Finished s ->
  exists extra,
    results_list (rs_store s) = (results_list σ ++ extra)%list
    /\ length extra <= completed_final_tasks s
    /\ Forall report_row_consistent extra.
Proof.
  unfold process_products.
  destruct (negb (prices_parse products)); [discriminate|].
  destruct (length products =? 0)%nat; [discriminate|].
  intros [= <-].
  apply (fold_left_invariant (report_ok σ));
    [intros a i; apply collect_one_report|].
  apply (fold_left_invariant (report_ok σ));
    [intros a fut; apply handle_future_report|].
  exists []. cbn. rewrite app_nil_r. repeat split; [lia | constructor].
Qed.

End RunReport.

Lemma report_has_consistent_rows_witness :
  exists s,
    scenario_run = Finished s
    /\ exists extra,
         results_list (rs_store s) = (results_list fresh_store ++ extra)%list
         /\ length extra <= completed_final_tasks s.
Proof.
  assert (Hrun : exists s, scenario_run = Finished s)
    by (eexists; vm_compute; reflexivity).
  destruct Hrun as (s & Hrun). exists s. split; [exact Hrun|].
  destruct (report_has_consistent_rows similarity_constant scenario_future
              (@List.rev future) true (fun _ => true) (fun _ => Empty)
              scenario_competitors scenario_catalog fresh_store
              verification_ref products_url_ref s Hrun)
    as (extra & Hextra & Hlen & _).
  exists extra. split; [exact Hextra | exact Hlen].
Defined.

Lemma a_marked_verification_sheet_is_rewritten_as_loaded_witness :
  exists s,
    process_products similarity_constant scenario_future (@List.rev future)
      true (fun _ => true) (fun _ => Empty) scenario_competitors
      scenario_catalog
      (mkStore
         [(load_initial_frames
             (load_sheets_into_memory numeric_text_sample
                (Raised "APIError") (Raised "APIError")
                (GlobalStore.mk None None false false))).1;
          (load_initial_frames
             (load_sheets_into_memory numeric_text_sample
                (Raised "APIError") (Raised "APIError")
                (GlobalStore.mk None None false false))).2] []) 0 1
    = Finished s
    /\ verification_needs_global_update s = true
    /\ verification_manuelle
         (process_products_with_sheets similarity_constant scenario_future
            (@List.rev future) true (fun _ => true) (fun _ => Empty)
            numeric_text_sample (Raised "APIError") (Raised "APIError")
            ApiOk ApiOk
            scenario_competitors scenario_catalog
            (GlobalStore.mk None None false false)
            (mkSheets [["MonNomProduit"; "Concurrent"; "URLConcurrent"];
                       ["Widget"; "kumulusvape.fr"; ""]] [])).2
       = [REQUIRED_COLUMNS_VERIFICATION].
Proof.
  assert (Hrun : exists s,
            process_products similarity_constant scenario_future
              (@List.rev future) true (fun _ => true) (fun _ => Empty)
              scenario_competitors scenario_catalog
              (mkStore
                 [(load_initial_frames
                     (load_sheets_into_memory numeric_text_sample
                (Raised "APIError")
                        (Raised "APIError")
                        (GlobalStore.mk None None false false))).1;
                  (load_initial_frames
                     (load_sheets_into_memory numeric_text_sample
                (Raised "APIError")
                        (Raised "APIError")
                        (GlobalStore.mk None None false false))).2] []) 0 1
            = Finished s
            /\ verification_needs_global_update s = true).
  { eexists. split; [vm_compute; reflexivity | reflexivity]. }
  destruct Hrun as (s & Hrun & Hmark). exists s.
  split; [exact Hrun|]. split; [exact Hmark|].
  exact (proj2 (a_marked_verification_sheet_is_rewritten_as_loaded
                  similarity_constant scenario_future (@List.rev future) true
                  (fun _ => true) (fun _ => Empty) numeric_text_sample
                  (Raised "APIError") (Raised "APIError") ApiOk
                  scenario_competitors
                  scenario_catalog (GlobalStore.mk None None false false)
                  (mkSheets [["MonNomProduit"; "Concurrent"; "URLConcurrent"];
                             ["Widget"; "kumulusvape.fr"; ""]] [])
                  s Hrun (or_introl Hmark)) "APIError" eq_refl).
Defined.
